(** * Deribit historical-data downloader: model and verified properties

    Shallow embedding of [scripts/download_historical_data.py].

    The script is sequential Python with side effects (HTTP requests,
    printing, sleeping, the file system) and exceptions.  It is embedded as
    state-passing functions over a [World] in a small state-and-exception
    monad [Py].  Python values are the values a JSON document parses to.
    The [while] loop of [_fetch_data_in_chunks] is a [Fixpoint] on a fuel
    argument, with a separate outcome for exhausted fuel, so that
    termination is a theorem and not a property of the encoding. *)

From Stdlib Require Import ZArith List String Ascii Lia Bool.
From stdpp Require Import base strings gmap list pretty.
Import ListNotations.
Local Open Scope Z_scope.

(** ** Python values *)

(** A finite binary float, [fmant * 2 ^ fexp]. *)
Record pyfloat := PyFloat { fmant : Z; fexp : Z }.

(** What [response.json()] can return: [None], [bool], [int], [float],
    [str], [list] and [dict].  A [dict] keeps insertion order, so it is an
    association list; in Python its keys are pairwise distinct, and lookup
    below takes the first binding of a key.  A [str] is held as the bytes
    of its text: for ASCII text, which is what the script itself writes,
    they are its characters, and [len] and iteration below count them;
    a character outside ASCII counts once for each byte of its UTF-8
    form. *)
#[warnings="-register-all"]
Inductive pyval :=
| PNone
| PBool (b : bool)
| PInt (z : Z)
| PFloat (f : pyfloat)
| PStr (s : string)
| PList (l : list pyval)
| PDict (kvs : list (string * pyval)).

Inductive exn :=
| TypeError
| KeyError
| AttributeError
| ValueError
| FileNotFoundError
| FileExistsError
| IsADirectoryError
| NotADirectoryError
| OverflowError
| OSError
| RecursionError.

(** Result of running a piece of Python: a value, an exception that
    propagates, or (for the fuel-bounded loop only) fuel exhausted. *)
Inductive outcome (A : Type) :=
| Return (a : A)
| Raise (e : exn)
| OutOfFuel.
Arguments Return {A} a.
Arguments Raise {A} e.
Arguments OutOfFuel {A}.

(** [bool(v)]: truth value of a Python object. *)
Definition truthy (v : pyval) : bool :=
  match v with
  | PNone => false
  | PBool b => b
  | PInt z => negb (z =? 0)
  | PFloat f => negb (fmant f =? 0)
  | PStr s => negb (String.eqb s EmptyString)
  | PList l => match l with [] => false | _ => true end
  | PDict kvs => match kvs with [] => false | _ => true end
  end.

Definition dict_keys (kvs : list (string * pyval)) : list string := map fst kvs.

(** [d.get(k)] on a dict. *)
Fixpoint dict_get (k : string) (kvs : list (string * pyval)) : option pyval :=
  match kvs with
  | [] => None
  | (k', v) :: rest => if String.eqb k k' then Some v else dict_get k rest
  end.

Definition is_substring (k s : string) : bool :=
  match String.index 0 k s with Some _ => true | None => false end.

Definition str_elem (k : string) (v : pyval) : bool :=
  match v with PStr s => String.eqb k s | _ => false end.

(** [k in v] for a string [k]: key membership on a dict, element membership
    on a list, substring test on a str, [TypeError] on anything else. *)
Definition py_contains (k : string) (v : pyval) : outcome bool :=
  match v with
  | PDict kvs => Return (existsb (String.eqb k) (dict_keys kvs))
  | PList l => Return (existsb (str_elem k) l)
  | PStr s => Return (is_substring k s)
  | PNone | PBool _ | PInt _ | PFloat _ => Raise TypeError
  end.

(** [v[k]] for a string [k]. *)
Definition py_getitem (v : pyval) (k : string) : outcome pyval :=
  match v with
  | PDict kvs => match dict_get k kvs with Some x => Return x | None => Raise KeyError end
  | _ => Raise TypeError
  end.

Definition chars (s : string) : list pyval :=
  map (fun c => PStr (String c EmptyString)) (list_ascii_of_string s).

(** The items [list.extend(v)] appends: iterating a list gives its elements,
    a dict its keys, a str its characters; other values are not iterable. *)
Definition py_iter (v : pyval) : outcome (list pyval) :=
  match v with
  | PList l => Return l
  | PDict kvs => Return (map PStr (dict_keys kvs))
  | PStr s => Return (chars s)
  | PNone | PBool _ | PInt _ | PFloat _ => Raise TypeError
  end.

(** [len(v)]. *)
Definition py_len (v : pyval) : outcome nat :=
  match v with
  | PList l => Return (length l)
  | PDict kvs => Return (length kvs)
  | PStr s => Return (String.length s)
  | PNone | PBool _ | PInt _ | PFloat _ => Raise TypeError
  end.

(** ** The outside world *)

(** The GET request of [_get_funding_rate_history_chunk]: URL and the three
    query parameters. *)
Record Request := mkRequest {
  req_url : string;
  req_instrument_name : string;
  req_start_timestamp : Z;
  req_end_timestamp : Z }.

(** What [requests.get] followed by [response.json()] can observe.
    [TransportFailure]: [requests.get] raised a [RequestException].
    [HttpResponse status body]: a response arrived; [body] is [None] when the
    payload is not JSON, in which case [response.json()] raises
    [requests.exceptions.JSONDecodeError], a [RequestException].
    [BodyFailure status e]: a response arrived and [response.json()] raises
    [e], an exception that is not a [RequestException]: the decoder's
    [ValueError] for an integer with more digits than the interpreter
    converts, its [RecursionError] for a document nested too deeply. *)
Inductive http_outcome :=
| TransportFailure (msg : string)
| HttpResponse (status : Z) (body : option pyval)
| BodyFailure (status : Z) (e : exn).

(** A naive local date-time, as [datetime.datetime.now()] returns it. *)
Record datetime := mkDatetime {
  year : N; month : N; day : N;
  hour : N; minute : N; second : N; microsecond : N }.

Definition csv_row := list pyval.

(** Directories that exist and regular files with the CSV rows they hold,
    each under the canonical name of its place: a slash, and the names on
    the way from the root joined by slashes.  [cwd] is the working
    directory of the process, as the names from the root to it, innermost
    first; the root, the working directory and the directories between
    them exist and need not be listed.  The file system has no links, the
    process may search and write everywhere in it, the device has room,
    and text is encoded as UTF-8. *)
Record FS := mkFS {
  dirs : gset string;
  files : gmap string (list csv_row);
  cwd : list string }.

(** The model follows events, not the passage of time.  The script reads
    the clock once, when it names the output file; [clock] is the reading
    that call of [datetime.now()] returns.  Sleeping and waiting for the
    exchange are logged in [slept] and [sent] and leave [clock] alone: it
    is the reading at the moment of that call, not the time at which a
    world is looked at. *)
Record World := mkWorld {
  sent : list Request;      (* requests issued so far, oldest first *)
  stdout : list string;     (* lines printed so far, oldest first *)
  slept : list pyfloat;     (* arguments of the time.sleep calls so far *)
  clock : datetime;         (* what datetime.now() reads *)
  fs : FS }.

(** ** The monad of Python statements *)

Definition Py (A : Type) : Type := World -> outcome A * World.

Definition ret {A} (a : A) : Py A := fun w => (Return a, w).

Definition bind {A B} (m : Py A) (k : A -> Py B) : Py B :=
  fun w =>
    match m w with
    | (Return a, w') => k a w'
    | (Raise e, w') => (Raise e, w')
    | (OutOfFuel, w') => (OutOfFuel, w')
    end.

Definition lift {A} (o : outcome A) : Py A := fun w => (o, w).

(** A call into a library that returns a value or raises. *)
Definition of_sum {A} (r : A + exn) : outcome A :=
  match r with inl a => Return a | inr e => Raise e end.

Declare Scope py_scope.
Delimit Scope py_scope with py.
Notation "x <- m ;; k" := (bind m (fun x => k))
  (at level 100, m at next level, right associativity) : py_scope.
Notation "m ;;; k" := (bind m (fun _ => k))
  (at level 100, right associativity) : py_scope.

Definition print (line : string) : Py unit :=
  fun w => (Return tt,
            mkWorld (sent w) (stdout w ++ [line]) (slept w) (clock w) (fs w)).

(** [bound <= secs * 10 ^ 9], for a float [secs = fmant * 2 ^ fexp]. *)
Definition nanoseconds_reach (secs : pyfloat) (bound : Z) : bool :=
  if 0 <=? fexp secs then bound <=? fmant secs * 2 ^ fexp secs * 10 ^ 9
  else bound * 2 ^ (- fexp secs) <=? fmant secs * 10 ^ 9.

(** What [time.sleep] refuses.  The interval is converted to nanoseconds
    in a double, which must lie in the range of a signed 64-bit integer,
    or the call raises [OverflowError]; the product is rounded to the
    nearest double, so it reaches [2 ^ 63] from [2 ^ 63 - 2 ^ 9] on and
    falls below [- 2 ^ 63] under [- 2 ^ 63 - 2 ^ 10].  A negative interval
    that passes this test raises [ValueError]. *)
Definition sleep_refused (secs : pyfloat) : option exn :=
  if nanoseconds_reach secs (2 ^ 63 - 2 ^ 9)
     || negb (nanoseconds_reach secs (- 2 ^ 63 - 2 ^ 10))
  then Some OverflowError
  else if fmant secs <? 0 then Some ValueError
  else None.

Definition time_sleep (secs : pyfloat) : Py unit :=
  fun w =>
    match sleep_refused secs with
    | Some e => (Raise e, w)
    | None => (Return tt,
               mkWorld (sent w) (stdout w) (slept w ++ [secs]) (clock w) (fs w))
    end.

Definition datetime_now : Py datetime := fun w => (Return (clock w), w).

Definition set_fs (w : World) (f : FS) : World :=
  mkWorld (sent w) (stdout w) (slept w) (clock w) f.

(** ** File-system operations used by the script *)

Definition slash : ascii := "/"%char.
Definition is_slash (c : ascii) : bool := Ascii.eqb c slash.

Fixpoint drop_while {A} (p : A -> bool) (l : list A) : list A :=
  match l with
  | [] => []
  | x :: r => if p x then drop_while p r else l
  end.

(** [posixpath.dirname]: everything up to the last slash, with trailing
    slashes removed unless the head consists of slashes only. *)
Definition os_path_dirname (p : string) : string :=
  let rhead := drop_while (fun c => negb (is_slash c)) (rev (list_ascii_of_string p)) in
  if forallb is_slash rhead then string_of_list_ascii (rev rhead)
  else string_of_list_ascii (rev (drop_while is_slash rhead)).

Definition starts_with_slash (p : string) : bool :=
  match p with String c _ => is_slash c | EmptyString => false end.

Definition ends_with_slash (p : string) : bool :=
  match rev (list_ascii_of_string p) with c :: _ => is_slash c | [] => false end.

(** [posixpath.join] of two components. *)
Definition os_path_join (a b : string) : string :=
  if starts_with_slash b then b
  else if String.eqb a EmptyString || ends_with_slash a then a +:+ b
  else a +:+ "/" +:+ b.

Fixpoint take_while {A} (p : A -> bool) (l : list A) : list A :=
  match l with
  | [] => []
  | x :: r => if p x then x :: take_while p r else []
  end.

(** [posixpath.basename]: what follows the last slash.  [posixpath.split]
    is the pair of [dirname] and [basename]. *)
Definition os_path_basename (p : string) : string :=
  string_of_list_ascii
    (rev (take_while (fun c => negb (is_slash c)) (rev (list_ascii_of_string p)))).

(** The pieces of a path between its slashes; a leading slash, a trailing
    slash and a doubled slash leave an empty piece. *)
Fixpoint components (p : string) : list string :=
  match p with
  | EmptyString => [EmptyString]
  | String c rest =>
      if is_slash c then EmptyString :: components rest
      else match components rest with
           | x :: xs => String c x :: xs
           | [] => [String c EmptyString]
           end
  end.

Fixpoint join_slash (names : list string) : string :=
  match names with
  | [] => EmptyString
  | [x] => x
  | x :: rest => x +:+ "/" +:+ join_slash rest
  end.

(** A place is the list of names from the root to it, innermost first;
    [key_of] is its canonical name. *)
Definition key_of (rnames : list string) : string := "/" +:+ join_slash (rev rnames).

Inductive node := Missing | RegularFile | Directory.

(** What is at a place.  The root, the working directory and the
    directories between them exist. *)
Definition node_at (f : FS) (rnames : list string) : node :=
  if bool_decide (rnames `suffix_of` cwd f) then Directory
  else if bool_decide (key_of rnames ∈ dirs f) then Directory
  else match files f !! key_of rnames with
       | Some _ => RegularFile
       | None => Missing
       end.

(** One piece of a path, looked up in a directory; the parent of the root
    is the root. *)
Definition step (f : FS) (rnames : list string) (c : string)
  : (list string * node) + exn :=
  if String.eqb c EmptyString || String.eqb c "." then inl (rnames, Directory)
  else if String.eqb c ".." then inl (tail rnames, Directory)
  else match node_at f (c :: rnames) with
       | Missing => inr FileNotFoundError
       | k => inl (c :: rnames, k)
       end.

(** Path resolution: every piece but the last must lead to a directory. *)
Fixpoint walk (f : FS) (rnames : list string) (k : node) (pieces : list string)
  : (list string * node) + exn :=
  match pieces with
  | [] => inl (rnames, k)
  | c :: rest =>
      match k with
      | Directory =>
          match step f rnames c with
          | inl (rnames', k') => walk f rnames' k' rest
          | inr e => inr e
          end
      | _ => inr NotADirectoryError
      end
  end.

(** Where the resolution of [p] starts: at the root for an absolute path,
    at the working directory otherwise. *)
Definition start (f : FS) (p : string) : list string :=
  if starts_with_slash p then [] else cwd f.

(** [os.stat(p)]: the place of [p] and what is there, or the error. *)
Definition stat (f : FS) (p : string) : (list string * node) + exn :=
  if String.eqb p EmptyString then inr FileNotFoundError
  else walk f (start f p) Directory (components p).

Definition is_dir (f : FS) (p : string) : bool :=
  match stat f p with inl (_, Directory) => true | _ => false end.

Definition is_file (f : FS) (p : string) : bool :=
  match stat f p with inl (_, RegularFile) => true | _ => false end.

(** [os.path.exists]: [False] on every error of [os.stat]. *)
Definition os_path_exists (f : FS) (p : string) : bool :=
  match stat f p with inl _ => true | inr _ => false end.

(** The canonical name of the regular file at [p], and its rows. *)
Definition file_key (f : FS) (p : string) : option string :=
  match stat f p with
  | inl (rnames, RegularFile) => Some (key_of rnames)
  | _ => None
  end.

Definition read_file (f : FS) (p : string) : option (list csv_row) :=
  match file_key f p with
  | Some k => files f !! k
  | None => None
  end.

Definition is_empty_piece (c : string) : bool := String.eqb c EmptyString.

(** [os.mkdir(p)]: trailing slashes are ignored; the parent must be a
    directory and the place empty. *)
Definition mkdir (p : string) (f : FS) : option exn * FS :=
  if String.eqb p EmptyString then (Some FileNotFoundError, f)
  else
    match drop_while is_empty_piece (rev (components p)) with
    | [] => (Some FileExistsError, f)
    | c :: rinit =>
        match walk f (start f p) Directory (rev rinit) with
        | inr e => (Some e, f)
        | inl (rnames, Directory) =>
            if String.eqb c "." || String.eqb c ".." then (Some FileExistsError, f)
            else match node_at f (c :: rnames) with
                 | Missing =>
                     (None, mkFS ({[ key_of (c :: rnames) ]} ∪ dirs f) (files f) (cwd f))
                 | _ => (Some FileExistsError, f)
                 end
        | inl (_, _) => (Some NotADirectoryError, f)
        end
    end.

Definition is_FileExistsError (e : exn) : bool :=
  match e with FileExistsError => true | _ => false end.

(** [os.makedirs(name)], with [exist_ok=False]: the function calls itself
    on the head of the path while that does not exist, ignoring a
    [FileExistsError] of the inner call, and then makes the leaf.  [depth]
    is the number of nested calls the interpreter still allows. *)
Fixpoint makedirs (depth : nat) (name : string) (f : FS) : option exn * FS :=
  let head0 := os_path_dirname name in
  let tail0 := os_path_basename name in
  let head := if String.eqb tail0 EmptyString then os_path_dirname head0 else head0 in
  let tail := if String.eqb tail0 EmptyString then os_path_basename head0 else tail0 in
  if negb (String.eqb head EmptyString) && negb (String.eqb tail EmptyString)
     && negb (os_path_exists f head)
  then
    match depth with
    | O => (Some RecursionError, f)
    | S depth' =>
        let r := makedirs depth' head f in
        match fst r with
        | Some e =>
            if is_FileExistsError e
            then (if String.eqb tail "." then (None, snd r) else mkdir name (snd r))
            else (Some e, snd r)
        | None => if String.eqb tail "." then (None, snd r) else mkdir name (snd r)
        end
    end
  else mkdir name f.

(** Nested calls left to [os.makedirs] when the script calls it: the
    interpreter allows 1000 frames by default, and some are in use. *)
Definition makedirs_depth : nat := 900.

Definition os_makedirs (d : string) : Py unit :=
  fun w =>
    let r := makedirs makedirs_depth d (fs w) in
    (match fst r with Some e => Raise e | None => Return tt end, set_fs w (snd r)).

(** [open(p, 'w')] at the level of the file system: the file is created or
    truncated and its canonical name returned, the handle of the open
    file.  A path that ends in a slash names a directory. *)
Definition open_write (p : string) (f : FS) : (string + exn) * FS :=
  if String.eqb p EmptyString then (inr FileNotFoundError, f)
  else
    let rpieces := rev (components p) in
    let trailing := match rpieces with c :: _ => is_empty_piece c | [] => false end in
    match drop_while is_empty_piece rpieces with
    | [] => (inr IsADirectoryError, f)
    | c :: rinit =>
        match walk f (start f p) Directory (rev rinit) with
        | inr e => (inr e, f)
        | inl (rnames, Directory) =>
            if String.eqb c "." || String.eqb c ".." then (inr IsADirectoryError, f)
            else
              let k := key_of (c :: rnames) in
              match node_at f (c :: rnames) with
              | Directory => (inr IsADirectoryError, f)
              | RegularFile =>
                  if trailing then (inr NotADirectoryError, f)
                  else (inl k, mkFS (dirs f) (<[ k := [] ]> (files f)) (cwd f))
              | Missing =>
                  if trailing then (inr IsADirectoryError, f)
                  else (inl k, mkFS (dirs f) (<[ k := [] ]> (files f)) (cwd f))
              end
        | inl (_, _) => (inr NotADirectoryError, f)
        end
    end.

Definition open_w (p : string) : Py string :=
  fun w => let r := open_write p (fs w) in (of_sum (fst r), set_fs w (snd r)).

(** The number of decimal digits the interpreter converts between [int]
    and [str] (the default of [sys.set_int_max_str_digits]). *)
Definition int_max_str_digits : Z := 4300.

(** Nesting of lists and dicts that [repr] is taken to follow before the
    interpreter's recursion limit stops it; the limit itself depends on the
    interpreter and on the calls in progress, and is not below this. *)
Definition repr_depth : nat := 100.

(** An [int] has more than [int_max_str_digits] decimal digits.  One of
    fewer than [3 * int_max_str_digits] bits is below [8 ^ 4300], so the
    comparison with [10 ^ 4300] is left to the others. *)
Definition int_str_refused (z : Z) : bool :=
  if Z.log2 (Z.abs z) <? 3 * int_max_str_digits then false
  else 10 ^ int_max_str_digits <=? Z.abs z.

(** [str(v)], as the CSV writer calls it on a cell, where it fails: an
    [int] of more than [int_max_str_digits] digits is a [ValueError], also
    inside a list or dict, whose text holds the [repr] of its elements. *)
Fixpoint str_refused (depth : nat) (v : pyval) : option exn :=
  match v with
  | PNone | PBool _ | PFloat _ | PStr _ => None
  | PInt z => if int_str_refused z then Some ValueError else None
  | PList l =>
      match depth with
      | O => Some RecursionError
      | S depth' =>
          fold_right (fun x later => match str_refused depth' x with
                                     | Some e => Some e
                                     | None => later
                                     end) None l
      end
  | PDict kvs =>
      match depth with
      | O => Some RecursionError
      | S depth' =>
          fold_right (fun kv later => match str_refused depth' (snd kv) with
                                      | Some e => Some e
                                      | None => later
                                      end) None kvs
      end
  end.

(** The first cell of a row that the writer cannot turn into text. *)
Definition row_refused (row : csv_row) : option exn :=
  fold_right (fun x later => match str_refused repr_depth x with
                             | Some e => Some e
                             | None => later
                             end) None row.

(** [csv.writer.writerow] on the open file [handle]: the row is turned
    into text and appended, or a cell is refused and nothing is
    written. *)
Definition write_row (handle : string) (row : csv_row) : Py unit :=
  fun w =>
    match row_refused row with
    | Some e => (Raise e, w)
    | None =>
        let old := default [] (files (fs w) !! handle) in
        (Return tt,
         set_fs w (mkFS (dirs (fs w)) (<[ handle := old ++ [row] ]> (files (fs w)))
                     (cwd (fs w))))
    end.

(** ** Script configuration *)

Definition START_DATE : string := "2025-07-10".
Definition END_DATE : string := "2025-07-17".
Definition INSTRUMENT_NAME : string := "BTC-PERPETUAL".
Definition DATA_TYPE : string := "funding_rate_history".
Definition OUTPUT_DIRECTORY : string := "./data/raw".
Definition CHUNK_SIZE_DAYS : Z := 1.
Definition SLEEP_INTERVAL_SECONDS : pyfloat := PyFloat 1 (-1).

Definition API_URL : string :=
  "https://www.deribit.com/api/v2/public/get_funding_rate_history".

(** ** [_generate_unique_filename] *)

Definition pad0 (width : nat) (s : string) : string :=
  string_of_list_ascii (repeat "0"%char (width - String.length s)) +:+ s.

(** [now.strftime("%Y%m%d-%H%M%S")], by the [strftime] of the C library:
    the year as it is, without padding, the other fields with two
    digits. *)
Definition strftime_run (now : datetime) : string :=
  pretty (year now) +:+ pad0 2 (pretty (month now)) +:+ pad0 2 (pretty (day now))
  +:+ "-" +:+
  pad0 2 (pretty (hour now)) +:+ pad0 2 (pretty (minute now)) +:+ pad0 2 (pretty (second now)).

(** The f-string of the return statement. *)
Definition filename_of (instrument data_type start_date end_date run_timestamp : string)
  : string :=
  "DERIBIT_" +:+ instrument +:+ "_" +:+ data_type +:+ "_from_" +:+ start_date
  +:+ "_to_" +:+ end_date +:+ "_at_" +:+ run_timestamp +:+ ".csv".

Definition _generate_unique_filename
  (instrument data_type start_date end_date : string) : Py string :=
  (now <- datetime_now ;;
   let run_timestamp := strftime_run now in
   ret (filename_of instrument data_type start_date end_date run_timestamp))%py.

(** ** [_save_data_to_csv] *)

(** [list(d.keys())]; only a dict has [keys]. *)
Definition py_keys (v : pyval) : outcome (list string) :=
  match v with
  | PDict kvs => Return (dict_keys kvs)
  | _ => Raise AttributeError
  end.

(** [csv.DictWriter._dict_to_list] with the defaults [extrasaction='raise']
    and [restval='']: a key outside [fieldnames] is a [ValueError]; the
    cells are the values in the order of [fieldnames]. *)
Definition _dict_to_list (fieldnames : list string) (rowdict : pyval) : outcome csv_row :=
  match rowdict with
  | PDict kvs =>
      if forallb (fun k => existsb (String.eqb k) fieldnames) (dict_keys kvs)
      then Return (map (fun key => default (PStr "") (dict_get key kvs)) fieldnames)
      else Raise ValueError
  | _ => Raise AttributeError
  end.

(** [DictWriter.writeheader]: the field names themselves form the row. *)
Definition writeheader (p : string) (fieldnames : list string) : Py unit :=
  write_row p (map PStr fieldnames).

(** [DictWriter.writerows]: rows are converted and written one by one, so
    the rows before an offending one are already in the file. *)
Fixpoint writerows (p : string) (fieldnames : list string) (rowdicts : list pyval)
  : Py unit :=
  match rowdicts with
  | [] => ret tt
  | r :: rest =>
      (cells <- lift (_dict_to_list fieldnames r) ;;
       write_row p cells ;;;
       writerows p fieldnames rest)%py
  end.

Definition _save_data_to_csv (data : list pyval) (file_path : string) : Py unit :=
  match data with
  | [] => print "No data to save."
  | first :: _ =>
      (let directory := os_path_dirname file_path in
       (fun w => if os_path_exists (fs w) directory then ret tt w
                 else os_makedirs directory w) ;;;
       csvfile <- open_w file_path ;;
       headers <- lift (py_keys first) ;;
       writeheader csvfile headers ;;;
       writerows csvfile headers data ;;;
       print ("Successfully saved data to: " +:+ file_path))%py
  end.

(** The cells of a record under a header: its values in header order. *)
Definition row_of (fieldnames : list string) (kvs : list (string * pyval)) : csv_row :=
  map (fun key => default (PStr "") (dict_get key kvs)) fieldnames.

(** Two records have the same field set. *)
Definition same_fields (first r : list (string * pyval)) : Prop :=
  forall k, In k (dict_keys r) <-> In k (dict_keys first).

(** A path within the limits of the usual file systems: at most 4095
    bytes, each piece at most 255 bytes, no NUL byte. *)
Definition portable_path (p : string) : bool :=
  (String.length p <=? 4095)%nat
  && forallb (fun c => (String.length c <=? 255)%nat) (components p)
  && negb (existsb (Ascii.eqb Ascii.zero) (list_ascii_of_string p)).

(** The directory step of [_save_data_to_csv] on the file system. *)
Definition ensure_directory (file_path : string) (f : FS) : option exn * FS :=
  let directory := os_path_dirname file_path in
  if os_path_exists f directory then (None, f)
  else makedirs makedirs_depth directory f.

(** The file system lets [file_path] be created: the directory step of
    [_save_data_to_csv] and its [open] succeed on it.  A path without a
    directory part is not among these: [os.makedirs] refuses the empty
    path. *)
Definition can_create (f : FS) (file_path : string) : bool :=
  portable_path file_path
  && match fst (ensure_directory file_path f) with
     | Some _ => false
     | None =>
         match fst (open_write file_path (snd (ensure_directory file_path f))) with
         | inl _ => true
         | inr _ => false
         end
     end.

(** The directory step and the [open] of [_save_data_to_csv]. *)
Definition open_for_writing (file_path : string) : Py string :=
  (let directory := os_path_dirname file_path in
   (fun w => if os_path_exists (fs w) directory then ret tt w
             else os_makedirs directory w) ;;;
   open_w file_path)%py.

(** The file systems [f] and [f'] have the same directories and the same
    regular files, whatever the files hold. *)
Definition same_shape (f f' : FS) : Prop :=
  dirs f = dirs f' /\ cwd f = cwd f'
  /\ forall k, files f !! k = None <-> files f' !! k = None.

(** The world once the open file [handle] holds [rows]. *)
Definition holding (w : World) (handle : string) (rows : list csv_row) : World :=
  set_fs w (mkFS (dirs (fs w)) (<[ handle := rows ]> (files (fs w))) (cwd (fs w))).

(** Every value of the record is one that [str] accepts. *)
Definition printable (r : list (string * pyval)) : bool :=
  forallb (fun kv => match str_refused repr_depth (snd kv) with
                     | Some _ => false
                     | None => true
                     end) r.


(** The ranges of the fields of a [datetime] object. *)
Definition valid_datetime (d : datetime) : bool :=
  ((1 <=? year d) && (year d <=? 9999)
   && (1 <=? month d) && (month d <=? 12)
   && (1 <=? day d) && (day d <=? 31)
   && (hour d <? 24) && (minute d <? 60) && (second d <? 60)
   && (microsecond d <? 1000000))%N.

(** A clock reading without its microseconds. *)
Definition to_the_second (d : datetime) : N * N * N * N * N * N :=
  (year d, month d, day d, hour d, minute d, second d).

(** The number a string of decimal digits denotes. *)
Definition number_of (s : string) : N :=
  fold_left (fun acc c => (10 * acc + (N_of_ascii c - 48))%N) (list_ascii_of_string s) 0%N.

Definition has_slash (s : string) : bool := existsb is_slash (list_ascii_of_string s).


(** ** The calendar, the clock and the time zone of the host

    The conversions behind [_date_to_timestamp_ms] and behind the dates
    of the progress lines, after the [datetime] module of the
    interpreter ([Lib/_pydatetime.py], [Lib/_strptime.py] and
    [Modules/_datetimemodule.c]).  The time zone of the host is the
    offset from UTC to local time, in seconds, at every instant, an
    instant being a number of seconds since the epoch ([time_t]); the
    host counts no leap seconds. *)

(** A call that returns a value or raises, followed by another. *)
Definition and_then {A B} (r : A + exn) (k : A -> B + exn) : B + exn :=
  match r with inl a => k a | inr e => inr e end.

Definition is_leap (year : Z) : bool :=
  (year mod 4 =? 0) && (negb (year mod 100 =? 0) || (year mod 400 =? 0)).

(** Number of days before January 1st of [year]. *)
Definition days_before_year (year : Z) : Z :=
  let y := year - 1 in y * 365 + y / 4 - y / 100 + y / 400.

Definition _DAYS_IN_MONTH : list Z := [0; 31; 28; 31; 30; 31; 30; 31; 31; 30; 31; 30; 31].

Definition _DAYS_BEFORE_MONTH : list Z :=
  [0; 0; 31; 59; 90; 120; 151; 181; 212; 243; 273; 304; 334].

Definition table (l : list Z) (i : Z) : Z := nth (Z.to_nat i) l 0.

Definition days_in_month (year month : Z) : Z :=
  if (month =? 2) && is_leap year then 29 else table _DAYS_IN_MONTH month.

Definition days_before_month (year month : Z) : Z :=
  table _DAYS_BEFORE_MONTH month + (if (2 <? month) && is_leap year then 1 else 0).

(** The ordinal of a date, 0001-01-01 being day 1. *)
Definition ymd2ord (year month day : Z) : Z :=
  days_before_year year + days_before_month year month + day.

(** The month and the day of the [n]-th day of a year, counted from 0:
    an estimate of the month, corrected when it is too large. *)
Definition month_and_day (leapyear : bool) (n : Z) : Z * Z :=
  let month := (n + 50) / 32 in
  let preceding :=
    table _DAYS_BEFORE_MONTH month + (if (2 <? month) && leapyear then 1 else 0) in
  if n <? preceding
  then let month' := month - 1 in
       let preceding' :=
         preceding - (table _DAYS_IN_MONTH month'
                      + (if (month' =? 2) && leapyear then 1 else 0)) in
       (month', n - preceding' + 1)
  else (month, n - preceding + 1).

(** The date of an ordinal: cycles of 400, 100 and 4 years, then years. *)
Definition ord2ymd (ordinal : Z) : Z * Z * Z :=
  let n := ordinal - 1 in
  let n400 := n / 146097 in
  let n := n mod 146097 in
  let n100 := n / 36524 in
  let n := n mod 36524 in
  let n4 := n / 1461 in
  let n := n mod 1461 in
  let n1 := n / 365 in
  let n := n mod 365 in
  let year := n400 * 400 + 1 + (n100 * 100 + n4 * 4 + n1) in
  if (n1 =? 4) || (n100 =? 4) then (year - 1, 12, 31)
  else
    let leapyear := (n1 =? 3) && (negb (n4 =? 24) || (n100 =? 3)) in
    let '(month, day) := month_and_day leapyear n in
    (year, month, day).

Definition max_fold_seconds : Z := 24 * 3600.

(** The epoch, in seconds since the day before 0001-01-01. *)
Definition epoch : Z := 719163 * 24 * 60 * 60.

(** The fields of [struct tm] that are used: years since 1900, months
    since January, day of the month, hour, minute, second. *)
Record tm := mk_tm {
  tm_year : Z; tm_mon : Z; tm_mday : Z; tm_hour : Z; tm_min : Z; tm_sec : Z }.

Definition in_time_t (t : Z) : bool := (- 2 ^ 63 <=? t) && (t <? 2 ^ 63).

Definition in_int (i : Z) : bool := (- 2 ^ 31 <=? i) && (i <? 2 ^ 31).

(** [localtime_r] of the C library, in the zone [z]: the calendar fields
    of the instant [t] shifted by the offset in force at [t]; it fails
    when the year does not fit [tm_year]. *)
Definition localtime (z : Z -> Z) (t : Z) : tm + exn :=
  let s := t + z t in
  let '(year, month, day) := ord2ymd (s / 86400 + 719163) in
  let r := s mod 86400 in
  if in_int (year - 1900)
  then inl (mk_tm (year - 1900) (month - 1) day (r / 3600) (r mod 3600 / 60) (r mod 60))
  else inr OSError.

(** Seconds since the day before 0001-01-01; the year must be one that
    [datetime] represents. *)
Definition utc_to_seconds (year month day hour minute second : Z) : Z + exn :=
  if (year <? 1) || (9999 <? year) then inr ValueError
  else inl (((ymd2ord year month day * 24 + hour) * 60 + minute) * 60 + second).

(** The local wall clock at [u], both in seconds since the day before
    0001-01-01. *)
Definition local (z : Z -> Z) (u : Z) : Z + exn :=
  let t := u - epoch in
  if in_time_t t
  then and_then (localtime z t)
         (fun f => utc_to_seconds (tm_year f + 1900) (tm_mon f + 1) (tm_mday f)
                     (tm_hour f) (tm_min f) (tm_sec f))
  else inr OverflowError.

(** The instant of a local date and time, for [timestamp()] of a naive
    [datetime] ([fold] is 0): the solution of [t = local u] for [u].  The
    offset [a] in force at [t] gives a first guess [u1]; when it fits, the
    day before is probed for another offset [b] and an earlier solution;
    a time that the wall clock skipped is moved past the gap. *)
Definition local_to_seconds (z : Z -> Z) (year month day hour minute second : Z)
  : Z + exn :=
  and_then (utc_to_seconds year month day hour minute second) (fun t =>
  and_then (local z t) (fun lt =>
  let a := lt - t in
  let u1 := t - a in
  and_then (local z u1) (fun t1 =>
  and_then (if t1 =? t
            then and_then (local z (u1 - max_fold_seconds))
                   (fun lt' => inl (lt' - (u1 - max_fold_seconds)))
            else inl (t1 - u1)) (fun b =>
  if (t1 =? t) && (a =? b) then inl u1
  else
    let u2 := t - b in
    and_then (local z u2) (fun t2 =>
    if t2 =? t then inl u2
    else if t1 =? t then inl u1
    else inl (Z.max u1 u2)))))).

(** [datetime.datetime.fromtimestamp(ts / 1000)], up to the fields of the
    date.  The seconds of [ts / 1000] are those of the exact quotient for
    every instant of the years 1 to 9999.  After [localtime] the day
    before is probed to tell a repeated wall-clock time, and each probe
    can raise. *)
Definition fromtimestamp (z : Z -> Z) (ts : Z) : tm + exn :=
  let timet := ts / 1000 in
  if in_time_t timet
  then
    and_then (localtime z timet) (fun f =>
    and_then (utc_to_seconds (tm_year f + 1900) (tm_mon f + 1) (tm_mday f)
                (tm_hour f) (tm_min f) (Z.min 59 (tm_sec f))) (fun result_seconds =>
    and_then (local z (epoch + timet - max_fold_seconds)) (fun probe_seconds =>
    let transition := result_seconds - probe_seconds - max_fold_seconds in
    and_then (if transition <? 0 then local z (epoch + timet + transition) else inl 0)
      (fun _ => inl f))))
  else inr OverflowError.

(** [strftime('%Y-%m-%d')] of the C library: the year as it is, month and
    day with two digits. *)
Definition strftime_date (f : tm) : string :=
  pretty (Z.to_N (tm_year f + 1900)) +:+ "-" +:+ pad0 2 (pretty (Z.to_N (tm_mon f + 1)))
  +:+ "-" +:+ pad0 2 (pretty (Z.to_N (tm_mday f))).

Definition is_digit (c : ascii) : bool :=
  (48 <=? nat_of_ascii c)%nat && (nat_of_ascii c <=? 57)%nat.

Definition digit (c : ascii) : Z := Z.of_nat (nat_of_ascii c) - 48.

Definition between (lo hi c : ascii) : bool :=
  (nat_of_ascii lo <=? nat_of_ascii c)%nat && (nat_of_ascii c <=? nat_of_ascii hi)%nat.

Definition or_else {A} (x y : option A) : option A :=
  match x with Some a => Some a | None => y end.

(** The pattern of [%m], [1[0-2]|0[1-9]|[1-9]], followed by [k]: the
    alternatives are tried in this order until the rest matches too. *)
Definition match_month {A} (s : list ascii) (k : Z -> list ascii -> option A) : option A :=
  or_else
    (match s with
     | c1 :: c2 :: r =>
         if Ascii.eqb c1 "1" && between "0" "2" c2 then k (10 + digit c2) r else None
     | _ => None
     end)
    (or_else
       (match s with
        | c1 :: c2 :: r =>
            if Ascii.eqb c1 "0" && between "1" "9" c2 then k (digit c2) r else None
        | _ => None
        end)
       (match s with
        | c1 :: r => if between "1" "9" c1 then k (digit c1) r else None
        | _ => None
        end)).

(** The pattern of [%d], [3[01]|[12]\d|0[1-9]|[1-9]| [1-9]]. *)
Definition match_day {A} (s : list ascii) (k : Z -> list ascii -> option A) : option A :=
  or_else
    (match s with
     | c1 :: c2 :: r =>
         if Ascii.eqb c1 "3" && between "0" "1" c2 then k (30 + digit c2) r else None
     | _ => None
     end)
    (or_else
       (match s with
        | c1 :: c2 :: r =>
            if between "1" "2" c1 && is_digit c2 then k (10 * digit c1 + digit c2) r
            else None
        | _ => None
        end)
       (or_else
          (match s with
           | c1 :: c2 :: r =>
               if Ascii.eqb c1 "0" && between "1" "9" c2 then k (digit c2) r else None
           | _ => None
           end)
          (or_else
             (match s with
              | c1 :: r => if between "1" "9" c1 then k (digit c1) r else None
              | _ => None
              end)
             (match s with
              | c1 :: c2 :: r =>
                  if Ascii.eqb c1 " " && between "1" "9" c2 then k (digit c2) r else None
              | _ => None
              end)))).

(** Month, dash and day at the head of a string, and what follows. *)
Definition match_month_day (s : list ascii) : option (Z * Z * list ascii) :=
  match_month s (fun month r =>
    match r with
    | c :: r' => if Ascii.eqb c "-" then match_day r' (fun day r'' => Some (month, day, r''))
                 else None
    | [] => None
    end).

(** The pattern of ["%Y-%m-%d"] at the head of a string: four digits, a
    dash, month, dash and day.  The digits are those of ASCII. *)
Definition match_date (s : list ascii) : option (Z * Z * Z * list ascii) :=
  match s with
  | y1 :: y2 :: y3 :: y4 :: c :: r =>
      if forallb is_digit [y1; y2; y3; y4] && Ascii.eqb c "-"
      then match match_month_day r with
           | Some (month, day, r') =>
               Some (Z.of_N (number_of (string_of_list_ascii [y1; y2; y3; y4])),
                     month, day, r')
           | None => None
           end
      else None
  | _ => None
  end.

(** [datetime.datetime.strptime(date_string, "%Y-%m-%d")], up to the date:
    [ValueError] when the string does not match the format, when
    something follows the match, and when there is no such date. *)
Definition strptime_date (date_string : string) : (Z * Z * Z) + exn :=
  match match_date (list_ascii_of_string date_string) with
  | Some (year, month, day, []) =>
      if (1 <=? year) && (day <=? days_in_month year month) then inl (year, month, day)
      else inr ValueError
  | _ => inr ValueError
  end.

(** [int(strptime(date_string, "%Y-%m-%d").timestamp() * 1000)] in the
    zone [z]: the float of the seconds and its product with 1000 are
    exact for every instant of the years 1 to 9999. *)
Definition zone_midnight_ms (z : Z -> Z) (date_string : string) : Z + exn :=
  and_then (strptime_date date_string) (fun '(year, month, day) =>
  and_then (local_to_seconds z year month day 0 0 0) (fun seconds =>
  inl ((seconds - epoch) * 1000))).

(** [fromtimestamp(ts / 1000).strftime('%Y-%m-%d')] in the zone [z]. *)
Definition zone_local_date (z : Z -> Z) (ts : Z) : string + exn :=
  and_then (fromtimestamp z ts) (fun f => inl (strftime_date f)).

(** The checks behind the tables of the calendar.  [md_ok]: the [n]-th
    day of a year is a day of a month, and counts as many days from
    January 1st.  [dm_ok]: the day [d] of the month [m] is the day of the
    year that [month_and_day] takes back to [m] and [d]. *)
Definition md_ok (leap : bool) (n : Z) : bool :=
  let '(m, d) := month_and_day leap n in
  (1 <=? m) && (m <=? 12) && (1 <=? d)
  && (d <=? table _DAYS_IN_MONTH m + (if (m =? 2) && leap then 1 else 0))
  && (table _DAYS_BEFORE_MONTH m + (if (2 <? m) && leap then 1 else 0) + d =? n + 1).

Definition dm_ok (leap : bool) (m d : Z) : bool :=
  let n := table _DAYS_BEFORE_MONTH m + (if (2 <? m) && leap then 1 else 0) + d - 1 in
  (0 <=? n) && (n <? 365 + (if leap then 1 else 0))
  && (let '(m', d') := month_and_day leap n in (m' =? m) && (d' =? d)).

Definition days_of (leap : bool) (m : Z) : list Z :=
  map Z.of_nat
    (seq 1 (Z.to_nat (table _DAYS_IN_MONTH m + (if (m =? 2) && leap then 1 else 0)))).

(** The two digits of a number below 100. *)
Definition two_digits (n : N) : string :=
  String (ascii_of_N (48 + n / 10)) (String (ascii_of_N (48 + n mod 10)) EmptyString).

(** Month and day written with two digits each are read back. *)
Definition month_day_read_back (m d : nat) : bool :=
  match match_month_day
          (list_ascii_of_string
             (two_digits (N.of_nat m) +:+ "-" +:+ two_digits (N.of_nat d))) with
  | Some (m', d', []) => (m' =? Z.of_nat m) && (d' =? Z.of_nat d)
  | _ => false
  end.

(** A date written as YYYY-MM-DD. *)
Definition date_string (year month day : Z) : string :=
  pad0 4 (pretty (Z.to_N year)) +:+ "-" +:+ pad0 2 (pretty (Z.to_N month))
  +:+ "-" +:+ pad0 2 (pretty (Z.to_N day)).

(** The instant at which a clock on UTC shows midnight of the date. *)
Definition utc_midnight (year month day : Z) : Z := (ymd2ord year month day - 719163) * 86400.

(** The local time [s], in seconds since the epoch, is one of the years 1
    to 9999. *)
Definition in_calendar (s : Z) : Prop := -62135596800 <= s <= 253402300799.

(** UTC; Samoa, where the wall clock went from ten hours behind UTC to
    fourteen hours ahead at the end of 2011-12-29, so that there was no
    2011-12-30; and Berlin in 2025, on summer time from March 30th to
    October 26th. *)
Definition utc_zone (t : Z) : Z := 0.

Definition apia_zone (t : Z) : Z := if t <? 1325239200 then -36000 else 50400.

Definition berlin_zone (t : Z) : Z :=
  if (1743296400 <=? t) && (t <? 1761440400) then 7200 else 3600.

(** ** Sample exchanges and data

    The worlds, exchanges and records of the concrete runs at the end of
    the file. *)

(** The directory the script is run from, [/home/user/futures-trading]. *)
Definition project_dir : list string := ["futures-trading"; "user"; "home"].

(** A world in which nothing has happened yet and the disk is empty. *)
Definition quiet_world : World :=
  mkWorld [] [] [] (mkDatetime 2025 7 18 9 30 15 120000) (mkFS ∅ ∅ project_dir).

Definition text_of (o : http_outcome) : string :=
  match o with
  | TransportFailure msg => msg
  | HttpResponse status _ => pretty status +:+ " Error"
  | BodyFailure status _ => pretty status +:+ " Error"
  end.

Definition str_of (v : pyval) : string :=
  match v with PStr s => s | _ => "<value>" end.

(** A stand-in for the date of a log line: the day number since the epoch,
    for the timestamps of the years 1 to 9999 (UTC). *)
Definition day_label (ts : Z) : string + exn :=
  if (-62135596800000 <=? ts) && (ts <? 253402300800000)
  then inl (pretty (ts / 86400000))
  else inr ValueError.

(** Midnight UTC of the dates used below, a [ValueError] for the rest. *)
Definition utc_midnight_ms (d : string) : Z + exn :=
  if String.eqb d "2025-07-10" then inl 1752105600000
  else if String.eqb d "2025-07-12" then inl 1752278400000
  else if String.eqb d "2025-07-17" then inl 1752710400000
  else inr ValueError.

Definition jul10 : Z := 1752105600000.
Definition jul11 : Z := 1752192000000.
Definition jul12 : Z := 1752278400000.
Definition jul13 : Z := 1752364800000.

Definition funding_record (ts : Z) : pyval :=
  PDict [("timestamp", PInt ts); ("index_price", PFloat (PyFloat 7626561 (-6)));
         ("interest_8h", PFloat (PyFloat 5 (-20)))].

(** The three eight-hourly observations of a window. *)
Definition funding_records (start : Z) : list pyval :=
  [funding_record start; funding_record (start + 28800000);
   funding_record (start + 57600000)].

(** An exchange that answers every request with three records. *)
Definition funding_server (n : nat) (req : Request) : http_outcome :=
  HttpResponse 200
    (Some (PDict [("jsonrpc", PStr "2.0");
                  ("result", PList (funding_records (req_start_timestamp req)))])).

(** The same exchange behind a network that drops the first request. *)
Definition flaky_server (n : nat) (req : Request) : http_outcome :=
  match n with
  | O => TransportFailure "connection reset"
  | _ => funding_server n req
  end.

(** The same exchange behind a network that drops the second request. *)
Definition late_flaky_server (n : nat) (req : Request) : http_outcome :=
  match n with
  | 1%nat => TransportFailure "connection reset"
  | _ => funding_server n req
  end.

(** Minus half a second, an interval [time.sleep] refuses. *)
Definition negative_interval : pyfloat := PyFloat (-1) (-1).

(** The smallest [int] of 4301 digits, and a record that holds it. *)
Definition huge_int : Z := 10 ^ int_max_str_digits.

Definition huge_record : list (string * pyval) := [("volume", PInt huge_int)].

(** An exchange with no observations for any window. *)
Definition silent_server (n : nat) (req : Request) : http_outcome :=
  HttpResponse 200 (Some (PDict [("jsonrpc", PStr "2.0"); ("result", PList [])])).

(** An answer in the JSON-RPC envelope but with neither result nor error. *)
Definition bare_envelope_server (n : nat) (req : Request) : http_outcome :=
  HttpResponse 200 (Some (PDict [("jsonrpc", PStr "2.0"); ("id", PInt 7)])).

(** An answer whose body is the JSON text [null]. *)
Definition null_server (n : nat) (req : Request) : http_outcome :=
  HttpResponse 200 (Some PNone).

(** The parsed body of the first answer to the request for [07-10, 07-11]. *)
Definition remote_body (remote : nat -> Request -> http_outcome) : option pyval :=
  match remote O (mkRequest API_URL "BTC-PERPETUAL" jul10 jul11) with
  | HttpResponse _ body => body
  | TransportFailure _ => None
  | BodyFailure _ _ => None
  end.

(** Two records with the same fields in different orders, written to a
    path under a directory that does not exist yet. *)
Definition first_record : list (string * pyval) :=
  [("timestamp", PInt jul10); ("index_price", PFloat (PyFloat 7626561 (-6)));
   ("interest_8h", PFloat (PyFloat 5 (-20)))].

Definition second_record : list (string * pyval) :=
  [("interest_8h", PFloat (PyFloat 3 (-19))); ("timestamp", PInt jul11);
   ("index_price", PFloat (PyFloat 7630001 (-6)))].

(** An exchange that rejects every request with a JSON-RPC error. *)
Definition rejecting_server (n : nat) (req : Request) : http_outcome :=
  HttpResponse 200
    (Some (PDict [("jsonrpc", PStr "2.0");
                  ("error", PDict [("message", PStr "Invalid params");
                                   ("code", PInt (-32602))])])).

(** An exchange whose error is a bare string, without a message field. *)
Definition terse_server (n : nat) (req : Request) : http_outcome :=
  HttpResponse 200 (Some (PDict [("error", PStr "bad request")])).

(** An exchange that answers with a count instead of a list. *)
Definition counting_server (n : nat) (req : Request) : http_outcome :=
  HttpResponse 200 (Some (PDict [("result", PInt 3)])).

(** The world of a run started three quarters of a second later. *)
Definition later_world : World :=
  mkWorld [] [] [] (mkDatetime 2025 7 18 9 30 15 870000) (mkFS ∅ ∅ project_dir).

(** A world whose disk already holds the output file and a neighbour. *)
Definition stale_world : World :=
  mkWorld [] [] [] (mkDatetime 2025 7 18 9 30 15 120000)
    (mkFS {[ "/home/user/futures-trading/data"; "/home/user/futures-trading/data/raw" ]}
          (<[ "/home/user/futures-trading/data/raw/out.csv"
              := [[PStr "stale"]; [PStr "rows"]] ]>
             (<[ "/home/user/futures-trading/data/raw/other.csv" := [[PStr "kept"]] ]> ∅))
          project_dir).

(** A world in which [data], in the working directory, is a regular
    file. *)
Definition blocked_world : World :=
  mkWorld [] [] [] (mkDatetime 2025 7 18 9 30 15 120000)
    (mkFS ∅ (<[ "/home/user/futures-trading/data" := [[PStr "notes"]] ]> ∅) project_dir).

(** A record without prices, and one with a field of its own. *)
Definition sparse_record : list (string * pyval) := [("timestamp", PInt jul11)].

Definition odd_record : list (string * pyval) :=
  [("timestamp", PInt jul12); ("mark_price", PFloat (PyFloat 7631000 (-6)))].

(** The fields of [funding_record], and the records of the sample week. *)
Definition funding_fields (ts : Z) : list (string * pyval) :=
  [("timestamp", PInt ts); ("index_price", PFloat (PyFloat 7626561 (-6)));
   ("interest_8h", PFloat (PyFloat 5 (-20)))].

Definition week_fields : list (list (string * pyval)) :=
  flat_map (fun d => [funding_fields d; funding_fields (d + 28800000);
                      funding_fields (d + 57600000)])
           (map (fun i => jul10 + Z.of_nat i * 86400000) (seq 0 7)).


(** ** The network and the local-time library *)

Section Program.

(** The exchange and the network between: the outcome of the [n]-th GET
    request of the run (counting from 0), given the request. *)
Variable remote : nat -> Request -> http_outcome.

(** The text of the [RequestException] a failed exchange raises. *)
Variable failure_text : http_outcome -> string.

(** [str(v)], as an f-string renders a value. *)
Variable py_str : pyval -> string.

(** [datetime.datetime.fromtimestamp(ts / 1000).strftime('%Y-%m-%d')]: the
    local calendar date of a millisecond timestamp, in the host's time
    zone, or the exception [fromtimestamp] (or the division) raises for a
    timestamp outside the range [datetime] represents. *)
Variable local_date : Z -> string + exn.

(** [int(datetime.datetime.strptime(s, "%Y-%m-%d").timestamp() * 1000)]:
    local midnight of a date string, or the [ValueError] of [strptime]. *)
Variable local_midnight_ms : string -> Z + exn.

Definition _date_to_timestamp_ms (date_string : string) : Py Z :=
  lift (of_sum (local_midnight_ms date_string)).

(** ** [_get_funding_rate_history_chunk] *)

Definition requests_get (req : Request) : Py http_outcome :=
  fun w => (Return (remote (length (sent w)) req),
            mkWorld (sent w ++ [req]) (stdout w) (slept w) (clock w) (fs w)).

(** [response.raise_for_status()] raises for 4xx and 5xx. *)
Definition is_error_status (status : Z) : bool := (400 <=? status) && (status <? 600).

Definition _get_funding_rate_history_chunk
  (instrument_name : string) (start_timestamp_ms end_timestamp_ms : Z) : Py pyval :=
  (let params := mkRequest API_URL instrument_name start_timestamp_ms end_timestamp_ms in
   response <- requests_get params ;;
   match response with
   | TransportFailure _ =>
       print ("  - Request failed: " +:+ failure_text response) ;;; ret PNone
   | HttpResponse status body =>
       if is_error_status status then
         print ("  - Request failed: " +:+ failure_text response) ;;; ret PNone
       else
         match body with
         | None =>
             print ("  - Request failed: " +:+ failure_text response) ;;; ret PNone
         | Some response_json =>
             has_result <- lift (py_contains "result" response_json) ;;
             if has_result then lift (py_getitem response_json "result")
             else
               has_error <- lift (py_contains "error" response_json) ;;
               if has_error then
                 error <- lift (py_getitem response_json "error") ;;
                 message <- lift (py_getitem error "message") ;;
                 print ("  - API Error: " +:+ py_str message) ;;; ret PNone
               else ret PNone
         end
   | BodyFailure status e =>
       if is_error_status status then
         print ("  - Request failed: " +:+ failure_text response) ;;; ret PNone
       else lift (Raise e)
   end)%py.

(** ** [_fetch_data_in_chunks] *)

(** The progress line of a pass: both dates are rendered, then printed. *)
Definition announce_chunk (current_start_ts current_end_ts : Z) : Py unit :=
  (start_dt <- lift (of_sum (local_date current_start_ts)) ;;
   end_dt <- lift (of_sum (local_date current_end_ts)) ;;
   print ("Fetching chunk: " +:+ start_dt +:+ " to " +:+ end_dt +:+ "..."))%py.

(** One pass through the body of the [while] loop, up to the increment of
    [current_start_ts]; it yields the accumulator [all_data] after the pass. *)
Definition loop_body (instrument_name : string) (end_timestamp_ms chunk_size_ms : Z)
  (sleep_interval_seconds : pyfloat) (current_start_ts : Z) (all_data : list pyval)
  : Py (list pyval) :=
  (let current_end_ts := Z.min (current_start_ts + chunk_size_ms) end_timestamp_ms in
   announce_chunk current_start_ts current_end_ts ;;;
   chunk_data <- _get_funding_rate_history_chunk
                   instrument_name current_start_ts current_end_ts ;;
   all_data' <-
     (if truthy chunk_data then
        items <- lift (py_iter chunk_data) ;;
        n <- lift (py_len chunk_data) ;;
        print ("  + Retrieved " +:+ pretty n +:+ " records for this chunk.") ;;;
        ret (all_data ++ items)
      else
        print "  - Failed to retrieve data for this chunk." ;;; ret all_data) ;;
   time_sleep sleep_interval_seconds ;;;
   ret all_data')%py.

(** The [while] loop; [fuel] bounds the number of iterations. *)
Fixpoint fetch_loop (fuel : nat) (instrument_name : string)
  (end_timestamp_ms chunk_size_ms : Z) (sleep_interval_seconds : pyfloat)
  (current_start_ts : Z) (all_data : list pyval) : Py (list pyval) :=
  if current_start_ts <? end_timestamp_ms then
    match fuel with
    | O => lift OutOfFuel
    | S fuel' =>
        (all_data' <- loop_body instrument_name end_timestamp_ms chunk_size_ms
                        sleep_interval_seconds current_start_ts all_data ;;
         fetch_loop fuel' instrument_name end_timestamp_ms chunk_size_ms
           sleep_interval_seconds (current_start_ts + chunk_size_ms) all_data')%py
    end
  else ret all_data.

Definition chunk_size_ms_of (chunk_size_days : Z) : Z :=
  chunk_size_days * 24 * 60 * 60 * 1000.

Definition _fetch_data_in_chunks (fuel : nat) (instrument_name : string)
  (start_timestamp_ms end_timestamp_ms chunk_size_days : Z)
  (sleep_interval_seconds : pyfloat) : Py (list pyval) :=
  let all_data := [] in
  let chunk_size_ms := chunk_size_ms_of chunk_size_days in
  let current_start_ts := start_timestamp_ms in
  fetch_loop fuel instrument_name end_timestamp_ms chunk_size_ms
    sleep_interval_seconds current_start_ts all_data.

(** ** [download_historical_data] *)

Definition dashes35 : string := "-----------------------------------".

Definition download_historical_data (fuel : nat) : Py unit :=
  (print "--- Starting Deribit Data Download ---" ;;;
   print ("Instrument: " +:+ INSTRUMENT_NAME) ;;;
   print ("Date Range: " +:+ START_DATE +:+ " to " +:+ END_DATE) ;;;
   print dashes35 ;;;
   start_ts <- _date_to_timestamp_ms START_DATE ;;
   end_ts <- _date_to_timestamp_ms END_DATE ;;
   final_data <- _fetch_data_in_chunks fuel INSTRUMENT_NAME start_ts end_ts
                   CHUNK_SIZE_DAYS SLEEP_INTERVAL_SECONDS ;;
   print dashes35 ;;;
   match final_data with
   | _ :: _ =>
       print ("Total records downloaded: " +:+ pretty (length final_data)) ;;;
       filename <- _generate_unique_filename INSTRUMENT_NAME DATA_TYPE START_DATE END_DATE ;;
       let full_path := os_path_join OUTPUT_DIRECTORY filename in
       _save_data_to_csv final_data full_path
   | [] => print "No data was downloaded. Check parameters and API status."
   end ;;;
   print "--- Download Process Finished ---")%py.

(** ** Vocabulary of the statements *)

(** Ceiling of [a / b] for [b > 0] (see [ceil_div_spec]). *)
Definition ceil_div (a b : Z) : Z := - ((- a) / b).

Definition num_chunks (S E C : Z) : nat := Z.to_nat (ceil_div (E - S) C).

(** The [i]-th window of the range [S, E) cut in strides of [C]. *)
Definition window (S E C : Z) (i : nat) : Z * Z :=
  (S + Z.of_nat i * C, Z.min (S + (Z.of_nat i + 1) * C) E).

Definition chunk_request (instrument_name : string) (S E C : Z) (i : nat) : Request :=
  mkRequest API_URL instrument_name (fst (window S E C i)) (snd (window S E C i)).

(** The records a chunk contributes: the elements of a returned list,
    nothing for the failure signal [None]. *)
Definition records_of (v : pyval) : list pyval :=
  match v with PList l => l | _ => [] end.

(** The declared return type of the chunk fetcher, [list[dict] | None]. *)
Definition list_or_none (v : pyval) : bool :=
  match v with PNone | PList _ => true | _ => false end.

(** Does the JSON value have the key?  Only an object has keys. *)
Definition has_key (k : string) (v : pyval) : bool :=
  match v with
  | PDict kvs => existsb (String.eqb k) (dict_keys kvs)
  | _ => false
  end.

(** State of the world after a statement has run. *)
Definition after {A} (m : Py A) (w : World) : World := snd (m w).

(** The world in which the fetch of the pass starting at [cur] runs: the
    progress line has been printed. *)
Definition at_fetch (end_ts chunk_ms cur : Z) (w : World) : World :=
  after (announce_chunk cur (Z.min (cur + chunk_ms) end_ts)) w.

(** The date of the timestamp can be rendered for the progress line. *)
Definition renders (ts : Z) : bool :=
  match local_date ts with inl _ => true | inr _ => false end.

(** Both ends of the [i]-th window can be rendered. *)
Definition window_renders (S E C : Z) (i : nat) : bool :=
  renders (fst (window S E C i)) && renders (snd (window S E C i)).

(** The four lines [download_historical_data] prints before it converts
    the dates. *)
Definition banner : Py unit :=
  (print "--- Starting Deribit Data Download ---" ;;;
   print ("Instrument: " +:+ INSTRUMENT_NAME) ;;;
   print ("Date Range: " +:+ START_DATE +:+ " to " +:+ END_DATE) ;;;
   print dashes35)%py.

(** [run] never returns, however much fuel it is given. *)
Definition never_returns {A} (run : nat -> Py A) (w : World) : Prop :=
  forall fuel, fst (run fuel w) = OutOfFuel.

(** The exchange did not produce a JSON body with a success status:
    [requests.get], [raise_for_status] or [response.json()] raised a
    [RequestException]. *)
Definition exchange_failed (o : http_outcome) : bool :=
  match o with
  | TransportFailure _ => true
  | HttpResponse status body =>
      is_error_status status || match body with None => true | Some _ => false end
  | BodyFailure status _ => is_error_status status
  end.

(** The world once one more request has gone out. *)
Definition with_request (w : World) (req : Request) : World :=
  mkWorld (sent w ++ [req]) (stdout w) (slept w) (clock w) (fs w).

(** The line a pass prints about the list its fetch returned: an empty
    list is reported like a failure. *)
Definition report_line (l : list pyval) : string :=
  match l with
  | [] => "  - Failed to retrieve data for this chunk."
  | _ :: _ => "  + Retrieved " +:+ pretty (length l) +:+ " records for this chunk."
  end.

(** ** Arithmetic of the chunk count *)

Lemma ceil_div_spec a b :
  0 < b -> (ceil_div a b - 1) * b < a <= ceil_div a b * b.
Proof.
  intros Hb. unfold ceil_div.
  pose proof (Z.div_mod (- a) b ltac:(lia)) as Hd.
  pose proof (Z.mod_pos_bound (- a) b Hb) as Hm.
  nia.
Qed.

Lemma ceil_div_nonpos a b : 0 < b -> a <= 0 -> ceil_div a b <= 0.
Proof. intros Hb Ha. pose proof (ceil_div_spec a b Hb). nia. Qed.

Lemma ceil_div_pos a b : 0 < b -> 0 < a -> 0 < ceil_div a b.
Proof. intros Hb Ha. pose proof (ceil_div_spec a b Hb). nia. Qed.

Lemma ceil_div_step a b : 0 < b -> ceil_div a b = 1 + ceil_div (a - b) b.
Proof.
  intros Hb. unfold ceil_div.
  replace (- (a - b)) with (- a + 1 * b) by lia.
  rewrite Z.div_add by lia. lia.
Qed.

Lemma chunk_size_ms_pos days : 1 <= days -> 0 < chunk_size_ms_of days.
Proof. unfold chunk_size_ms_of. lia. Qed.

Lemma num_chunks_done S E C : 0 < C -> E <= S -> num_chunks S E C = O.
Proof.
  intros HC HSE. unfold num_chunks.
  pose proof (ceil_div_nonpos (E - S) C HC ltac:(lia)). lia.
Qed.

Lemma num_chunks_step S E C :
  0 < C -> S < E -> num_chunks S E C = Datatypes.S (num_chunks (S + C) E C).
Proof.
  intros HC HSE. unfold num_chunks.
  rewrite (ceil_div_step (E - S) C HC).
  replace (E - S - C) with (E - (S + C)) by lia.
  destruct (Z_lt_le_dec (S + C) E) as [Hlt | Hge].
  - pose proof (ceil_div_pos (E - (S + C)) C HC ltac:(lia)). lia.
  - pose proof (ceil_div_nonpos (E - (S + C)) C HC ltac:(lia)).
    pose proof (ceil_div_pos (E - S) C HC ltac:(lia)) as Hp.
    rewrite (ceil_div_step (E - S) C HC) in Hp.
    replace (E - S - C) with (E - (S + C)) in Hp by lia. lia.
Qed.

Lemma window_shift S E C i :
  window (S + C) E C i = window S E C (Datatypes.S i).
Proof. unfold window. f_equal; [|f_equal]; lia. Qed.

Lemma window_0 S E C : window S E C 0 = (S, Z.min (S + C) E).
Proof. unfold window. simpl. f_equal; [|f_equal]; lia. Qed.

(** ** What a chunk fetch does to the world *)

Ltac unfold_py :=
  unfold bind, ret, lift, print, time_sleep, requests_get, after in *; simpl in *.

Lemma py_contains_no_fuel k j : py_contains k j <> OutOfFuel.
Proof. destruct j; discriminate. Qed.

Lemma py_getitem_no_fuel j k : py_getitem j k <> OutOfFuel.
Proof. destruct j; simpl; try discriminate. destruct (dict_get k kvs); discriminate. Qed.

Ltac break_match :=
  match goal with
  | |- context [match ?x with _ => _ end] => destruct x eqn:?; simpl
  | |- context [if ?x then _ else _] => destruct x eqn:?; simpl
  end.

(** A chunk fetch issues exactly one request, leaves the file system, the
    clock and the sleep log alone, and always comes back (with a value or
    an exception). *)
Lemma chunk_fetch_frame instrument_name s e w :
  let r := _get_funding_rate_history_chunk instrument_name s e w in
  sent (snd r) = sent w ++ [mkRequest API_URL instrument_name s e]
  /\ slept (snd r) = slept w /\ clock (snd r) = clock w /\ fs (snd r) = fs w
  /\ fst r <> OutOfFuel.
Proof.
  unfold _get_funding_rate_history_chunk. unfold_py.
  repeat break_match.
  all: repeat split; try reflexivity; try discriminate.
  all: try (intros ->; eapply py_getitem_no_fuel; eassumption).
  all: try (exfalso; eapply py_contains_no_fuel; eassumption).
  all: try (exfalso; eapply py_getitem_no_fuel; eassumption).
  apply py_getitem_no_fuel.
Qed.

(** ** Lists of equally long chunks *)

Lemma flat_map_seq_length {A} (recs : nat -> list A) (N : nat) :
  forall k a,
    (forall x, (a <= x < a + k)%nat -> length (recs x) = N) ->
    length (flat_map recs (seq a k)) = (k * N)%nat.
Proof.
  induction k as [| k IH]; intros a Hlen; simpl; [reflexivity |].
  rewrite length_app, (Hlen a) by lia. rewrite IH; [reflexivity |].
  intros x Hx. apply Hlen. lia.
Qed.

Lemma lookup_flat_map_seq {A} (recs : nat -> list A) (N : nat) :
  forall k a i j,
    (forall x, (a <= x < a + k)%nat -> length (recs x) = N) ->
    (i < k)%nat -> (j < N)%nat ->
    flat_map recs (seq a k) !! (i * N + j)%nat = recs (a + i)%nat !! j.
Proof.
  induction k as [| k IH]; intros a i j Hlen Hi Hj; [lia |].
  simpl. destruct i as [| i].
  - simpl. rewrite lookup_app_l by (rewrite (Hlen a) by lia; exact Hj).
    now rewrite Nat.add_0_r.
  - rewrite lookup_app_r by (rewrite (Hlen a) by lia; simpl; lia).
    rewrite (Hlen a) by lia.
    replace (Datatypes.S i * N + j - N)%nat with (i * N + j)%nat by (simpl; lia).
    assert (Hlen' : forall x, (Datatypes.S a <= x < Datatypes.S a + k)%nat ->
                           length (recs x) = N) by (intros x Hx; apply Hlen; lia).
    rewrite (IH (Datatypes.S a) i j Hlen' ltac:(lia) Hj).
    f_equal. f_equal. lia.
Qed.

(** ** One pass of the loop *)

Section Loop.

Variables (instrument_name : string) (end_ts chunk_ms : Z) (sleep : pyfloat).

Let body := loop_body instrument_name end_ts chunk_ms sleep.
Let loop fuel := fetch_loop fuel instrument_name end_ts chunk_ms sleep.

(** The progress line changes nothing but the output, and comes back. *)
Lemma announce_frame s e w :
  sent (after (announce_chunk s e) w) = sent w
  /\ slept (after (announce_chunk s e) w) = slept w
  /\ clock (after (announce_chunk s e) w) = clock w
  /\ fs (after (announce_chunk s e) w) = fs w
  /\ fst (announce_chunk s e w) <> OutOfFuel.
Proof.
  unfold announce_chunk. unfold_py.
  destruct (local_date s), (local_date e); simpl; repeat split; discriminate.
Qed.

Lemma announce_returns s e w :
  renders s = true -> renders e = true ->
  announce_chunk s e w = (Return tt, after (announce_chunk s e) w).
Proof.
  unfold renders, announce_chunk. unfold_py.
  destruct (local_date s), (local_date e); simpl; intros; try discriminate. reflexivity.
Qed.

Lemma announce_returned s e w :
  fst (announce_chunk s e w) = Return tt -> renders s = true /\ renders e = true.
Proof.
  unfold renders, announce_chunk. unfold_py.
  destruct (local_date s), (local_date e); simpl; intros; try discriminate. auto.
Qed.

Lemma at_fetch_frame cur w :
  sent (at_fetch end_ts chunk_ms cur w) = sent w /\ slept (at_fetch end_ts chunk_ms cur w) = slept w
  /\ clock (at_fetch end_ts chunk_ms cur w) = clock w /\ fs (at_fetch end_ts chunk_ms cur w) = fs w.
Proof.
  unfold at_fetch.
  destruct (announce_frame cur (Z.min (cur + chunk_ms) end_ts) w) as (? & ? & ? & ? & _).
  auto.
Qed.

(** A pass whose fetch returns a list or [None] completes when the
    interval is one [time.sleep] accepts: the accumulator gains the records
    of the chunk, one request and one sleep are logged, the file system is
    untouched. *)
Lemma loop_body_returns cur all w v w1 :
  sleep_refused sleep = None ->
  renders cur = true -> renders (Z.min (cur + chunk_ms) end_ts) = true ->
  _get_funding_rate_history_chunk instrument_name cur (Z.min (cur + chunk_ms) end_ts)
    (at_fetch end_ts chunk_ms cur w) = (Return v, w1) ->
  list_or_none v = true ->
  exists w2,
    body cur all w = (Return (all ++ records_of v), w2)
    /\ sent w2 = sent w ++ [mkRequest API_URL instrument_name cur (Z.min (cur + chunk_ms) end_ts)]
    /\ slept w2 = slept w ++ [sleep]
    /\ clock w2 = clock w /\ fs w2 = fs w.
Proof.
  intros Hsleep Hr1 Hr2 Hfetch Hv.
  pose proof (chunk_fetch_frame instrument_name cur (Z.min (cur + chunk_ms) end_ts)
                (at_fetch end_ts chunk_ms cur w)) as Hframe.
  cbv zeta in Hframe. rewrite Hfetch in Hframe. cbn [fst snd] in Hframe.
  destruct Hframe as (Hsent & Hslept & Hclock & Hfs & _).
  destruct (at_fetch_frame cur w) as (Hs0 & Hl0 & Hc0 & Hf0).
  rewrite Hs0 in Hsent. rewrite Hl0 in Hslept. rewrite Hc0 in Hclock. rewrite Hf0 in Hfs.
  subst body. unfold loop_body. cbv zeta.
  unfold bind at 1. rewrite (announce_returns _ _ w Hr1 Hr2).
  fold (at_fetch end_ts chunk_ms cur w).
  unfold bind at 1. rewrite Hfetch.
  destruct v as [| | | | | l |]; try discriminate; simpl.
  - unfold_py. rewrite Hsleep. eexists. rewrite app_nil_r.
    repeat split; simpl; congruence.
  - destruct l as [| x l]; simpl.
    + unfold_py. rewrite Hsleep. eexists. rewrite app_nil_r.
      repeat split; simpl; congruence.
    + unfold_py. rewrite Hsleep. eexists. repeat split; simpl; congruence.
Qed.

Lemma flat_map_shift {A B} (f : nat -> list B) (g : A -> nat) (l : list A) :
  flat_map f (map g l) = flat_map (fun x => f (g x)) l.
Proof. induction l as [| x l IH]; simpl; [reflexivity | now rewrite IH]. Qed.

Lemma window_renders_0 cur :
  window_renders cur end_ts chunk_ms 0 = true ->
  renders cur = true /\ renders (Z.min (cur + chunk_ms) end_ts) = true.
Proof.
  unfold window_renders. rewrite window_0. cbn [fst snd].
  intros H. apply andb_prop in H. exact H.
Qed.

(** If the interval is one [time.sleep] accepts, the dates of every window
    can be rendered and every fetch of the run returns a list or [None],
    the loop returns after [num_chunks] passes,
    having issued the request of each window in turn and collected the
    records of each chunk in that order. *)
Lemma fetch_loop_runs :
  0 < chunk_ms ->
  sleep_refused sleep = None ->
  forall k (reply : nat -> pyval) fuel cur all w,
    num_chunks cur end_ts chunk_ms = k -> (k <= fuel)%nat ->
    (forall i, (i < k)%nat -> window_renders cur end_ts chunk_ms i = true) ->
    (forall i w', (i < k)%nat -> length (sent w') = (length (sent w) + i)%nat ->
       fst (_get_funding_rate_history_chunk instrument_name
              (fst (window cur end_ts chunk_ms i)) (snd (window cur end_ts chunk_ms i)) w')
       = Return (reply i)) ->
    (forall i, (i < k)%nat -> list_or_none (reply i) = true) ->
    exists w',
      loop fuel cur all w
      = (Return (all ++ flat_map (fun i => records_of (reply i)) (seq 0 k)), w')
      /\ sent w' = sent w ++ map (chunk_request instrument_name cur end_ts chunk_ms) (seq 0 k)
      /\ slept w' = slept w ++ repeat sleep k
      /\ clock w' = clock w /\ fs w' = fs w.
Proof.
  intros HC Hsleep.
  induction k as [| k IH]; intros reply fuel cur all w Hk Hfuel Hren Hfetch Hty.
  - assert (Hge : end_ts <= cur).
    { destruct (Z_lt_le_dec cur end_ts) as [Hlt | Hge]; [| exact Hge].
      rewrite (num_chunks_step _ _ _ HC Hlt) in Hk. discriminate. }
    exists w. subst loop. cbv beta.
    destruct fuel; simpl; (destruct (Z.ltb_spec cur end_ts); [lia |]);
      unfold ret; simpl; rewrite !app_nil_r; auto.
  - assert (Hlt : cur < end_ts).
    { destruct (Z_lt_le_dec cur end_ts) as [Hlt | Hge]; [exact Hlt |].
      rewrite (num_chunks_done _ _ _ HC Hge) in Hk. discriminate. }
    destruct fuel as [| fuel]; [lia |].
    rewrite (num_chunks_step _ _ _ HC Hlt) in Hk. injection Hk as Hk.
    destruct (at_fetch_frame cur w) as (Hs0 & _).
    pose proof (Hfetch O (at_fetch end_ts chunk_ms cur w) ltac:(lia) ltac:(rewrite Hs0; lia)) as H0.
    rewrite window_0 in H0. cbn [fst snd] in H0.
    destruct (_get_funding_rate_history_chunk instrument_name cur
                (Z.min (cur + chunk_ms) end_ts) (at_fetch end_ts chunk_ms cur w)) as [o w1] eqn:Hf.
    cbn [fst] in H0. subst o.
    destruct (window_renders_0 cur (Hren O ltac:(lia))) as [Hr1 Hr2].
    destruct (loop_body_returns cur all w (reply O) w1 Hsleep Hr1 Hr2 Hf (Hty O ltac:(lia)))
      as (w2 & Hbody & Hsent & Hslept & Hclock & Hfs).
    destruct (IH (fun i => reply (S i)) fuel (cur + chunk_ms)
                (all ++ records_of (reply O)) w2 Hk ltac:(lia)) as (w3 & Hrun & H3).
    { intros i Hi. unfold window_renders. rewrite window_shift. apply Hren. lia. }
    { intros i w' Hi Hlen. rewrite window_shift. apply Hfetch; [lia |].
      rewrite Hlen, Hsent, length_app. simpl. lia. }
    { intros i Hi. apply Hty. lia. }
    exists w3. subst loop. cbv beta in *. simpl fetch_loop.
    destruct (Z.ltb_spec cur end_ts); [| lia].
    unfold bind at 1. fold body. rewrite Hbody. rewrite Hrun.
    destruct H3 as (Hsent3 & Hslept3 & Hclock3 & Hfs3).
    split; [| split; [| split; [| split]]].
    + rewrite <- app_assoc. simpl.
      rewrite <- seq_shift, (flat_map_shift (fun i => records_of (reply i)) S).
      reflexivity.
    + rewrite Hsent3, Hsent, <- app_assoc. simpl.
      rewrite <- seq_shift, map_map. unfold chunk_request at 2.
      rewrite window_0. cbn [fst snd]. do 2 f_equal.
      apply map_ext. intros i.
      unfold chunk_request. rewrite window_shift. reflexivity.
    + rewrite Hslept3, Hslept, <- app_assoc. reflexivity.
    + congruence.
    + congruence.
Qed.

Lemma py_iter_no_fuel v : py_iter v <> OutOfFuel.
Proof. destruct v; discriminate. Qed.

Lemma py_len_no_fuel v : py_len v <> OutOfFuel.
Proof. destruct v; discriminate. Qed.

(** A pass of the loop always comes back, whatever the fetch does, and
    never touches the file system; when it returns, both dates were
    rendered, exactly one request was issued and the interval was one
    [time.sleep] accepts. *)
Lemma loop_body_anatomy cur all w o w' :
  body cur all w = (o, w') ->
  o <> OutOfFuel
  /\ fs w' = fs w
  /\ (forall all', o = Return all' ->
        sent w' = sent w ++ [mkRequest API_URL instrument_name cur
                               (Z.min (cur + chunk_ms) end_ts)]
        /\ renders cur = true /\ renders (Z.min (cur + chunk_ms) end_ts) = true
        /\ sleep_refused sleep = None).
Proof.
  clear loop local_midnight_ms. intros Hr. subst body. unfold loop_body in Hr. cbv zeta in Hr.
  unfold bind at 1 in Hr.
  destruct (announce_frame cur (Z.min (cur + chunk_ms) end_ts) w)
    as (Hs0 & _ & _ & Hf0 & Hn0).
  pose proof (announce_returned cur (Z.min (cur + chunk_ms) end_ts) w) as Hren.
  unfold after in Hs0, Hf0.
  destruct (announce_chunk cur (Z.min (cur + chunk_ms) end_ts) w) as [[[] | ex |] w0];
    cbn [fst snd] in *.
  2:{ injection Hr as <- <-. split; [discriminate | split; [exact Hf0 | discriminate]]. }
  2:{ congruence. }
  specialize (Hren eq_refl).
  pose proof (chunk_fetch_frame instrument_name cur (Z.min (cur + chunk_ms) end_ts) w0)
    as Hframe.
  cbv zeta in Hframe. destruct Hframe as (Hsent & _ & _ & Hfs & Hnf).
  rewrite Hs0 in Hsent. rewrite Hf0 in Hfs.
  unfold bind at 1 in Hr.
  destruct (_get_funding_rate_history_chunk _ _ _ _) as [[v | e |] w1];
    cbn [fst snd] in *.
  2:{ injection Hr as <- <-. split; [discriminate | split; [exact Hfs | discriminate]]. }
  2:{ congruence. }
  pose proof (py_iter_no_fuel v). pose proof (py_len_no_fuel v).
  destruct (truthy v); unfold_py.
  - destruct (py_iter v); simpl in Hr; try congruence.
    2:{ injection Hr as <- <-. split; [discriminate | split; [exact Hfs | discriminate]]. }
    destruct (py_len v); simpl in Hr; try congruence.
    2:{ injection Hr as <- <-. split; [discriminate | split; [exact Hfs | discriminate]]. }
    destruct (sleep_refused sleep) eqn:Hsleep; injection Hr as <- <-; simpl;
      (split; [discriminate | split; [exact Hfs |]]);
      [discriminate | intros _ _; tauto].
  - destruct (sleep_refused sleep) eqn:Hsleep; injection Hr as <- <-; simpl;
      (split; [discriminate | split; [exact Hfs |]]);
      [discriminate | intros _ _; tauto].
Qed.

Lemma loop_body_no_fuel cur all w : fst (body cur all w) <> OutOfFuel.
Proof. exact (proj1 (loop_body_anatomy cur all w _ _ (surjective_pairing _))). Qed.

(** With a positive stride the loop needs at most [num_chunks] passes:
    given that much fuel it ends, by returning or by an exception. *)
Lemma fetch_loop_terminates :
  0 < chunk_ms ->
  forall k fuel cur all w,
    num_chunks cur end_ts chunk_ms = k -> (k <= fuel)%nat ->
    fst (loop fuel cur all w) <> OutOfFuel.
Proof.
  intros HC. induction k as [| k IH]; intros fuel cur all w Hk Hfuel; subst loop; cbv beta.
  - destruct (Z_lt_le_dec cur end_ts) as [Hlt | Hge].
    { rewrite (num_chunks_step _ _ _ HC Hlt) in Hk. discriminate. }
    destruct fuel; simpl; (destruct (Z.ltb_spec cur end_ts); [lia |]); discriminate.
  - destruct (Z_lt_le_dec cur end_ts) as [Hlt | Hge].
    2:{ rewrite (num_chunks_done _ _ _ HC Hge) in Hk. discriminate. }
    destruct fuel as [| fuel]; [lia |].
    rewrite (num_chunks_step _ _ _ HC Hlt) in Hk. injection Hk as Hk.
    simpl. destruct (Z.ltb_spec cur end_ts); [| lia].
    unfold bind. pose proof (loop_body_no_fuel cur all w) as Hb. fold body.
    destruct (body cur all w) as [[all' | e |] w']; simpl in *;
      [| discriminate | congruence].
    apply (IH fuel (cur + chunk_ms) all' w' Hk). lia.
Qed.

(** With a stride that is not positive the start never reaches the end:
    the loop cannot return. *)
Lemma fetch_loop_never_returns :
  chunk_ms <= 0 ->
  forall fuel cur all w data w',
    cur < end_ts ->
    loop fuel cur all w <> (Return data, w').
Proof.
  intros HC. subst loop. cbv beta.
  induction fuel as [| fuel IH]; intros cur all w data w' Hlt; simpl;
    (destruct (Z.ltb_spec cur end_ts); [| lia]); [discriminate |].
  unfold bind. fold body.
  destruct (body cur all w) as [[all' | e |] w1]; try discriminate.
  apply IH. lia.
Qed.

(** With a stride of zero every pass is the same pass: as long as the
    interval is accepted, its date can be rendered and its fetch returns,
    the loop uses up any fuel, one request per unit of fuel. *)
Lemma fetch_loop_stalls :
  chunk_ms = 0 ->
  sleep_refused sleep = None ->
  forall cur,
    cur < end_ts ->
    renders cur = true ->
    (forall w, exists v w1,
        _get_funding_rate_history_chunk instrument_name cur cur w = (Return v, w1)
        /\ list_or_none v = true) ->
    forall fuel all w,
      fst (loop fuel cur all w) = OutOfFuel
      /\ length (sent (snd (loop fuel cur all w))) = (length (sent w) + fuel)%nat.
Proof.
  intros HC Hsleep cur Hlt Hren Hfetch. subst loop. cbv beta.
  assert (Hmin : Z.min (cur + chunk_ms) end_ts = cur) by lia.
  induction fuel as [| fuel IH]; intros all w.
  - simpl. destruct (Z.ltb_spec cur end_ts); [| lia]. simpl. split; [reflexivity | lia].
  - simpl. destruct (Z.ltb_spec cur end_ts); [| lia].
    destruct (Hfetch (at_fetch end_ts chunk_ms cur w)) as (v & w1 & Hf & Hv).
    rewrite <- Hmin in Hf at 2.
    destruct (loop_body_returns cur all w v w1 Hsleep Hren
                ltac:(rewrite Hmin; exact Hren) Hf Hv)
      as (w2 & Hbody & Hsent & _).
    unfold bind. fold body. rewrite Hbody.
    replace (cur + chunk_ms) with cur by lia.
    destruct (IH (all ++ records_of v) w2) as (Hout & Hlen).
    split; [exact Hout |].
    rewrite Hlen, Hsent, length_app. simpl. lia.
Qed.

(** The loop never touches the file system, however it ends. *)
Lemma loop_body_fs cur all w : fs (snd (body cur all w)) = fs w.
Proof.
  exact (proj1 (proj2 (loop_body_anatomy cur all w _ _ (surjective_pairing _)))).
Qed.

Lemma fetch_loop_fs fuel : forall cur all w, fs (snd (loop fuel cur all w)) = fs w.
Proof.
  subst loop. cbv beta.
  induction fuel as [| fuel IH]; intros cur all w; simpl;
    destruct (cur <? end_ts); try reflexivity.
  unfold bind. pose proof (loop_body_fs cur all w) as Hb. fold body.
  destruct (body cur all w) as [[all' | e |] w']; simpl in *; try exact Hb.
  rewrite IH. exact Hb.
Qed.

(** A pass that returns has issued exactly one request. *)
Lemma loop_body_sent cur all w all' :
  fst (body cur all w) = Return all' ->
  sent (snd (body cur all w))
  = sent w ++ [mkRequest API_URL instrument_name cur (Z.min (cur + chunk_ms) end_ts)].
Proof.
  intros H.
  apply (proj2 (proj2 (loop_body_anatomy cur all w _ _ (surjective_pairing _))) all' H).
Qed.

(** The loop returns only with an interval [time.sleep] accepts, unless
    it makes no pass at all. *)
Lemma fetch_loop_slept fuel :
  forall cur all w data w',
    cur < end_ts ->
    loop fuel cur all w = (Return data, w') ->
    sleep_refused sleep = None.
Proof.
  subst loop. cbv beta.
  destruct fuel as [| fuel]; intros cur all w data w' Hlt Hrun; simpl in Hrun;
    (destruct (Z.ltb_spec cur end_ts); [| lia]); [discriminate |].
  unfold bind in Hrun. fold body in Hrun.
  destruct (body cur all w) as [[all' | e |] w1] eqn:Hb; try discriminate.
  destruct (loop_body_anatomy cur all w _ _ Hb) as (_ & _ & Hret).
  apply (Hret all' eq_refl).
Qed.

(** Whenever the loop returns, with a positive stride, it has issued the
    requests of the windows of [cur, end_ts), one each and in order. *)
Lemma fetch_loop_requests :
  0 < chunk_ms ->
  forall fuel cur all w data w',
    loop fuel cur all w = (Return data, w') ->
    sent w' = sent w ++ map (chunk_request instrument_name cur end_ts chunk_ms)
                            (seq 0 (num_chunks cur end_ts chunk_ms)).
Proof.
  intros HC. subst loop. cbv beta.
  induction fuel as [| fuel IH]; intros cur all w data w' Hrun; simpl in Hrun;
    destruct (Z.ltb_spec cur end_ts) as [Hlt | Hge]; try discriminate.
  - injection Hrun as _ <-. rewrite (num_chunks_done _ _ _ HC Hge). simpl.
    now rewrite app_nil_r.
  - unfold bind in Hrun. pose proof (loop_body_sent cur all w) as Hsent. fold body in Hrun.
    destruct (body cur all w) as [[all' | e |] w1]; try discriminate.
    specialize (Hsent all' eq_refl). cbn [snd] in Hsent. apply IH in Hrun.
    rewrite Hrun, Hsent, <- app_assoc, (num_chunks_step _ _ _ HC Hlt). simpl.
    rewrite <- seq_shift, map_map. unfold chunk_request at 2.
    rewrite window_0. cbn [fst snd]. do 2 f_equal.
    apply map_ext. intros i. unfold chunk_request. rewrite window_shift. reflexivity.
  - injection Hrun as _ <-. rewrite (num_chunks_done _ _ _ HC Hge). simpl.
    now rewrite app_nil_r.
Qed.

(** Whenever the loop returns while the [i]-th fetch returns the list
    [recs i], it returns these lists concatenated in fetch order, as many
    as it has issued requests. *)
Lemma fetch_loop_collects :
  forall fuel (recs : nat -> list pyval) cur all w data w',
    (forall i w'', length (sent w'') = (length (sent w) + i)%nat ->
       fst (_get_funding_rate_history_chunk instrument_name
              (fst (window cur end_ts chunk_ms i)) (snd (window cur end_ts chunk_ms i)) w'')
       = Return (PList (recs i))) ->
    loop fuel cur all w = (Return data, w') ->
    exists k,
      length (sent w') = (length (sent w) + k)%nat
      /\ data = all ++ flat_map recs (seq 0 k).
Proof.
  subst loop. cbv beta.
  induction fuel as [| fuel IH]; intros recs cur all w data w' Hfetch Hrun; simpl in Hrun;
    destruct (Z.ltb_spec cur end_ts) as [Hlt | Hge]; try discriminate.
  - injection Hrun as <- <-. exists O. simpl. rewrite app_nil_r. split; [lia | reflexivity].
  - destruct (at_fetch_frame cur w) as (Hs0 & _).
    pose proof (Hfetch O (at_fetch end_ts chunk_ms cur w) ltac:(rewrite Hs0; lia)) as H0.
    rewrite window_0 in H0. cbn [fst snd] in H0.
    destruct (_get_funding_rate_history_chunk instrument_name cur
                (Z.min (cur + chunk_ms) end_ts) (at_fetch end_ts chunk_ms cur w)) as [o w1] eqn:Hf.
    cbn [fst] in H0. subst o.
    unfold bind in Hrun. fold body in Hrun.
    destruct (body cur all w) as [[all' | ex |] wb] eqn:Hb; try discriminate.
    destruct (loop_body_anatomy cur all w _ _ Hb) as (_ & _ & Hret).
    destruct (Hret all' eq_refl) as (_ & Hr1 & Hr2 & Hsleep).
    destruct (loop_body_returns cur all w (PList (recs O)) w1 Hsleep Hr1 Hr2 Hf eq_refl)
      as (w2 & Hbody & Hsent & _).
    rewrite Hbody in Hb. injection Hb as <- <-.
    apply (IH (fun i => recs (Datatypes.S i))) in Hrun.
    + destruct Hrun as (k & Hlen & Hdata). exists (Datatypes.S k). split.
      * rewrite Hlen, Hsent, length_app. simpl. lia.
      * rewrite Hdata. simpl. rewrite <- app_assoc.
        rewrite <- seq_shift, (flat_map_shift recs Datatypes.S). reflexivity.
    + intros i w'' Hlen. rewrite window_shift. apply Hfetch.
      rewrite Hlen, Hsent, length_app. simpl. lia.
  - injection Hrun as <- <-. exists O. simpl. rewrite app_nil_r. split; [lia | reflexivity].
Qed.

End Loop.

(** ** The chunked aggregator *)

(** C1, as amended.  For [S < E] and a chunk size of at least one day,
    with [C = chunk_size_days*24*60*60*1000]: whenever
    [_fetch_data_in_chunks] returns, it has invoked the single-chunk
    fetcher exactly [n] times, where [n] is the ceiling of [(E - S) / C],
    the [i]-th call ([i = 0 .. n-1]) with start [S + i*C] and end
    [min(S + (i+1)*C, E)]; and it does return when the interval is one
    [time.sleep] accepts, the dates of the progress lines can be rendered
    and every chunk fetch returns a list or [None]. *)
Theorem fetch_calls_one_per_window
  (instrument_name : string) (S E chunk_size_days : Z) (sleep : pyfloat) (w : World) :
  S < E ->
  1 <= chunk_size_days ->
  let C := chunk_size_ms_of chunk_size_days in
  let n := num_chunks S E C in
  (forall fuel data w',
      _fetch_data_in_chunks fuel instrument_name S E chunk_size_days sleep w
      = (Return data, w') ->
      sent w' = sent w ++ map (chunk_request instrument_name S E C) (seq 0 n))
  /\ (forall fuel (reply : nat -> pyval),
        (n <= fuel)%nat ->
        sleep_refused sleep = None ->
        (forall i, (i < n)%nat -> window_renders S E C i = true) ->
        (forall i w', (i < n)%nat -> length (sent w') = (length (sent w) + i)%nat ->
           fst (_get_funding_rate_history_chunk instrument_name
                  (fst (window S E C i)) (snd (window S E C i)) w')
           = Return (reply i)) ->
        (forall i, (i < n)%nat -> list_or_none (reply i) = true) ->
        exists data w',
          _fetch_data_in_chunks fuel instrument_name S E chunk_size_days sleep w
          = (Return data, w'))
  /\ Z.of_nat n = ceil_div (E - S) C
  /\ (ceil_div (E - S) C - 1) * C < E - S <= ceil_div (E - S) C * C.
Proof.
  intros HSE Hdays C n.
  pose proof (chunk_size_ms_pos _ Hdays) as HC. fold C in HC.
  split; [| split; [| split]].
  - intros fuel data w' Hrun.
    exact (fetch_loop_requests instrument_name E C sleep HC fuel S [] w data w' Hrun).
  - intros fuel reply Hfuel Hsleep Hren Hfetch Hty.
    destruct (fetch_loop_runs instrument_name E C sleep HC Hsleep
                n reply fuel S [] w eq_refl Hfuel Hren Hfetch Hty)
      as (w' & Hrun & _).
    eexists. exists w'. exact Hrun.
  - subst n. unfold num_chunks.
    pose proof (ceil_div_pos (E - S) C HC ltac:(lia)). lia.
  - apply ceil_div_spec. exact HC.
Qed.

(** With the chunk size, the interval and the fetches of the theorem
    above, the list returned holds the records of the chunks in fetch
    order, a chunk that failed ([None]) contributing none. *)
Lemma aggregate_of_replies
  (instrument_name : string) (S E chunk_size_days : Z) (sleep : pyfloat)
  (reply : nat -> pyval) (fuel : nat) (w : World) :
  1 <= chunk_size_days ->
  sleep_refused sleep = None ->
  let C := chunk_size_ms_of chunk_size_days in
  let n := num_chunks S E C in
  (n <= fuel)%nat ->
  (forall i, (i < n)%nat -> window_renders S E C i = true) ->
  (forall i w', (i < n)%nat -> length (sent w') = (length (sent w) + i)%nat ->
     fst (_get_funding_rate_history_chunk instrument_name
            (fst (window S E C i)) (snd (window S E C i)) w')
     = Return (reply i)) ->
  (forall i, (i < n)%nat -> list_or_none (reply i) = true) ->
  fst (_fetch_data_in_chunks fuel instrument_name S E chunk_size_days sleep w)
  = Return (flat_map (fun i => records_of (reply i)) (seq 0 n)).
Proof.
  intros Hdays Hsleep C n Hfuel Hren Hfetch Hty.
  pose proof (chunk_size_ms_pos _ Hdays) as HC. fold C in HC.
  destruct (fetch_loop_runs instrument_name E C sleep HC Hsleep
              n reply fuel S [] w eq_refl Hfuel Hren Hfetch Hty)
    as (w' & Hrun & _).
  unfold _fetch_data_in_chunks. cbv zeta. fold C. rewrite Hrun. reflexivity.
Qed.

(** C6.  In a run in which every chunk fetch succeeds and returns a list
    of exactly [N] records ([recs i] for the [i]-th fetch): whenever
    [_fetch_data_in_chunks] returns, the list it returns is the
    concatenation of these lists in fetch order, so it has (number of
    chunks fetched) * [N] records and the [j]-th record of the [i]-th chunk
    is at position [i * N + j]; and with a chunk size of at least one day,
    an interval [time.sleep] accepts and dates that can be rendered for
    the progress lines, it does return, [num_chunks] chunks having been
    fetched. *)
Theorem all_chunks_concatenated
  (instrument_name : string) (S E chunk_size_days : Z) (sleep : pyfloat)
  (recs : nat -> list pyval) (N : nat) (w : World) :
  let C := chunk_size_ms_of chunk_size_days in
  (forall i w', length (sent w') = (length (sent w) + i)%nat ->
     fst (_get_funding_rate_history_chunk instrument_name
            (fst (window S E C i)) (snd (window S E C i)) w')
     = Return (PList (recs i))) ->
  (forall i, length (recs i) = N) ->
  (forall fuel data w',
      _fetch_data_in_chunks fuel instrument_name S E chunk_size_days sleep w
      = (Return data, w') ->
      exists k,
        length (sent w') = (length (sent w) + k)%nat
        /\ data = flat_map recs (seq 0 k)
        /\ length data = (k * N)%nat
        /\ (forall i j, (i < k)%nat -> (j < N)%nat ->
                        data !! (i * N + j)%nat = recs i !! j))
  /\ (1 <= chunk_size_days ->
      sleep_refused sleep = None ->
      (forall i, (i < num_chunks S E C)%nat -> window_renders S E C i = true) ->
      forall fuel, (num_chunks S E C <= fuel)%nat ->
      exists data w',
        _fetch_data_in_chunks fuel instrument_name S E chunk_size_days sleep w
        = (Return data, w')
        /\ length (sent w') = (length (sent w) + num_chunks S E C)%nat).
Proof.
  intros C Hfetch Hlen. split.
  - intros fuel data w' Hrun.
    destruct (fetch_loop_collects instrument_name E C sleep fuel recs S [] w data w'
                Hfetch Hrun) as (k & Hsent & Hdata).
    simpl in Hdata. exists k. split; [exact Hsent |]. split; [exact Hdata |].
    subst data. split.
    + apply flat_map_seq_length. intros x _. apply Hlen.
    + intros i j Hi Hj.
      rewrite (lookup_flat_map_seq recs N k 0 i j); [reflexivity | | exact Hi | exact Hj].
      intros x _. apply Hlen.
  - intros Hdays Hsleep Hren fuel Hfuel.
    pose proof (chunk_size_ms_pos _ Hdays) as HC. fold C in HC.
    destruct (fetch_loop_runs instrument_name E C sleep HC Hsleep
                _ (fun i => PList (recs i)) fuel S [] w eq_refl Hfuel Hren
                (fun i w' _ Hl => Hfetch i w' Hl) ltac:(reflexivity))
      as (w' & Hrun & Hsent & _).
    eexists. exists w'. split; [exact Hrun |].
    rewrite Hsent, length_app, length_map, length_seq. reflexivity.
Qed.

(** C8.  For a chunk size of at least one day the stride is positive, each
    pass moves [current_start_ts] strictly forward, after [num_chunks]
    passes it has reached [end_timestamp_ms], and the loop ends within that
    many passes whatever the fetches do. *)
Theorem fetch_loop_ends
  (instrument_name : string) (S E chunk_size_days : Z) (sleep : pyfloat) (w : World) :
  1 <= chunk_size_days ->
  0 < chunk_size_ms_of chunk_size_days
  /\ (forall current_start_ts,
        current_start_ts < current_start_ts + chunk_size_ms_of chunk_size_days)
  /\ E <= S + Z.of_nat (num_chunks S E (chunk_size_ms_of chunk_size_days))
               * chunk_size_ms_of chunk_size_days
  /\ (forall fuel,
        (num_chunks S E (chunk_size_ms_of chunk_size_days) <= fuel)%nat ->
        fst (_fetch_data_in_chunks fuel instrument_name S E chunk_size_days sleep w)
        <> OutOfFuel).
Proof.
  intros Hdays. pose proof (chunk_size_ms_pos _ Hdays) as HC.
  split; [exact HC |]. split; [intros; lia |]. split.
  - unfold num_chunks.
    pose proof (ceil_div_spec (E - S) _ HC) as Hc.
    destruct (Z_lt_le_dec 0 (ceil_div (E - S) (chunk_size_ms_of chunk_size_days))).
    + rewrite Z2Nat.id by lia. lia.
    + replace (Z.of_nat (Z.to_nat (ceil_div (E - S) (chunk_size_ms_of chunk_size_days))))
        with 0 by lia.
      nia.
  - intros fuel Hfuel. unfold _fetch_data_in_chunks.
    apply (fetch_loop_terminates instrument_name E _ sleep HC _ fuel S [] w eq_refl Hfuel).
Qed.

(** C2.  A pass of the loop that reaches its chunk fetch (the progress
    line has been printed) and whose fetch returns the failure signal
    [None]: the failed chunk raises nothing and contributes no record.
    The pass prints the failure line and then is [time.sleep] followed by
    the accumulator as it was, so the only exception that can leave the
    pass is the one [time.sleep] raises for an interval it refuses.  With
    an interval it accepts, the pass returns the accumulator [all_data]
    unchanged, exactly one request was issued, and the loop goes on with
    the next chunk, at [current_start_ts + chunk_size_ms], with that same
    accumulator. *)
Theorem failed_chunk_is_skipped
  (instrument_name : string) (end_timestamp_ms chunk_size_ms : Z) (sleep : pyfloat)
  (fuel : nat) (current_start_ts : Z) (all_data : list pyval) (w w1 : World) :
  current_start_ts < end_timestamp_ms ->
  fst (announce_chunk current_start_ts
         (Z.min (current_start_ts + chunk_size_ms) end_timestamp_ms) w) = Return tt ->
  _get_funding_rate_history_chunk instrument_name current_start_ts
    (Z.min (current_start_ts + chunk_size_ms) end_timestamp_ms)
    (at_fetch end_timestamp_ms chunk_size_ms current_start_ts w) = (Return PNone, w1) ->
  loop_body instrument_name end_timestamp_ms chunk_size_ms sleep current_start_ts all_data w
  = bind (time_sleep sleep) (fun _ => ret all_data)
      (after (print "  - Failed to retrieve data for this chunk.") w1)
  /\ (sleep_refused sleep = None ->
      exists w2,
        loop_body instrument_name end_timestamp_ms chunk_size_ms sleep
          current_start_ts all_data w
        = (Return all_data, w2)
        /\ fetch_loop (Datatypes.S fuel) instrument_name end_timestamp_ms chunk_size_ms sleep
             current_start_ts all_data w
           = fetch_loop fuel instrument_name end_timestamp_ms chunk_size_ms sleep
               (current_start_ts + chunk_size_ms) all_data w2
        /\ sent w2 = sent w ++ [mkRequest API_URL instrument_name current_start_ts
                                   (Z.min (current_start_ts + chunk_size_ms)
                                      end_timestamp_ms)]
        /\ stdout w2 = stdout w1 ++ ["  - Failed to retrieve data for this chunk."]
        /\ fs w2 = fs w).
Proof.
  intros Hlt Hann Hfetch.
  destruct (announce_returned _ _ _ Hann) as [Hr1 Hr2].
  assert (Hpass :
    loop_body instrument_name end_timestamp_ms chunk_size_ms sleep
      current_start_ts all_data w
    = bind (time_sleep sleep) (fun _ => ret all_data)
        (after (print "  - Failed to retrieve data for this chunk.") w1)).
  { unfold loop_body. cbv zeta. unfold bind at 1.
    rewrite (announce_returns _ _ w Hr1 Hr2).
    fold (at_fetch end_timestamp_ms chunk_size_ms current_start_ts w).
    unfold bind at 1. rewrite Hfetch. reflexivity. }
  split; [exact Hpass |]. intros Hsleep.
  destruct (loop_body_returns instrument_name end_timestamp_ms chunk_size_ms sleep
              current_start_ts all_data w PNone w1 Hsleep Hr1 Hr2 Hfetch eq_refl)
    as (w2 & Hbody & Hsent & _ & _ & Hfs).
  simpl in Hbody. rewrite app_nil_r in Hbody.
  exists w2. split; [exact Hbody |]. split; [| split; [| split]]; try assumption.
  - simpl. destruct (Z.ltb_spec current_start_ts end_timestamp_ms); [| lia].
    unfold bind. rewrite Hbody. reflexivity.
  - rewrite Hpass in Hbody. unfold bind, time_sleep, ret, after, print in Hbody.
    rewrite Hsleep in Hbody. cbn [fst snd] in Hbody.
    injection Hbody as <-. reflexivity.
Qed.

(** ** The single-chunk fetcher *)

(** C9, as amended.  When the body of the response parses to a JSON object
    that has neither a ['result'] key nor an ['error'] key, the fetcher
    returns [None], whatever the HTTP status. *)
Theorem unrecognized_object_gives_none
  (instrument_name : string) (s e : Z) (w : World)
  (status : Z) (kvs : list (string * pyval)) :
  remote (length (sent w)) (mkRequest API_URL instrument_name s e)
  = HttpResponse status (Some (PDict kvs)) ->
  has_key "result" (PDict kvs) = false ->
  has_key "error" (PDict kvs) = false ->
  fst (_get_funding_rate_history_chunk instrument_name s e w) = Return PNone.
Proof.
  intros Hresp Hres Herr. unfold _get_funding_rate_history_chunk. unfold_py.
  rewrite Hresp. destruct (is_error_status status); simpl; [reflexivity |].
  rewrite Hres. simpl. rewrite Herr. reflexivity.
Qed.

(** The same holds for any body on which both membership tests come out
    [False]: also a list without these elements, a string without these
    substrings. *)
Lemma unrecognized_body_gives_none
  (instrument_name : string) (s e : Z) (w : World) (status : Z) (j : pyval) :
  remote (length (sent w)) (mkRequest API_URL instrument_name s e)
  = HttpResponse status (Some j) ->
  py_contains "result" j = Return false ->
  py_contains "error" j = Return false ->
  fst (_get_funding_rate_history_chunk instrument_name s e w) = Return PNone.
Proof.
  intros Hresp Hres Herr. unfold _get_funding_rate_history_chunk. unfold_py.
  rewrite Hresp. destruct (is_error_status status); simpl; [reflexivity |].
  rewrite Hres. simpl. rewrite Herr. reflexivity.
Qed.

(** A body that is [null], a boolean or a number has no keys, and the
    membership test on it raises [TypeError], which the [except] clause for
    [RequestException] does not catch. *)
Lemma scalar_body_raises
  (instrument_name : string) (s e : Z) (w : World) (status : Z) (j : pyval) :
  remote (length (sent w)) (mkRequest API_URL instrument_name s e)
  = HttpResponse status (Some j) ->
  is_error_status status = false ->
  py_contains "result" j = Raise TypeError ->
  fst (_get_funding_rate_history_chunk instrument_name s e w) = Raise TypeError.
Proof.
  intros Hresp Hst Hres. unfold _get_funding_rate_history_chunk. unfold_py.
  rewrite Hresp, Hst. simpl. rewrite Hres. reflexivity.
Qed.

(** ** The orchestrator *)

(** C5.  In a run whose aggregated dataset is empty,
    [download_historical_data] returns normally, its last lines of output
    are the separator, the notice that no data was downloaded and the
    closing line, and the file system is as it was before the run; and
    [_save_data_to_csv], were it called with the empty dataset, would not
    change the file system either. *)
Theorem empty_dataset_writes_nothing
  (fuel : nat) (w w1 : World) (start_ts end_ts : Z) :
  local_midnight_ms START_DATE = inl start_ts ->
  local_midnight_ms END_DATE = inl end_ts ->
  _fetch_data_in_chunks fuel INSTRUMENT_NAME start_ts end_ts
    CHUNK_SIZE_DAYS SLEEP_INTERVAL_SECONDS (after banner w) = (Return [], w1) ->
  exists w2,
    download_historical_data fuel w = (Return tt, w2)
    /\ fs w2 = fs w
    /\ stdout w2 = stdout w1 ++ [dashes35;
                                 "No data was downloaded. Check parameters and API status.";
                                 "--- Download Process Finished ---"]
    /\ (forall file_path w', fs (after (_save_data_to_csv [] file_path) w') = fs w').
Proof.
  intros Hs He Hrun.
  pose proof (fetch_loop_fs INSTRUMENT_NAME end_ts (chunk_size_ms_of CHUNK_SIZE_DAYS)
                SLEEP_INTERVAL_SECONDS fuel start_ts [] (after banner w)) as Hfs.
  unfold _fetch_data_in_chunks in Hrun. cbv zeta in Hrun. cbv beta zeta in Hfs.
  rewrite Hrun in Hfs.
  cbn [snd] in Hfs.
  unfold download_historical_data, _date_to_timestamp_ms.
  unfold banner, after in Hrun, Hfs. unfold_py.
  rewrite Hs. simpl. rewrite He. simpl.
  unfold _fetch_data_in_chunks. cbv zeta. rewrite Hrun. simpl.
  eexists. split; [reflexivity |]. simpl.
  split; [exact Hfs |]. split; [| reflexivity].
  rewrite <- !app_assoc. reflexivity.
Qed.

(** ** More on the single-chunk fetcher *)

Lemma dict_get_has_key k kvs :
  py_contains k (PDict kvs)
  = Return (match dict_get k kvs with Some _ => true | None => false end).
Proof.
  unfold py_contains, dict_keys. f_equal.
  induction kvs as [| [k' v] kvs IH]; [reflexivity |].
  cbn [map fst existsb dict_get].
  destruct (String.eqb k k'); [reflexivity | exact IH].
Qed.

Ltac fetch_step :=
  unfold _get_funding_rate_history_chunk, bind, requests_get, lift, ret, print, after,
    with_request;
  cbv beta iota zeta.

(** A failed exchange (no connection, a 4xx or 5xx status whatever the body
    says, or a body that is not JSON) is caught: the fetcher returns [None],
    having issued its request and printed one line that carries the text
    of the exception. *)
Theorem failed_exchange_gives_none
  (instrument_name : string) (s e : Z) (w : World) :
  exchange_failed (remote (length (sent w)) (mkRequest API_URL instrument_name s e)) = true ->
  _get_funding_rate_history_chunk instrument_name s e w
  = (Return PNone,
     after (print ("  - Request failed: "
                   +:+ failure_text (remote (length (sent w))
                                       (mkRequest API_URL instrument_name s e))))
       (with_request w (mkRequest API_URL instrument_name s e))).
Proof.
  unfold exchange_failed. fetch_step.
  destruct (remote _ _) as [msg | status [j |] | status ex]; intros H.
  - reflexivity.
  - rewrite orb_false_r in H. rewrite H. reflexivity.
  - destruct (is_error_status status); reflexivity.
  - rewrite H. reflexivity.
Qed.

(** With a success status and a JSON object that has a ['result'] key, the
    fetcher returns the value under that key as it is, whatever its type
    and whether or not the object has an ['error'] key as well; it prints
    nothing. *)
Theorem result_is_returned_as_is
  (instrument_name : string) (s e : Z) (w : World)
  (status : Z) (kvs : list (string * pyval)) (v : pyval) :
  remote (length (sent w)) (mkRequest API_URL instrument_name s e)
  = HttpResponse status (Some (PDict kvs)) ->
  is_error_status status = false ->
  dict_get "result" kvs = Some v ->
  _get_funding_rate_history_chunk instrument_name s e w
  = (Return v, with_request w (mkRequest API_URL instrument_name s e)).
Proof.
  intros Hresp Hst Hres. fetch_step.
  rewrite Hresp, Hst, dict_get_has_key, Hres. cbv beta iota.
  unfold py_getitem. rewrite Hres. reflexivity.
Qed.

(** An API-level error (success status, an object without ['result'] whose
    ['error'] is an object with a ['message']) gives [None], and the message
    is printed. *)
Theorem api_error_is_reported
  (instrument_name : string) (s e : Z) (w : World)
  (status : Z) (kvs err : list (string * pyval)) (message : pyval) :
  remote (length (sent w)) (mkRequest API_URL instrument_name s e)
  = HttpResponse status (Some (PDict kvs)) ->
  is_error_status status = false ->
  dict_get "result" kvs = None ->
  dict_get "error" kvs = Some (PDict err) ->
  dict_get "message" err = Some message ->
  _get_funding_rate_history_chunk instrument_name s e w
  = (Return PNone,
     after (print ("  - API Error: " +:+ py_str message))
       (with_request w (mkRequest API_URL instrument_name s e))).
Proof.
  intros Hresp Hst Hres Herr Hmsg. fetch_step.
  rewrite Hresp, Hst, !dict_get_has_key, Hres, Herr. cbv beta iota.
  unfold py_getitem. rewrite Herr, Hmsg. reflexivity.
Qed.

(** An error payload the fetcher cannot read is not caught: when ['error']
    is an object without a ['message'] the lookup raises [KeyError], when
    it is not an object it raises [TypeError]; the exception leaves the
    fetcher, nothing is printed. *)
Theorem unreadable_error_raises
  (instrument_name : string) (s e : Z) (w : World)
  (status : Z) (kvs : list (string * pyval)) (err : pyval) :
  remote (length (sent w)) (mkRequest API_URL instrument_name s e)
  = HttpResponse status (Some (PDict kvs)) ->
  is_error_status status = false ->
  dict_get "result" kvs = None ->
  dict_get "error" kvs = Some err ->
  match err with PDict d => dict_get "message" d = None | _ => True end ->
  _get_funding_rate_history_chunk instrument_name s e w
  = (Raise (match err with PDict _ => KeyError | _ => TypeError end),
     with_request w (mkRequest API_URL instrument_name s e)).
Proof.
  intros Hresp Hst Hres Herr Hmsg. fetch_step.
  rewrite Hresp, Hst, !dict_get_has_key, Hres, Herr. cbv beta iota.
  unfold py_getitem. rewrite Herr.
  destruct err; try reflexivity. rewrite Hmsg. reflexivity.
Qed.

(** Whatever the exchange, the fetcher issues exactly one request, which
    carries the URL, the instrument and the two timestamps it was given;
    it prints at most one line, and leaves the sleep log and the file
    system alone; it ends by returning, by a [TypeError] or a [KeyError]
    of its own lookups, or by the exception [response.json()] raised when
    that is not a [RequestException]. *)
Theorem fetcher_effects (instrument_name : string) (s e : Z) (w : World) :
  let r := _get_funding_rate_history_chunk instrument_name s e w in
  sent (snd r) = sent w ++ [mkRequest API_URL instrument_name s e]
  /\ (stdout (snd r) = stdout w \/ exists line, stdout (snd r) = stdout w ++ [line])
  /\ slept (snd r) = slept w /\ fs (snd r) = fs w
  /\ ((exists v, fst r = Return v)
      \/ fst r = Raise TypeError
      \/ fst r = Raise KeyError
      \/ (exists status ex,
            remote (length (sent w)) (mkRequest API_URL instrument_name s e)
            = BodyFailure status ex
            /\ is_error_status status = false
            /\ fst r = Raise ex)).
Proof.
  cbv zeta. fetch_step.
  destruct (remote _ _) as [msg | status [j |] | status ex].
  1: solve [cbn; repeat split; eauto].
  all: destruct (is_error_status status) eqn:Hst.
  all: try solve [cbn; repeat split; eauto].
  2: solve [cbn; repeat split; eauto 10].
  destruct j as [| b | z | f | str | l | kvs].
  1-4: solve [cbn; repeat split; eauto].
  - unfold py_contains.
    destruct (is_substring "result" str); [solve [cbn; repeat split; eauto] |].
    destruct (is_substring "error" str); solve [cbn; repeat split; eauto].
  - unfold py_contains.
    destruct (existsb (str_elem "result") l); [solve [cbn; repeat split; eauto] |].
    destruct (existsb (str_elem "error") l); solve [cbn; repeat split; eauto].
  - rewrite !dict_get_has_key. unfold py_getitem.
    destruct (dict_get "result" kvs) as [v |]; [solve [cbn; repeat split; eauto] |].
    destruct (dict_get "error" kvs) as [err |]; [| solve [cbn; repeat split; eauto]].
    destruct err as [| b | z | f | str | l | d]; try solve [cbn; repeat split; eauto].
    destruct (dict_get "message" d); solve [cbn; repeat split; eauto].
Qed.

(** ** More on the chunked aggregator *)

Section Passes.

Variables (instrument_name : string) (end_ts chunk_ms : Z) (sleep : pyfloat).

(** What a pass does to the world, by the way it ends: a pass that
    returns has issued one request and slept once; a pass that raises has
    issued at most one request and not slept. *)
Lemma loop_body_effects cur all w o w' :
  loop_body instrument_name end_ts chunk_ms sleep cur all w = (o, w') ->
  match o with
  | Return _ =>
      sent w' = sent w ++ [mkRequest API_URL instrument_name cur
                             (Z.min (cur + chunk_ms) end_ts)]
      /\ slept w' = slept w ++ [sleep]
  | Raise _ =>
      (sent w' = sent w
       \/ sent w' = sent w ++ [mkRequest API_URL instrument_name cur
                                (Z.min (cur + chunk_ms) end_ts)])
      /\ slept w' = slept w
  | OutOfFuel => False
  end.
Proof.
  clear local_midnight_ms. intros Hr. unfold loop_body in Hr. cbv zeta in Hr.
  unfold bind at 1 in Hr.
  destruct (announce_frame cur (Z.min (cur + chunk_ms) end_ts) w)
    as (Hs0 & Hl0 & _ & _ & Hn0).
  unfold after in Hs0, Hl0.
  destruct (announce_chunk cur (Z.min (cur + chunk_ms) end_ts) w) as [[[] | ex |] w0];
    cbn [fst snd] in *.
  2:{ injection Hr as <- <-. auto. }
  2:{ congruence. }
  pose proof (chunk_fetch_frame instrument_name cur (Z.min (cur + chunk_ms) end_ts) w0)
    as Hframe.
  cbv zeta in Hframe. destruct Hframe as (Hsent & Hslept & _ & _ & Hnf).
  rewrite Hs0 in Hsent. rewrite Hl0 in Hslept.
  unfold bind at 1 in Hr.
  destruct (_get_funding_rate_history_chunk _ _ _ _) as [[v | e |] w1];
    cbn [fst snd] in *.
  2:{ injection Hr as <- <-. auto. }
  2:{ congruence. }
  pose proof (py_iter_no_fuel v). pose proof (py_len_no_fuel v).
  destruct (truthy v); unfold_py.
  - destruct (py_iter v); simpl in Hr; try congruence.
    2:{ injection Hr as <- <-. auto. }
    destruct (py_len v); simpl in Hr; try congruence.
    2:{ injection Hr as <- <-. auto. }
    destruct (sleep_refused sleep); injection Hr as <- <-; simpl;
      rewrite Hsent, Hslept; auto.
  - destruct (sleep_refused sleep); injection Hr as <- <-; simpl;
      rewrite Hsent, Hslept; auto.
Qed.

(** However the loop ends, the requests issued are those of the first [k]
    windows, in order, for some [k] within the fuel (and within
    [num_chunks] when the stride is positive); when the loop returns it
    has slept exactly [k] times. *)
Lemma fetch_loop_effects :
  forall fuel cur all w o w',
    fetch_loop fuel instrument_name end_ts chunk_ms sleep cur all w = (o, w') ->
    exists k,
      (k <= fuel)%nat
      /\ (0 < chunk_ms -> (k <= num_chunks cur end_ts chunk_ms)%nat)
      /\ sent w' = sent w ++ map (chunk_request instrument_name cur end_ts chunk_ms)
                                 (seq 0 k)
      /\ (forall data, o = Return data -> slept w' = slept w ++ repeat sleep k).
Proof.
  induction fuel as [| fuel IH]; intros cur all w o w' Hrun; simpl in Hrun;
    destruct (Z.ltb_spec cur end_ts) as [Hlt | Hge].
  1-2, 4: (injection Hrun as <- <-; exists O;
           simpl; rewrite !app_nil_r; repeat split; try lia; auto; discriminate).
  unfold bind in Hrun.
  destruct (loop_body instrument_name end_ts chunk_ms sleep cur all w)
    as [ob wb] eqn:Hb.
  pose proof (loop_body_effects _ _ _ _ _ Hb) as Heff.
  assert (Hstep : 0 < chunk_ms ->
                  (1 <= num_chunks cur end_ts chunk_ms)%nat
                  /\ num_chunks cur end_ts chunk_ms
                     = Datatypes.S (num_chunks (cur + chunk_ms) end_ts chunk_ms)).
  { intros HC. rewrite (num_chunks_step _ _ _ HC Hlt). split; [lia | reflexivity]. }
  destruct ob as [all' | ex |]; [| | contradiction].
  - destruct Heff as (Hsent & Hslept).
    destruct (IH _ _ _ _ _ Hrun) as (k & Hk & Hn & Hsent' & Hslept').
    exists (Datatypes.S k). repeat split.
    + lia.
    + intros HC. destruct (Hstep HC) as [_ ->]. specialize (Hn HC). lia.
    + rewrite Hsent', Hsent, <- app_assoc. simpl.
      rewrite <- seq_shift, map_map. unfold chunk_request at 2.
      rewrite window_0. cbn [fst snd]. do 2 f_equal.
      apply map_ext. intros i. unfold chunk_request. rewrite window_shift. reflexivity.
    + intros data Hd. rewrite (Hslept' data Hd), Hslept, <- app_assoc. reflexivity.
  - injection Hrun as <- <-. destruct Heff as (Hsent & Hslept).
    destruct Hsent as [Hsent | Hsent].
    + exists O. simpl. rewrite app_nil_r. repeat split; try lia; auto; discriminate.
    + exists 1%nat. simpl. unfold chunk_request. rewrite window_0. cbn [fst snd].
      repeat split; try lia; auto; try discriminate.
Qed.

(** A pass whose fetch returns a list prints the report line of the list
    and then is [time.sleep] followed by the accumulator with the list
    appended: an empty list leaves the accumulator as it was and is
    reported as a failure.  With an interval [time.sleep] accepts the pass
    returns. *)
Theorem pass_with_list cur all w l w1 :
  fst (announce_chunk cur (Z.min (cur + chunk_ms) end_ts) w) = Return tt ->
  _get_funding_rate_history_chunk instrument_name cur (Z.min (cur + chunk_ms) end_ts)
    (at_fetch end_ts chunk_ms cur w) = (Return (PList l), w1) ->
  loop_body instrument_name end_ts chunk_ms sleep cur all w
  = bind (time_sleep sleep) (fun _ => ret (all ++ l)) (after (print (report_line l)) w1)
  /\ (sleep_refused sleep = None ->
      loop_body instrument_name end_ts chunk_ms sleep cur all w
      = (Return (all ++ l), after (time_sleep sleep) (after (print (report_line l)) w1))).
Proof.
  intros Hann Hfetch. destruct (announce_returned _ _ _ Hann) as [Hr1 Hr2].
  assert (Hpass :
    loop_body instrument_name end_ts chunk_ms sleep cur all w
    = bind (time_sleep sleep) (fun _ => ret (all ++ l))
        (after (print (report_line l)) w1)).
  { unfold loop_body. cbv zeta. unfold bind at 1.
    rewrite (announce_returns _ _ w Hr1 Hr2). fold (at_fetch end_ts chunk_ms cur w).
    unfold bind at 1. rewrite Hfetch.
    destruct l as [| x l]; simpl.
    - unfold_py. rewrite app_nil_r. reflexivity.
    - unfold_py. reflexivity. }
  split; [exact Hpass |]. intros Hsleep. rewrite Hpass.
  unfold bind, time_sleep, ret, after. rewrite Hsleep. reflexivity.
Qed.

(** A pass whose fetch returns a true value that cannot be iterated (a
    non-zero number, [True]) raises the [TypeError] of [extend]: nothing
    more is printed and the pass does not sleep. *)
Theorem pass_with_scalar_raises cur all w v w1 :
  fst (announce_chunk cur (Z.min (cur + chunk_ms) end_ts) w) = Return tt ->
  _get_funding_rate_history_chunk instrument_name cur (Z.min (cur + chunk_ms) end_ts)
    (at_fetch end_ts chunk_ms cur w) = (Return v, w1) ->
  truthy v = true ->
  py_iter v = Raise TypeError ->
  loop_body instrument_name end_ts chunk_ms sleep cur all w = (Raise TypeError, w1).
Proof.
  intros Hann Hfetch Htrue Hiter. destruct (announce_returned _ _ _ Hann) as [Hr1 Hr2].
  unfold loop_body. cbv zeta. unfold bind at 1.
  rewrite (announce_returns _ _ w Hr1 Hr2). fold (at_fetch end_ts chunk_ms cur w).
  unfold bind at 1. rewrite Hfetch. rewrite Htrue.
  unfold bind, lift. rewrite Hiter. reflexivity.
Qed.

End Passes.

(** An empty range ([end <= start]) is no work at all: the function
    returns the empty list at once, whatever the chunk size and the fuel,
    and the world is as it was. *)
Theorem empty_range_is_noop
  (fuel : nat) (instrument_name : string) (S E chunk_size_days : Z) (sleep : pyfloat)
  (w : World) :
  E <= S ->
  _fetch_data_in_chunks fuel instrument_name S E chunk_size_days sleep w = (Return [], w).
Proof.
  intros HES. unfold _fetch_data_in_chunks. cbv zeta.
  destruct fuel; simpl; (destruct (Z.ltb_spec S E); [lia | reflexivity]).
Qed.

(** However [_fetch_data_in_chunks] ends (by returning, by an exception or
    by exhausting its fuel), the requests it has issued are those of the
    first [k] windows of the range, in order and without repetition, for
    some [k] that is at most the fuel and, with a chunk size of at least
    one day, at most [num_chunks]. *)
Theorem requests_form_a_window_prefix
  (fuel : nat) (instrument_name : string) (S E chunk_size_days : Z) (sleep : pyfloat)
  (w : World) :
  exists k,
    (k <= fuel)%nat
    /\ (1 <= chunk_size_days ->
        (k <= num_chunks S E (chunk_size_ms_of chunk_size_days))%nat)
    /\ sent (after (_fetch_data_in_chunks fuel instrument_name S E chunk_size_days sleep) w)
       = sent w ++ map (chunk_request instrument_name S E (chunk_size_ms_of chunk_size_days))
                       (seq 0 k).
Proof.
  unfold after, _fetch_data_in_chunks. cbv zeta.
  destruct (fetch_loop_effects instrument_name E (chunk_size_ms_of chunk_size_days) sleep
              fuel S [] w _ _ (surjective_pairing _))
    as (k & Hk & Hn & Hsent & _).
  exists k. split; [exact Hk |]. split; [| exact Hsent].
  intros Hdays. apply Hn, chunk_size_ms_pos, Hdays.
Qed.

(** Whenever [_fetch_data_in_chunks] returns, it has slept once per chunk
    fetched, each time for the configured interval: also after a chunk
    that failed and after the last chunk. *)
Theorem sleeps_once_per_chunk
  (fuel : nat) (instrument_name : string) (S E chunk_size_days : Z) (sleep : pyfloat)
  (w w' : World) (data : list pyval) :
  _fetch_data_in_chunks fuel instrument_name S E chunk_size_days sleep w = (Return data, w') ->
  exists k,
    length (sent w') = (length (sent w) + k)%nat
    /\ slept w' = slept w ++ repeat sleep k.
Proof.
  unfold _fetch_data_in_chunks. cbv zeta. intros Hrun.
  destruct (fetch_loop_effects instrument_name E (chunk_size_ms_of chunk_size_days) sleep
              fuel S [] w _ _ Hrun)
    as (k & _ & _ & Hsent & Hslept).
  exists k. split; [| exact (Hslept data eq_refl)].
  rewrite Hsent, length_app, length_map, length_seq. reflexivity.
Qed.

(** However [_fetch_data_in_chunks] ends (by returning, by an exception
    of a fetch or of [time.sleep], or with its fuel used up), and whatever
    the chunk size, the interval and the exchange, the file system is the
    one it started with: no file or directory is created, changed or
    removed while the chunks are fetched. *)
Theorem aggregator_keeps_files
  (fuel : nat) (instrument_name : string) (S E chunk_size_days : Z) (sleep : pyfloat)
  (w : World) :
  fs (after (_fetch_data_in_chunks fuel instrument_name S E chunk_size_days sleep) w) = fs w.
Proof.
  unfold after, _fetch_data_in_chunks. cbv zeta. apply fetch_loop_fs.
Qed.


Lemma lookup_map_seq {A} (f : nat -> A) (n : nat) :
  forall s i,
    map f (seq s n) !! i = if (i <? n)%nat then Some (f (s + i)%nat) else None.
Proof.
  induction n as [| n IH]; intros s i; [destruct i; reflexivity |].
  destruct i as [| i]; simpl.
  - now rewrite Nat.add_0_r.
  - rewrite (IH (Datatypes.S s) i).
    change (Datatypes.S i <? Datatypes.S n)%nat with (i <? n)%nat.
    destruct (i <? n)%nat; [| reflexivity].
    do 2 f_equal. lia.
Qed.

(** Whenever [_fetch_data_in_chunks] returns on a non-empty range with a
    chunk size of at least one day, the windows it has requested tile the
    range: the first starts at the start of the range, each one is
    non-empty and at most one chunk long, each next one starts where the
    previous ended, and the last one ends at the end of the range. *)
Theorem windows_tile_the_range
  (fuel : nat) (instrument_name : string) (S E chunk_size_days : Z) (sleep : pyfloat)
  (w w' : World) (data : list pyval) :
  S < E ->
  1 <= chunk_size_days ->
  _fetch_data_in_chunks fuel instrument_name S E chunk_size_days sleep w = (Return data, w') ->
  exists reqs,
    sent w' = sent w ++ reqs
    /\ (exists r, reqs !! O = Some r /\ req_start_timestamp r = S)
    /\ (exists r, reqs !! (length reqs - 1)%nat = Some r /\ req_end_timestamp r = E)
    /\ (forall i r,
          reqs !! i = Some r ->
          req_start_timestamp r < req_end_timestamp r
                                  <= req_start_timestamp r + chunk_size_ms_of chunk_size_days
          /\ (forall r', reqs !! Datatypes.S i = Some r' ->
                         req_start_timestamp r' = req_end_timestamp r)).
Proof.
  intros HSE Hdays Hrun.
  pose proof (chunk_size_ms_pos _ Hdays) as HC.
  unfold _fetch_data_in_chunks in Hrun. cbv zeta in Hrun.
  set (C := chunk_size_ms_of chunk_size_days) in *.
  pose proof (fetch_loop_requests instrument_name E C sleep HC fuel S [] w data w' Hrun)
    as Hsent.
  pose proof (ceil_div_spec (E - S) C HC) as Hceil.
  pose proof (ceil_div_pos (E - S) C HC ltac:(lia)) as Hpos.
  assert (Hn : Z.of_nat (num_chunks S E C) = ceil_div (E - S) C)
    by (unfold num_chunks; lia).
  set (n := num_chunks S E C) in *.
  exists (map (chunk_request instrument_name S E C) (seq 0 n)).
  split; [exact Hsent |].
  assert (Hlook : forall i, (i < n)%nat ->
            map (chunk_request instrument_name S E C) (seq 0 n) !! i
            = Some (chunk_request instrument_name S E C i)).
  { intros i Hi. rewrite lookup_map_seq.
    destruct (Nat.ltb_spec i n); [reflexivity | lia]. }
  assert (Hnone : forall i r,
            map (chunk_request instrument_name S E C) (seq 0 n) !! i = Some r ->
            (i < n)%nat /\ r = chunk_request instrument_name S E C i).
  { intros i r Hr. rewrite lookup_map_seq in Hr.
    destruct (Nat.ltb_spec i n); [| discriminate].
    injection Hr as <-. split; [assumption | reflexivity]. }
  split; [| split].
  - exists (chunk_request instrument_name S E C 0). split.
    + apply Hlook. lia.
    + simpl. lia.
  - rewrite length_map, length_seq.
    exists (chunk_request instrument_name S E C (n - 1)). split.
    + apply Hlook. lia.
    + unfold chunk_request, window. cbn [req_end_timestamp snd].
      replace (Z.of_nat (n - 1) + 1) with (Z.of_nat n) by lia. nia.
  - intros i r Hr. destruct (Hnone _ _ Hr) as [Hi ->].
    unfold chunk_request, window.
    cbn [req_start_timestamp req_end_timestamp fst snd].
    assert (S + Z.of_nat i * C < E) by nia.
    split; [lia |].
    intros r' Hr'. destruct (Hnone _ _ Hr') as [Hi' ->].
    unfold chunk_request, window.
    cbn [req_start_timestamp req_end_timestamp fst snd].
    assert (S + (Z.of_nat i + 1) * C < E) by nia.
    replace (Z.of_nat (Datatypes.S i)) with (Z.of_nat i + 1) by lia. lia.
Qed.


(** ** More on the orchestrator *)


(** An exception raised while the chunks are fetched ends the run with
    that exception: the records collected so far are not saved (the file
    system is as it was before the run), and neither the total nor the
    closing line is printed. *)
Theorem failed_fetch_aborts_run
  (fuel : nat) (w w1 : World) (start_ts end_ts : Z) (e : exn) :
  local_midnight_ms START_DATE = inl start_ts ->
  local_midnight_ms END_DATE = inl end_ts ->
  _fetch_data_in_chunks fuel INSTRUMENT_NAME start_ts end_ts
    CHUNK_SIZE_DAYS SLEEP_INTERVAL_SECONDS (after banner w) = (Raise e, w1) ->
  download_historical_data fuel w = (Raise e, w1)
  /\ fs w1 = fs w.
Proof.
  intros Hs He Hrun.
  pose proof (fetch_loop_fs INSTRUMENT_NAME end_ts (chunk_size_ms_of CHUNK_SIZE_DAYS)
                SLEEP_INTERVAL_SECONDS fuel start_ts [] (after banner w)) as Hfs.
  unfold _fetch_data_in_chunks in Hrun. cbv zeta in Hrun. cbv beta zeta in Hfs.
  rewrite Hrun in Hfs. cbn [snd] in Hfs.
  split; [| exact Hfs].
  unfold download_historical_data, _date_to_timestamp_ms.
  unfold banner, after in Hrun. unfold_py.
  rewrite Hs. simpl. rewrite He. simpl.
  unfold _fetch_data_in_chunks. cbv zeta. rewrite Hrun. reflexivity.
Qed.

End Program.

(** ** The file system *)

Lemma set_fs_same (w : World) : set_fs w (fs w) = w.
Proof. destruct w. reflexivity. Qed.

(** Writing into a file that exists does not change the shape. *)
Lemma same_shape_write f k rows :
  files f !! k <> None ->
  same_shape f (mkFS (dirs f) (<[ k := rows ]> (files f)) (cwd f)).
Proof.
  intros Hk. split; [reflexivity |]. split; [reflexivity |]. intros k'. simpl.
  destruct (decide (k = k')) as [<- | Hne].
  - rewrite lookup_insert_eq. split; [contradiction | discriminate].
  - rewrite lookup_insert_ne by exact Hne. tauto.
Qed.

Lemma node_at_same_shape f f' rnames :
  same_shape f f' -> node_at f rnames = node_at f' rnames.
Proof.
  intros (Hd & Hc & Hf). unfold node_at. rewrite Hd, Hc.
  destruct (bool_decide _); [reflexivity |].
  destruct (bool_decide _); [reflexivity |].
  specialize (Hf (key_of rnames)).
  destruct (files f !! key_of rnames), (files f' !! key_of rnames);
    try reflexivity.
  - destruct Hf as [_ Hf]. discriminate (Hf eq_refl).
  - destruct Hf as [Hf _]. discriminate (Hf eq_refl).
Qed.

Lemma walk_same_shape f f' :
  same_shape f f' ->
  forall pieces rnames k, walk f rnames k pieces = walk f' rnames k pieces.
Proof.
  intros Hs. induction pieces as [| c rest IH]; intros rnames k; [reflexivity |].
  simpl. destruct k; try reflexivity.
  unfold step. rewrite (node_at_same_shape f f' (c :: rnames) Hs).
  destruct (String.eqb c EmptyString || String.eqb c "."); [apply IH |].
  destruct (String.eqb c ".."); [apply IH |].
  destruct (node_at f' (c :: rnames)); try reflexivity; apply IH.
Qed.

Lemma file_key_same_shape f f' p :
  same_shape f f' -> file_key f p = file_key f' p.
Proof.
  intros Hs. unfold file_key, stat, start.
  destruct (String.eqb p EmptyString); [reflexivity |].
  rewrite (walk_same_shape f f' Hs). destruct Hs as (_ & -> & _). reflexivity.
Qed.

Lemma walk_app f pieces1 pieces2 :
  forall rnames k,
    walk f rnames k (pieces1 ++ pieces2)
    = match walk f rnames k pieces1 with
      | inl (rnames', k') => walk f rnames' k' pieces2
      | inr e => inr e
      end.
Proof.
  induction pieces1 as [| c rest IH]; intros rnames k; [reflexivity |].
  simpl. destruct k; try reflexivity.
  destruct (step f rnames c) as [[rnames' k'] | e]; [apply IH | reflexivity].
Qed.

(** Only a directory leads on. *)
Lemma walk_from_file f pieces rnames k rnames' :
  k <> Directory -> walk f rnames k pieces <> inl (rnames', Directory).
Proof.
  intros Hk. destruct pieces as [| c rest]; simpl.
  - intros H. injection H as _ H. contradiction.
  - destruct k; try discriminate. contradiction.
Qed.

(** The way to a directory stays the same when directories are added. *)
Lemma walk_to_directory_mono f f' :
  cwd f = cwd f' ->
  (forall k, k ∈ dirs f -> k ∈ dirs f') ->
  forall pieces rnames rnames',
    walk f rnames Directory pieces = inl (rnames', Directory) ->
    walk f' rnames Directory pieces = inl (rnames', Directory).
Proof.
  intros Hcwd Hsub. induction pieces as [| c rest IH]; intros rnames rnames' H;
    [exact H |].
  simpl in *. unfold step in *.
  destruct (String.eqb c EmptyString || String.eqb c "."); [apply IH, H |].
  destruct (String.eqb c ".."); [apply IH, H |].
  destruct (node_at f (c :: rnames)) eqn:Hn; try discriminate.
  - exfalso. apply (walk_from_file f rest (c :: rnames) RegularFile rnames');
      [discriminate | exact H].
  - assert (Hn' : node_at f' (c :: rnames) = Directory).
    { unfold node_at in *. rewrite <- Hcwd.
      destruct (bool_decide (_ `suffix_of` _)); [reflexivity |].
      destruct (bool_decide (key_of (c :: rnames) ∈ dirs f)) eqn:Hb.
      - apply bool_decide_eq_true in Hb. apply Hsub in Hb.
        now rewrite (bool_decide_eq_true_2 _ Hb).
      - destruct (files f !! key_of (c :: rnames)); discriminate. }
    rewrite Hn'. apply IH, H.
Qed.

(** [os.mkdir] and [os.makedirs] touch no file and remove no directory,
    however they end. *)
Lemma mkdir_frame p f :
  files (snd (mkdir p f)) = files f
  /\ cwd (snd (mkdir p f)) = cwd f
  /\ (forall k, k ∈ dirs f -> k ∈ dirs (snd (mkdir p f))).
Proof.
  unfold mkdir. destruct (String.eqb p EmptyString); [auto |].
  destruct (drop_while _ _) as [| c rinit]; [auto |].
  destruct (walk _ _ _ _) as [[rnames []] | e]; auto.
  destruct (String.eqb c "." || String.eqb c ".."); [auto |].
  destruct (node_at _ _); auto. simpl. split; [reflexivity |]. split; [reflexivity |].
  intros k Hk. apply elem_of_union_r, Hk.
Qed.

Lemma makedirs_frame depth :
  forall name f,
    files (snd (makedirs depth name f)) = files f
    /\ cwd (snd (makedirs depth name f)) = cwd f
    /\ (forall k, k ∈ dirs f -> k ∈ dirs (snd (makedirs depth name f))).
Proof.
  induction depth as [| depth IH]; intros name f; simpl.
  - destruct (_ && _); [auto | apply mkdir_frame].
  - destruct (_ && _); [| apply mkdir_frame].
    set (head := if String.eqb (os_path_basename name) EmptyString
                 then os_path_dirname (os_path_dirname name) else os_path_dirname name).
    destruct (IH head f) as (Hf & Hc & Hd).
    assert (Hleaf : files (snd (mkdir name (snd (makedirs depth head f)))) = files f
                    /\ cwd (snd (mkdir name (snd (makedirs depth head f)))) = cwd f
                    /\ (forall k, k ∈ dirs f ->
                                  k ∈ dirs (snd (mkdir name (snd (makedirs depth head f)))))).
    { destruct (mkdir_frame name (snd (makedirs depth head f))) as (Hf' & Hc' & Hd').
      split; [congruence | split; [congruence | auto]]. }
    destruct (fst (makedirs depth head f)) as [e |].
    + destruct (is_FileExistsError e); [| auto].
      destruct (String.eqb _ "."); auto.
    + destruct (String.eqb _ "."); auto.
Qed.

Lemma makedirs_empty depth f : makedirs depth EmptyString f = (Some FileNotFoundError, f).
Proof. destruct depth; reflexivity. Qed.

Lemma ensure_directory_frame p f :
  files (snd (ensure_directory p f)) = files f
  /\ cwd (snd (ensure_directory p f)) = cwd f
  /\ (forall k, k ∈ dirs f -> k ∈ dirs (snd (ensure_directory p f))).
Proof.
  unfold ensure_directory. cbv zeta.
  destruct (os_path_exists f (os_path_dirname p)); [auto | apply makedirs_frame].
Qed.

(** A successful [open]: the directories are as they were, the file is
    there and empty, and the path leads to it. *)
Lemma open_write_spec p f h f' :
  open_write p f = (inl h, f') ->
  dirs f' = dirs f
  /\ cwd f' = cwd f
  /\ files f' = <[ h := [] ]> (files f)
  /\ file_key f' p = Some h.
Proof.
  unfold open_write. destruct (String.eqb p EmptyString) eqn:Hp; [discriminate |].
  cbv zeta.
  assert (Hpieces : components p = rev (rev (components p))) by (now rewrite rev_involutive).
  destruct (rev (components p)) as [| c0 rest] eqn:Hrev; [discriminate |].
  cbn [drop_while]. destruct (is_empty_piece c0) eqn:Hc0.
  { destruct (drop_while is_empty_piece rest) as [| c rinit]; [discriminate |].
    destruct (walk _ _ _ _) as [[rnames []] | e]; try discriminate.
    destruct (String.eqb c "." || String.eqb c ".."); [discriminate |].
    destruct (node_at _ _); discriminate. }
  destruct (walk f (start f p) Directory (rev rest))
    as [[rnames []] | e] eqn:Hwalk; try discriminate.
  destruct (String.eqb c0 "." || String.eqb c0 "..") eqn:Hdots; [discriminate |].
  set (k := key_of (c0 :: rnames)).
  assert (Hopen : node_at f (c0 :: rnames) <> Directory ->
            (@inl string exn k, mkFS (dirs f) (<[ k := [] ]> (files f)) (cwd f))
            = (inl h, f') ->
            dirs f' = dirs f /\ cwd f' = cwd f /\ files f' = <[ h := [] ]> (files f)
            /\ file_key f' p = Some h).
  { intros Hnode H. injection H as <- <-. simpl. split; [reflexivity |].
    split; [reflexivity |]. split; [reflexivity |].
    unfold file_key, stat. rewrite Hp, Hpieces. cbn [rev]. rewrite walk_app.
    change (start (mkFS (dirs f) (<[ k := [] ]> (files f)) (cwd f)) p) with (start f p).
    rewrite (walk_to_directory_mono f (mkFS (dirs f) (<[ k := [] ]> (files f)) (cwd f))
               eq_refl (fun _ H => H) _ _ _ Hwalk).
    cbn [walk]. unfold step. unfold is_empty_piece in Hc0.
    apply orb_false_elim in Hdots as [Hdot Hdotdot].
    rewrite Hc0, Hdot, Hdotdot. cbn [orb].
    unfold node_at in *. cbn [dirs files cwd]. fold k in Hnode |- *.
    destruct (bool_decide (_ `suffix_of` _)); [contradiction |].
    destruct (bool_decide (k ∈ dirs f)); [contradiction |].
    rewrite lookup_insert_eq. reflexivity. }
  destruct (node_at f (c0 :: rnames)) eqn:Hn;
    [| | discriminate]; apply Hopen; discriminate.
Qed.


(** ** The CSV writer *)

Lemma dict_get_some k kvs : In k (dict_keys kvs) -> exists v, dict_get k kvs = Some v.
Proof.
  induction kvs as [| [k' v] kvs IH]; simpl; [tauto |].
  intros [-> | Hin].
  - rewrite String.eqb_refl. eauto.
  - destruct (String.eqb k k'); eauto.
Qed.

Lemma dict_get_in k kvs v : dict_get k kvs = Some v -> exists k', In (k', v) kvs.
Proof.
  induction kvs as [| [k' v'] kvs IH]; simpl; [discriminate |].
  destruct (String.eqb k k').
  - intros H. injection H as ->. eauto.
  - intros H. destruct (IH H) as [k'' Hin]. eauto.
Qed.

Lemma dict_to_list_ok fieldnames kvs :
  (forall k, In k (dict_keys kvs) -> In k fieldnames) ->
  _dict_to_list fieldnames (PDict kvs) = Return (row_of fieldnames kvs).
Proof.
  intros Hsub. unfold _dict_to_list.
  replace (forallb _ (dict_keys kvs)) with true; [reflexivity |].
  symmetry. apply forallb_forall. intros k Hk.
  apply existsb_exists. exists k. split; [apply Hsub, Hk | apply String.eqb_refl].
Qed.

(** A header is text already. *)
Lemma header_accepted (fieldnames : list string) : row_refused (map PStr fieldnames) = None.
Proof.
  unfold row_refused. induction fieldnames as [| k l IH]; [reflexivity |].
  cbn [map fold_right]. rewrite IH. unfold repr_depth. reflexivity.
Qed.

(** The cells of a printable record are accepted. *)
Lemma printable_accepted (fieldnames : list string) (r : list (string * pyval)) :
  printable r = true -> row_refused (row_of fieldnames r) = None.
Proof.
  intros Hr. unfold row_refused, row_of.
  induction fieldnames as [| k l IH]; [reflexivity |].
  cbn [map fold_right]. rewrite IH.
  destruct (dict_get k r) as [v |] eqn:Hget; cbn [default].
  - destruct (dict_get_in _ _ _ Hget) as [k' Hin].
    unfold printable in Hr. rewrite forallb_forall in Hr. specialize (Hr _ Hin).
    cbn [snd] in Hr. unfold id.
    destruct (str_refused repr_depth v); [discriminate | reflexivity].
  - unfold repr_depth. reflexivity.
Qed.

Lemma bind_assoc {A B C} (m : Py A) (f : A -> Py B) (g : B -> Py C) (w : World) :
  bind (bind m f) g w = bind m (fun x => bind (f x) g) w.
Proof. unfold bind. destruct (m w) as [[a | e |] w0]; reflexivity. Qed.

Lemma bind_returns {A B} (m : Py A) (k : A -> Py B) (w w' : World) (a : A) :
  m w = (Return a, w') -> bind m k w = k a w'.
Proof. unfold bind. intros ->. reflexivity. Qed.

Lemma bind_raises {A B} (m : Py A) (k : A -> Py B) (w w' : World) (e : exn) :
  m w = (Raise e, w') -> bind m k w = (Raise e, w').
Proof. unfold bind. intros ->. reflexivity. Qed.

Lemma bind_print {B} (line : string) (k : unit -> Py B) (w : World) :
  bind (print line) k w = k tt (after (print line) w).
Proof. reflexivity. Qed.

Lemma lookup_map {A B} (f : A -> B) (l : list A) :
  forall i, map f l !! i = option_map f (l !! i).
Proof. induction l as [| x l IH]; intros [| i]; simpl; auto. Qed.

Lemma holding_twice (w : World) (handle : string) (rows rows' : list csv_row) :
  holding (holding w handle rows) handle rows' = holding w handle rows'.
Proof. unfold holding, set_fs. simpl. rewrite insert_insert_eq. reflexivity. Qed.

Lemma holding_same (w : World) (handle : string) (rows : list csv_row) :
  files (fs w) !! handle = Some rows -> holding w handle rows = w.
Proof.
  intros H. unfold holding. rewrite insert_id by exact H.
  destruct w as [? ? ? ? []]. reflexivity.
Qed.

Lemma holding_lookup (w : World) (handle : string) (rows : list csv_row) :
  files (fs (holding w handle rows)) !! handle = Some rows.
Proof. unfold holding. simpl. apply lookup_insert_eq. Qed.

(** One row written to an open file. *)
Lemma write_row_accepted (w : World) (handle : string) (old : list csv_row) (row : csv_row) :
  files (fs w) !! handle = Some old ->
  row_refused row = None ->
  write_row handle row w = (Return tt, holding w handle (old ++ [row])).
Proof. intros Hold Hrow. unfold write_row. rewrite Hrow, Hold. reflexivity. Qed.

Lemma write_row_returned (w w' : World) (handle : string) (old : list csv_row)
  (row : csv_row) :
  files (fs w) !! handle = Some old ->
  write_row handle row w = (Return tt, w') ->
  w' = holding w handle (old ++ [row]).
Proof.
  intros Hold. unfold write_row. destruct (row_refused row); [discriminate |].
  rewrite Hold. intros H. injection H as <-. reflexivity.
Qed.

(** What [writerows] has done when it returns: every record was a row
    under the header, and the rows were appended in order. *)
Lemma writerows_returned handle fieldnames rows :
  forall w w' old,
    files (fs w) !! handle = Some old ->
    writerows handle fieldnames (map PDict rows) w = (Return tt, w') ->
    w' = holding w handle (old ++ map (row_of fieldnames) rows).
Proof.
  induction rows as [| r rows IH]; intros w w' old Hold Hrun.
  - simpl in Hrun. unfold ret in Hrun. injection Hrun as <-.
    rewrite app_nil_r. symmetry. apply holding_same, Hold.
  - cbn [map writerows] in Hrun. unfold bind at 1, lift in Hrun.
    unfold _dict_to_list in Hrun.
    destruct (forallb _ (dict_keys r)); [| discriminate].
    unfold bind at 1 in Hrun.
    match type of Hrun with
    | context [write_row ?h ?row ?w0] =>
        destruct (write_row h row w0) as [[[] | |] w1] eqn:Hrow; try discriminate
    end.
    apply (write_row_returned _ _ _ old) in Hrow; [| exact Hold]. subst w1.
    apply (IH _ _ (old ++ [row_of fieldnames r])) in Hrun; [| apply holding_lookup].
    rewrite Hrun, holding_twice, <- app_assoc. reflexivity.
Qed.

(** Printable rows whose keys all occur in the header are written one by
    one. *)
Lemma writerows_ok handle fieldnames rows :
  (forall r, In r rows -> forall k, In k (dict_keys r) -> In k fieldnames) ->
  (forall r, In r rows -> printable r = true) ->
  forall w old,
    files (fs w) !! handle = Some old ->
    writerows handle fieldnames (map PDict rows) w
    = (Return tt, holding w handle (old ++ map (row_of fieldnames) rows)).
Proof.
  induction rows as [| r rows IH]; intros Hsub Hpr w old Hold.
  - simpl. unfold ret. rewrite app_nil_r, holding_same by exact Hold. reflexivity.
  - cbn [map writerows]. unfold bind at 1, lift.
    rewrite dict_to_list_ok by (apply Hsub; left; reflexivity).
    rewrite (bind_returns _ _ _ _ _
               (write_row_accepted w handle old (row_of fieldnames r) Hold
                  (printable_accepted fieldnames r (Hpr r (or_introl eq_refl))))).
    rewrite (IH (fun r' Hr' => Hsub r' (or_intror Hr'))
               (fun r' Hr' => Hpr r' (or_intror Hr')) _ (old ++ [row_of fieldnames r]))
      by apply holding_lookup.
    rewrite holding_twice, <- app_assoc. reflexivity.
Qed.

(** Records before one that has a key outside the header are written;
    the offending record raises [ValueError] and ends the writing. *)
Lemma writerows_stops handle fieldnames good bad tail :
  (forall r, In r good -> forall k, In k (dict_keys r) -> In k fieldnames) ->
  (forall r, In r good -> printable r = true) ->
  (exists k, In k (dict_keys bad) /\ ~ In k fieldnames) ->
  forall w old,
    files (fs w) !! handle = Some old ->
    writerows handle fieldnames (map PDict good ++ PDict bad :: tail) w
    = (Raise ValueError, holding w handle (old ++ map (row_of fieldnames) good)).
Proof.
  intros Hsub Hpr (k & Hk & Hnot).
  induction good as [| r good IH]; intros w old Hold.
  - cbn [map app writerows]. unfold bind at 1, lift, _dict_to_list.
    replace (forallb _ (dict_keys bad)) with false.
    + rewrite app_nil_r, holding_same by exact Hold. reflexivity.
    + symmetry. apply not_true_is_false. intros Hall.
      rewrite forallb_forall in Hall. specialize (Hall k Hk).
      apply existsb_exists in Hall as (k' & Hin & Heq).
      apply String.eqb_eq in Heq. subst k'. contradiction.
  - cbn [map app writerows]. unfold bind at 1, lift.
    rewrite dict_to_list_ok by (apply Hsub; left; reflexivity).
    rewrite (bind_returns _ _ _ _ _
               (write_row_accepted w handle old (row_of fieldnames r) Hold
                  (printable_accepted fieldnames r (Hpr r (or_introl eq_refl))))).
    rewrite (IH (fun r' Hr' => Hsub r' (or_intror Hr'))
               (fun r' Hr' => Hpr r' (or_intror Hr')) _ (old ++ [row_of fieldnames r]))
      by apply holding_lookup.
    rewrite holding_twice, <- app_assoc. reflexivity.
Qed.

Lemma save_unfold (first : pyval) (rest : list pyval) (file_path : string) (w : World) :
  _save_data_to_csv (first :: rest) file_path w
  = bind (open_for_writing file_path)
      (fun csvfile =>
         bind (lift (py_keys first))
           (fun headers =>
              bind (writeheader csvfile headers)
                (fun _ => bind (writerows csvfile headers (first :: rest))
                            (fun _ => print ("Successfully saved data to: "
                                             +:+ file_path)))))
      w.
Proof. unfold open_for_writing. cbv zeta. rewrite bind_assoc. reflexivity. Qed.

(** The directory step and the [open] as one step on the file system. *)
Lemma open_for_writing_fs (file_path : string) (w : World) :
  open_for_writing file_path w
  = match fst (ensure_directory file_path (fs w)) with
    | Some e => (Raise e, set_fs w (snd (ensure_directory file_path (fs w))))
    | None =>
        (of_sum (fst (open_write file_path (snd (ensure_directory file_path (fs w))))),
         set_fs w (snd (open_write file_path (snd (ensure_directory file_path (fs w))))))
    end.
Proof.
  unfold open_for_writing, ensure_directory. cbv zeta. unfold bind at 1.
  destruct (os_path_exists (fs w) (os_path_dirname file_path)).
  - reflexivity.
  - unfold os_makedirs.
    destruct (fst (makedirs makedirs_depth (os_path_dirname file_path) (fs w)));
      reflexivity.
Qed.

(** When the directory step and the [open] return, the file is there and
    empty, the path leads to it, no other file has changed and no
    directory has gone. *)
Lemma open_for_writing_returns (file_path : string) (w w1 : World) (handle : string) :
  open_for_writing file_path w = (Return handle, w1) ->
  files (fs w1) = <[ handle := [] ]> (files (fs w))
  /\ (forall k, k ∈ dirs (fs w) -> k ∈ dirs (fs w1))
  /\ cwd (fs w1) = cwd (fs w)
  /\ file_key (fs w1) file_path = Some handle
  /\ sent w1 = sent w /\ stdout w1 = stdout w /\ slept w1 = slept w /\ clock w1 = clock w.
Proof.
  rewrite open_for_writing_fs.
  destruct (ensure_directory_frame file_path (fs w)) as (Hfiles & Hcwd & Hdirs).
  destruct (fst (ensure_directory file_path (fs w))); [discriminate |].
  destruct (open_write file_path (snd (ensure_directory file_path (fs w))))
    as [[h | e] f'] eqn:Hopen; [| discriminate].
  cbn [fst snd of_sum]. intros H. injection H as <- <-.
  destruct (open_write_spec _ _ _ _ Hopen) as (Hd & Hc & Hf & Hkey).
  cbn [set_fs fs sent stdout slept clock].
  rewrite Hf, Hfiles, Hd, Hc, Hcwd. auto 10.
Qed.

Lemma can_create_opens (file_path : string) (w : World) :
  can_create (fs w) file_path = true ->
  exists handle w1, open_for_writing file_path w = (Return handle, w1).
Proof.
  unfold can_create. rewrite open_for_writing_fs. intros H.
  apply andb_prop in H as [_ H].
  destruct (fst (ensure_directory file_path (fs w))); [discriminate |].
  destruct (fst (open_write file_path _)) eqn:Hopen; [| discriminate].
  cbn [of_sum]. eauto.
Qed.

(** The world after a save that wrote [rows] through [handle]. *)
Lemma saved_world (w1 : World) (handle : string) (rows : list csv_row) (line : string) :
  files (fs (after (print line) (holding w1 handle rows))) !! handle = Some rows
  /\ files (fs (after (print line) (holding w1 handle rows)))
     = <[ handle := rows ]> (files (fs w1))
  /\ dirs (fs (after (print line) (holding w1 handle rows))) = dirs (fs w1)
  /\ stdout (after (print line) (holding w1 handle rows)) = stdout w1 ++ [line]
  /\ sent (after (print line) (holding w1 handle rows)) = sent w1
  /\ slept (after (print line) (holding w1 handle rows)) = slept w1.
Proof.
  unfold after, print, holding, set_fs. simpl. rewrite lookup_insert_eq. auto 10.
Qed.

(** Once the file is open: what a save that returns has written, and that
    a save of printable records whose keys are in the header returns. *)
Lemma save_returned
  (first : list (string * pyval)) (rest : list (list (string * pyval)))
  (file_path : string) (w w' : World) :
  _save_data_to_csv (map PDict (first :: rest)) file_path w = (Return tt, w') ->
  exists handle w1,
    open_for_writing file_path w = (Return handle, w1)
    /\ w' = after (print ("Successfully saved data to: " +:+ file_path))
              (holding w1 handle
                 (map PStr (dict_keys first)
                  :: map (row_of (dict_keys first)) (first :: rest))).
Proof.
  intros Hrun. cbn [map] in Hrun. rewrite save_unfold in Hrun. unfold bind at 1 in Hrun.
  destruct (open_for_writing file_path w) as [[handle | |] w1] eqn:Hopen;
    try discriminate.
  exists handle, w1. split; [reflexivity |].
  destruct (open_for_writing_returns _ _ _ _ Hopen) as (Hfiles & _).
  assert (Hempty : files (fs w1) !! handle = Some [])
    by (rewrite Hfiles; apply lookup_insert_eq).
  unfold bind at 1, lift in Hrun. cbn [py_keys] in Hrun.
  unfold writeheader in Hrun.
  rewrite (bind_returns _ _ _ _ _
             (write_row_accepted w1 handle [] _ Hempty (header_accepted (dict_keys first))))
    in Hrun.
  unfold bind at 1 in Hrun.
  match type of Hrun with
  | context [writerows ?h ?hd ?l ?w0] =>
      destruct (writerows h hd l w0) as [[[] | |] w2] eqn:Hrows; try discriminate
  end.
  change (PDict first :: map PDict rest) with (map PDict (first :: rest)) in Hrows.
  apply (writerows_returned _ _ _ _ _ [map PStr (dict_keys first)]) in Hrows;
    [| apply holding_lookup].
  unfold print in Hrun. injection Hrun as <-. subst w2.
  rewrite holding_twice. reflexivity.
Qed.

Lemma save_total
  (first : list (string * pyval)) (rest : list (list (string * pyval)))
  (file_path : string) (w w1 : World) (handle : string) :
  (forall r, In r rest -> forall k, In k (dict_keys r) -> In k (dict_keys first)) ->
  (forall r, In r (first :: rest) -> printable r = true) ->
  open_for_writing file_path w = (Return handle, w1) ->
  _save_data_to_csv (map PDict (first :: rest)) file_path w
  = (Return tt,
     after (print ("Successfully saved data to: " +:+ file_path))
       (holding w1 handle
          (map PStr (dict_keys first) :: map (row_of (dict_keys first)) (first :: rest)))).
Proof.
  intros Hsub Hpr Hopen.
  assert (Hsub' : forall r, In r (first :: rest) ->
                  forall k, In k (dict_keys r) -> In k (dict_keys first)).
  { intros r [<- | Hr] k Hk; [exact Hk | apply (Hsub r Hr), Hk]. }
  destruct (open_for_writing_returns _ _ _ _ Hopen) as (Hfiles & _).
  assert (Hempty : files (fs w1) !! handle = Some [])
    by (rewrite Hfiles; apply lookup_insert_eq).
  cbn [map]. rewrite save_unfold. rewrite (bind_returns _ _ _ _ _ Hopen).
  unfold bind at 1, lift. cbn [py_keys]. unfold writeheader.
  rewrite (bind_returns _ _ _ _ _
             (write_row_accepted w1 handle [] _ Hempty (header_accepted (dict_keys first)))).
  change (PDict first :: map PDict rest) with (map PDict (first :: rest)).
  rewrite (bind_returns _ _ _ _ _
             (writerows_ok handle (dict_keys first) (first :: rest) Hsub' Hpr _
                [map PStr (dict_keys first)] (holding_lookup _ _ _))).
  rewrite holding_twice. reflexivity.
Qed.

(** A power of ten has at least three bits for each digit. *)
Lemma power_of_ten_bits (n : Z) :
  0 <= n -> (Z.log2 (Z.abs (10 ^ n)) <? 3 * n) = false /\ (10 ^ n <=? Z.abs (10 ^ n)) = true.
Proof.
  intros Hn.
  assert (Hpos : 0 < 10 ^ n) by (apply Z.pow_pos_nonneg; [reflexivity | exact Hn]).
  rewrite (Z.abs_eq (10 ^ n)) by apply Z.lt_le_incl, Hpos.
  split; [| apply Z.leb_refl].
  apply Z.ltb_ge. apply Z.log2_le_pow2; [exact Hpos |].
  rewrite Z.pow_mul_r by (try exact Hn; discriminate).
  apply Z.pow_le_mono_l. split; [discriminate | apply Z.leb_le; reflexivity].
Qed.

(** An [int] of 4301 digits is refused. *)
Lemma huge_int_refused : int_str_refused huge_int = true.
Proof.
  unfold int_str_refused, huge_int.
  destruct (power_of_ten_bits int_max_str_digits ltac:(discriminate)) as [-> ->].
  reflexivity.
Qed.

(** The rows of the file once the save has written them. *)
Lemma read_back (w1 : World) (file_path handle : string) (rows : list csv_row) :
  file_key (fs w1) file_path = Some handle ->
  files (fs w1) !! handle <> None ->
  read_file (fs (holding w1 handle rows)) file_path = Some rows.
Proof.
  intros Hkey Hsome. unfold read_file, holding. cbn [set_fs fs].
  rewrite <- (file_key_same_shape (fs w1) _ file_path
                (same_shape_write (fs w1) handle rows Hsome)).
  rewrite Hkey. simpl. apply lookup_insert_eq.
Qed.

(** A first record with a cell that [str] refuses: the header is written,
    the exception of the cell leaves the function, and the file stays at
    its header. *)
Lemma refused_first_record_leaves_header
  (first : list (string * pyval)) (rest : list pyval) (file_path : string)
  (w : World) (e : exn) :
  row_refused (row_of (dict_keys first) first) = Some e ->
  can_create (fs w) file_path = true ->
  exists w',
    _save_data_to_csv (PDict first :: rest) file_path w = (Raise e, w')
    /\ read_file (fs w') file_path = Some [map PStr (dict_keys first)]
    /\ stdout w' = stdout w.
Proof.
  intros Hcell Hcan. destruct (can_create_opens _ _ Hcan) as (handle & w1 & Hopen).
  destruct (open_for_writing_returns _ _ _ _ Hopen)
    as (Hfiles & _ & _ & Hkey & _ & Hout & _).
  assert (Hempty : files (fs w1) !! handle = Some [])
    by (rewrite Hfiles; apply lookup_insert_eq).
  exists (holding w1 handle [map PStr (dict_keys first)]). split; [| split].
  - rewrite save_unfold. rewrite (bind_returns _ _ _ _ _ Hopen).
    unfold bind at 1, lift. cbn [py_keys]. unfold writeheader.
    rewrite (bind_returns _ _ _ _ _
               (write_row_accepted w1 handle [] _ Hempty
                  (header_accepted (dict_keys first)))).
    cbn [writerows app]. unfold bind at 1.
    unfold bind at 1, lift. rewrite dict_to_list_ok by auto.
    unfold write_row. rewrite Hcell. reflexivity.
  - apply read_back; [exact Hkey | rewrite Hempty; discriminate].
  - unfold holding. simpl. exact Hout.
Qed.

(** C3, as amended.  For a non-empty list of records in which every record
    has the field set of the first: whenever [_save_data_to_csv] returns,
    the file at the path holds the header row, which is the keys of the
    first record in their order, followed by one row per record in input
    order, each row made of the record's own values in header order,
    (number of records + 1) rows in all; and it does return when the file
    system lets the file be created, that is, when the directory step and
    the [open] succeed, and [str] accepts every value of the records. *)
Theorem csv_header_then_rows
  (first : list (string * pyval)) (rest : list (list (string * pyval)))
  (file_path : string) (w : World) :
  (forall r, In r rest -> same_fields first r) ->
  let rows := map PStr (dict_keys first) :: map (row_of (dict_keys first)) (first :: rest) in
  (forall w',
      _save_data_to_csv (map PDict (first :: rest)) file_path w = (Return tt, w') ->
      read_file (fs w') file_path = Some rows)
  /\ (can_create (fs w) file_path = true ->
      (forall r, In r (first :: rest) -> printable r = true) ->
      exists w',
        _save_data_to_csv (map PDict (first :: rest)) file_path w = (Return tt, w'))
  /\ length rows = Datatypes.S (length (first :: rest))
  /\ (forall r k, In r (first :: rest) -> In k (dict_keys first) ->
                  exists v, dict_get k r = Some v).
Proof.
  intros Hsame rows. split; [| split; [| split]].
  - intros w' Hrun.
    destruct (save_returned first rest file_path w w' Hrun) as (handle & w1 & Hopen & ->).
    destruct (open_for_writing_returns _ _ _ _ Hopen) as (Hfiles & _ & _ & Hkey & _).
    unfold after, print. cbn [snd fs].
    apply read_back; [exact Hkey |]. rewrite Hfiles, lookup_insert_eq. discriminate.
  - intros Hcan Hpr. destruct (can_create_opens _ _ Hcan) as (handle & w1 & Hopen).
    eexists. apply (save_total first rest file_path w w1 handle); [| exact Hpr | exact Hopen].
    intros r Hr k Hk. apply (Hsame r Hr), Hk.
  - subst rows. simpl. rewrite length_map. reflexivity.
  - intros r k Hr Hk. apply dict_get_some.
    destruct Hr as [<- | Hr]; [exact Hk | apply (Hsame r Hr), Hk].
Qed.

(** A bare file name has no directory part, and [os.makedirs('')] refuses
    it: nothing is written. *)
Lemma bare_file_name_raises (first : pyval) (rest : list pyval) (file_path : string)
  (w : World) :
  os_path_dirname file_path = EmptyString ->
  _save_data_to_csv (first :: rest) file_path w = (Raise FileNotFoundError, w).
Proof.
  intros Hd. rewrite save_unfold. unfold bind at 1. rewrite open_for_writing_fs.
  unfold ensure_directory. cbv zeta. rewrite Hd.
  change (os_path_exists (fs w) EmptyString) with false. cbv iota.
  rewrite makedirs_empty. cbn [fst snd]. rewrite set_fs_same. reflexivity.
Qed.

(** C10.  Called with an empty list, [_save_data_to_csv] only prints its
    notice: the file system is the one it found, so the output file is
    neither created nor truncated, and the parent directory is not created
    when it is absent. *)
Theorem empty_save_leaves_fs (file_path : string) (w : World) :
  _save_data_to_csv [] file_path w = (Return tt, after (print "No data to save.") w)
  /\ fs (after (_save_data_to_csv [] file_path) w) = fs w
  /\ files (fs (after (_save_data_to_csv [] file_path) w)) !! file_path
     = files (fs w) !! file_path
  /\ os_path_exists (fs (after (_save_data_to_csv [] file_path) w))
       (os_path_dirname file_path)
     = os_path_exists (fs w) (os_path_dirname file_path).
Proof. repeat split. Qed.

(** ** More on the CSV writer *)

(** Whenever [_save_data_to_csv] returns for a list of dict records, the
    file the path leads to holds the header and the rows, whatever it
    held before; every other file is as it was, no directory has gone,
    and nothing but the success line has been printed. *)
Theorem save_replaces_only_its_file
  (first : list (string * pyval)) (rest : list (list (string * pyval)))
  (file_path : string) (w w' : World) :
  _save_data_to_csv (map PDict (first :: rest)) file_path w = (Return tt, w') ->
  let rows := map PStr (dict_keys first) :: map (row_of (dict_keys first)) (first :: rest) in
  exists handle,
    file_key (fs w') file_path = Some handle
    /\ files (fs w') = <[ handle := rows ]> (files (fs w))
    /\ read_file (fs w') file_path = Some rows
    /\ (forall k, k ∈ dirs (fs w) -> k ∈ dirs (fs w'))
    /\ stdout w' = stdout w ++ ["Successfully saved data to: " +:+ file_path]
    /\ sent w' = sent w /\ slept w' = slept w.
Proof.
  intros Hrun rows.
  destruct (save_returned first rest file_path w w' Hrun) as (handle & w1 & Hopen & ->).
  destruct (open_for_writing_returns _ _ _ _ Hopen)
    as (Hfiles & Hdirs & _ & Hkey & Hsent & Hout & Hslept & _).
  assert (Hsome : files (fs w1) !! handle <> None)
    by (rewrite Hfiles, lookup_insert_eq; discriminate).
  destruct (saved_world w1 handle rows ("Successfully saved data to: " +:+ file_path))
    as (_ & Hf & Hd & Ho & Hs & Hsl).
  exists handle. fold rows.
  split; [| split; [| split; [| split; [| split; [| split]]]]].
  - unfold after, print. cbn [snd fs]. unfold holding. cbn [set_fs fs].
    rewrite <- (file_key_same_shape (fs w1) _ file_path
                  (same_shape_write (fs w1) handle rows Hsome)). exact Hkey.
  - rewrite Hf, Hfiles, insert_insert_eq. reflexivity.
  - unfold after, print. cbn [snd fs]. apply (read_back w1 file_path handle rows Hkey Hsome).
  - rewrite Hd. exact Hdirs.
  - rewrite Ho, Hout. reflexivity.
  - rewrite Hs. exact Hsent.
  - rewrite Hsl. exact Hslept.
Qed.

(** Records may lack fields of the first one: when every record's keys
    are among those of the first, [str] accepts every value and the file
    system lets the file be created, [_save_data_to_csv] returns, and the
    cell of record [j] under header [k] is the record's value for [k], or
    the empty string when the record has no such key. *)
Theorem missing_fields_become_empty_cells
  (first : list (string * pyval)) (rest : list (list (string * pyval)))
  (file_path : string) (w : World) :
  (forall r, In r rest -> forall k, In k (dict_keys r) -> In k (dict_keys first)) ->
  (forall r, In r (first :: rest) -> printable r = true) ->
  can_create (fs w) file_path = true ->
  exists w' rows,
    _save_data_to_csv (map PDict (first :: rest)) file_path w = (Return tt, w')
    /\ read_file (fs w') file_path = Some rows
    /\ (forall j r i k,
          (first :: rest) !! j = Some r ->
          dict_keys first !! i = Some k ->
          exists row,
            rows !! Datatypes.S j = Some row
            /\ row !! i = Some (match dict_get k r with
                                | Some v => v
                                | None => PStr ""
                                end)).
Proof.
  intros Hsub Hpr Hcan. destruct (can_create_opens _ _ Hcan) as (handle & w1 & Hopen).
  destruct (open_for_writing_returns _ _ _ _ Hopen) as (Hfiles & _ & _ & Hkey & _).
  eexists. eexists.
  split; [apply (save_total first rest file_path w w1 handle Hsub Hpr Hopen) |].
  split.
  - unfold after, print. cbn [snd fs].
    apply read_back; [exact Hkey |]. rewrite Hfiles, lookup_insert_eq. discriminate.
  - intros j r i k Hj Hi.
    exists (row_of (dict_keys first) r). split.
    + change ((map (row_of (dict_keys first)) (first :: rest)) !! j
              = Some (row_of (dict_keys first) r)).
      rewrite lookup_map, Hj. reflexivity.
    + unfold row_of. etransitivity; [apply lookup_map |]. rewrite Hi. simpl.
      destruct (dict_get k r); reflexivity.
Qed.

(** A record with a key that the first record does not have stops the
    writing with [ValueError] and leaves a partial file behind: the
    header and the rows of the records before the offending one, when
    [str] accepts their values.  The success line is not printed. *)
Theorem extra_key_leaves_partial_file
  (first : list (string * pyval)) (good : list (list (string * pyval)))
  (bad : list (string * pyval)) (tail : list pyval)
  (file_path : string) (w : World) :
  (forall r, In r good -> forall k, In k (dict_keys r) -> In k (dict_keys first)) ->
  (forall r, In r (first :: good) -> printable r = true) ->
  (exists k, In k (dict_keys bad) /\ ~ In k (dict_keys first)) ->
  can_create (fs w) file_path = true ->
  exists w',
    _save_data_to_csv (map PDict (first :: good) ++ PDict bad :: tail) file_path w
    = (Raise ValueError, w')
    /\ read_file (fs w') file_path
       = Some (map PStr (dict_keys first) :: map (row_of (dict_keys first)) (first :: good))
    /\ stdout w' = stdout w.
Proof.
  intros Hsub Hpr Hbad Hcan.
  assert (Hsub' : forall r, In r (first :: good) ->
                  forall k, In k (dict_keys r) -> In k (dict_keys first)).
  { intros r [<- | Hr] k Hk; [exact Hk | apply (Hsub r Hr), Hk]. }
  destruct (can_create_opens _ _ Hcan) as (handle & w1 & Hopen).
  destruct (open_for_writing_returns _ _ _ _ Hopen)
    as (Hfiles & _ & _ & Hkey & _ & Hout & _).
  assert (Hempty : files (fs w1) !! handle = Some [])
    by (rewrite Hfiles; apply lookup_insert_eq).
  assert (Hsome : files (fs w1) !! handle <> None) by (rewrite Hempty; discriminate).
  exists (holding w1 handle
            (map PStr (dict_keys first) :: map (row_of (dict_keys first)) (first :: good))).
  split; [| split].
  - change (map PDict (first :: good) ++ PDict bad :: tail)
      with (PDict first :: (map PDict good ++ PDict bad :: tail)).
    rewrite save_unfold. rewrite (bind_returns _ _ _ _ _ Hopen).
    unfold bind at 1, lift. cbn [py_keys]. unfold writeheader.
    rewrite (bind_returns _ _ _ _ _
               (write_row_accepted w1 handle [] _ Hempty
                  (header_accepted (dict_keys first)))).
    change (PDict first :: (map PDict good ++ PDict bad :: tail))
      with (map PDict (first :: good) ++ PDict bad :: tail).
    rewrite (bind_raises _ _ _ _ _
               (writerows_stops handle (dict_keys first) (first :: good) bad tail
                  Hsub' Hpr Hbad _ [map PStr (dict_keys first)] (holding_lookup _ _ _))).
    rewrite holding_twice. reflexivity.
  - apply read_back; assumption.
  - unfold holding. simpl. exact Hout.
Qed.

(** A first element that is not a dict has no [keys]: the call raises
    [AttributeError] after the file has been opened, so an empty file is
    left behind whatever was there before. *)
Theorem non_dict_first_leaves_empty_file
  (first : pyval) (rest : list pyval) (file_path : string) (w : World) :
  py_keys first = Raise AttributeError ->
  can_create (fs w) file_path = true ->
  exists w',
    _save_data_to_csv (first :: rest) file_path w = (Raise AttributeError, w')
    /\ read_file (fs w') file_path = Some []
    /\ stdout w' = stdout w.
Proof.
  intros Hkeys Hcan. destruct (can_create_opens _ _ Hcan) as (handle & w1 & Hopen).
  destruct (open_for_writing_returns _ _ _ _ Hopen)
    as (Hfiles & _ & _ & Hkey & _ & Hout & _).
  exists w1. split; [| split].
  - rewrite save_unfold. rewrite (bind_returns _ _ _ _ _ Hopen).
    unfold bind at 1, lift. rewrite Hkeys. reflexivity.
  - unfold read_file. rewrite Hkey, Hfiles. apply lookup_insert_eq.
  - exact Hout.
Qed.

(** ** The file name *)

(** The name follows the pattern
    DERIBIT_<instrument>_<data_type>_from_<start>_to_<end>_at_<run_timestamp>.csv,
    the run timestamp being the clock reading to the second; the world is
    left as it was. *)
Lemma filename_pattern (instrument data_type start_date end_date : string) (w : World) :
  _generate_unique_filename instrument data_type start_date end_date w
  = (Return ("DERIBIT_" +:+ instrument +:+ "_" +:+ data_type +:+ "_from_" +:+ start_date
             +:+ "_to_" +:+ end_date +:+ "_at_" +:+ strftime_run (clock w) +:+ ".csv"),
     w).
Proof. reflexivity. Qed.

Lemma append_cancel_l (a x y : string) : a +:+ x = a +:+ y -> x = y.
Proof. induction a as [| c a IH]; simpl; intros H; [exact H | injection H as H; auto]. Qed.

Lemma length_append (x y : string) :
  String.length (x +:+ y) = (String.length x + String.length y)%nat.
Proof. induction x as [| c x IH]; simpl; [reflexivity | now rewrite IH]. Qed.

Lemma append_cancel_r (s x : string) : forall y, x +:+ s = y +:+ s -> x = y.
Proof.
  induction x as [| c x IH]; intros [| c' y] H; simpl in *.
  - reflexivity.
  - apply (f_equal String.length) in H.
    rewrite !length_append in H. simpl in H. lia.
  - apply (f_equal String.length) in H.
    rewrite !length_append in H. simpl in H. lia.
  - injection H as -> H. f_equal. apply IH, H.
Qed.

(** Two runs with the same parameters get the same name exactly when their
    clock readings agree to the second. *)
Lemma filenames_agree_iff (instrument data_type start_date end_date : string)
  (w1 w2 : World) :
  fst (_generate_unique_filename instrument data_type start_date end_date w1)
  = fst (_generate_unique_filename instrument data_type start_date end_date w2)
  <-> strftime_run (clock w1) = strftime_run (clock w2).
Proof.
  rewrite !filename_pattern. simpl. split.
  - intros H. injection H as H.
    repeat (apply append_cancel_l in H). apply append_cancel_r in H. exact H.
  - intros ->. reflexivity.
Qed.


(** *** Zero-padded numbers can be read back *)

Lemma list_ascii_of_append (a b : string) :
  list_ascii_of_string (a +:+ b) = list_ascii_of_string a ++ list_ascii_of_string b.
Proof. induction a as [| c a IH]; simpl; [reflexivity | now rewrite IH]. Qed.

Lemma has_slash_append (a b : string) :
  has_slash (a +:+ b) = has_slash a || has_slash b.
Proof. unfold has_slash. now rewrite list_ascii_of_append, existsb_app. Qed.

Lemma append_assoc (a b c : string) : (a +:+ b) +:+ c = a +:+ (b +:+ c).
Proof.
  induction a as [| x a IH]; [reflexivity |].
  change (String x ((a +:+ b) +:+ c) = String x (a +:+ (b +:+ c))). now rewrite IH.
Qed.

Lemma append_empty_r (a : string) : a +:+ EmptyString = a.
Proof.
  induction a as [| x a IH]; [reflexivity |].
  change (String x (a +:+ EmptyString) = String x a). now rewrite IH.
Qed.

Lemma number_of_snoc (d : string) (c : ascii) :
  number_of (d +:+ String c EmptyString) = (10 * number_of d + (N_of_ascii c - 48))%N.
Proof.
  unfold number_of. rewrite list_ascii_of_append, fold_left_app. reflexivity.
Qed.

Lemma digit_char (m : N) :
  (m < 10)%N ->
  (N_of_ascii (pretty_N_char m) - 48)%N = m /\ is_slash (pretty_N_char m) = false.
Proof.
  intros Hm.
  assert (H : (m = 0 \/ m = 1 \/ m = 2 \/ m = 3 \/ m = 4 \/ m = 5 \/ m = 6 \/ m = 7
               \/ m = 8 \/ m = 9)%N) by lia.
  repeat (destruct H as [-> | H]); try subst m; split; reflexivity.
Qed.

Lemma digit_char_is_digit (m : N) : (m < 10)%N -> is_digit (pretty_N_char m) = true.
Proof.
  intros Hm.
  assert (H : (m = 0 \/ m = 1 \/ m = 2 \/ m = 3 \/ m = 4 \/ m = 5 \/ m = 6 \/ m = 7
               \/ m = 8 \/ m = 9)%N) by lia.
  repeat (destruct H as [-> | H]); try subst m; reflexivity.
Qed.

(** The digits [pretty] puts in front of the remainder of the string:
    they are digits and denote the number, none is a slash, a number
    below [10 ^ k] has at most [k] of them and one from [10 ^ k] on has
    more. *)
Lemma digits_of (x : N) :
  forall s, exists d,
    pretty_N_go x s = d +:+ s
    /\ number_of d = x
    /\ has_slash d = false
    /\ (forall k, (x < 10 ^ N.of_nat k)%N -> (String.length d <= k)%nat)
    /\ forallb is_digit (list_ascii_of_string d) = true
    /\ (forall k, (10 ^ N.of_nat k <= x)%N -> (k < String.length d)%nat).
Proof.
  induction (N.lt_wf_0 x) as [x _ IH]. intros s.
  destruct (N.eq_dec x 0%N) as [-> | Hx].
  - exists EmptyString. rewrite pretty_N_go_0.
    split; [reflexivity |]. split; [reflexivity |]. split; [reflexivity |].
    split; [intros k _; simpl; lia |]. split; [reflexivity |].
    intros k Hk. pose proof (N.pow_nonzero 10 (N.of_nat k) ltac:(discriminate)). lia.
  - assert (Hpos : (0 < x)%N) by lia.
    rewrite (pretty_N_go_step x s Hpos).
    destruct (IH (x / 10)%N (N.div_lt x 10%N Hpos eq_refl)
                (String (pretty_N_char (x mod 10)%N) s))
      as (d & Heq & Hnum & Hslash & Hlen & Hdig & Hlow).
    destruct (digit_char (x mod 10)%N (N.mod_lt x 10%N ltac:(discriminate)))
      as [Hdigit Hnot].
    pose proof (digit_char_is_digit (x mod 10)%N (N.mod_lt x 10%N ltac:(discriminate)))
      as Hisd.
    exists (d +:+ String (pretty_N_char (x mod 10)%N) EmptyString).
    split; [| split; [| split; [| split; [| split]]]].
    + rewrite Heq, append_assoc. reflexivity.
    + rewrite number_of_snoc, Hnum, Hdigit.
      pose proof (N.div_mod x 10%N ltac:(discriminate)). lia.
    + rewrite has_slash_append, Hslash. unfold has_slash. simpl. now rewrite Hnot.
    + intros [| k] Hk.
      * simpl in Hk. lia.
      * rewrite length_append. simpl.
        rewrite Nat2N.inj_succ, N.pow_succ_r' in Hk.
        assert (Hdiv : (x / 10 < 10 ^ N.of_nat k)%N)
          by (apply N.Div0.div_lt_upper_bound; exact Hk).
        specialize (Hlen k Hdiv). lia.
    + rewrite list_ascii_of_append, forallb_app, Hdig. simpl. now rewrite Hisd.
    + intros [| k] Hk.
      * rewrite length_append. simpl. lia.
      * rewrite length_append. simpl.
        rewrite Nat2N.inj_succ, N.pow_succ_r' in Hk.
        assert (Hdiv : (10 ^ N.of_nat k <= x / 10)%N)
          by (apply N.div_le_lower_bound; [discriminate | exact Hk]).
        specialize (Hlow k Hdiv). lia.
Qed.

(** What [pretty] writes for a number: its digits, without a slash, as
    many as the number needs. *)
Lemma pretty_spec (n : N) :
  number_of (pretty n) = n
  /\ has_slash (pretty n) = false
  /\ forallb is_digit (list_ascii_of_string (pretty n)) = true
  /\ (forall k, (n < 10 ^ N.of_nat k)%N -> (0 < k)%nat -> (String.length (pretty n) <= k)%nat)
  /\ (forall k, (10 ^ N.of_nat k <= n)%N -> (k < String.length (pretty n))%nat).
Proof.
  unfold pretty, pretty_N. destruct (decide (n = 0%N)) as [-> | Hne].
  - repeat split; try reflexivity.
    + intros k _ Hk. simpl. lia.
    + intros k Hk. pose proof (N.pow_nonzero 10 (N.of_nat k) ltac:(discriminate)). lia.
  - destruct (digits_of n EmptyString) as (d & Heq & Hnum & Hslash & Hlen & Hdig & Hlow).
    rewrite Heq, append_empty_r. repeat split; auto.
Qed.

Lemma zeros_spec (k : nat) (s : string) :
  number_of (string_of_list_ascii (repeat "0"%char k) +:+ s) = number_of s
  /\ String.length (string_of_list_ascii (repeat "0"%char k) +:+ s)
     = (k + String.length s)%nat
  /\ has_slash (string_of_list_ascii (repeat "0"%char k) +:+ s) = has_slash s.
Proof.
  induction k as [| k (IHn & IHl & IHs)]; [repeat split |].
  split; [| split].
  - unfold number_of in *. simpl in *. exact IHn.
  - simpl. now rewrite IHl.
  - unfold has_slash in *. simpl in *. exact IHs.
Qed.

(** A number below [10 ^ width] is rendered in [width] characters, none
    of them a slash, and can be read back. *)
Lemma padded_spec (width : nat) (n : N) :
  (0 < width)%nat ->
  (n < 10 ^ N.of_nat width)%N ->
  number_of (pad0 width (pretty n)) = n
  /\ String.length (pad0 width (pretty n)) = width
  /\ has_slash (pad0 width (pretty n)) = false.
Proof.
  intros Hw Hn.
  destruct (pretty_spec n) as (Hnum & Hslash & _ & Hlen & _).
  specialize (Hlen width Hn Hw). set (d := pretty n) in *.
  unfold pad0.
  destruct (zeros_spec (width - String.length d) d) as (Zn & Zl & Zs).
  rewrite Zn, Zl, Zs. repeat split; auto. lia.
Qed.

Lemma pad2_below n :
  (n < 100)%N ->
  number_of (pad0 2 (pretty n)) = n
  /\ String.length (pad0 2 (pretty n)) = 2%nat
  /\ has_slash (pad0 2 (pretty n)) = false.
Proof. intros Hn. apply padded_spec; [lia | exact Hn]. Qed.

Lemma append_split (a b x y : string) :
  String.length a = String.length b -> a +:+ x = b +:+ y -> a = b /\ x = y.
Proof.
  revert b. induction a as [| c a IH]; intros [| c' b] Hlen H; simpl in *;
    try discriminate.
  - auto.
  - injection H as -> H. injection Hlen as Hlen.
    destruct (IH b Hlen H) as [-> ->]. auto.
Qed.

Lemma valid_datetime_bounds d :
  valid_datetime d = true ->
  (year d < 10000 /\ month d < 100 /\ day d < 100
   /\ hour d < 100 /\ minute d < 100 /\ second d < 100)%N.
Proof.
  unfold valid_datetime. intros H.
  repeat (apply andb_prop in H as [H ?]).
  repeat match goal with
         | H : (_ <=? _)%N = true |- _ => apply N.leb_le in H
         | H : (_ <? _)%N = true |- _ => apply N.ltb_lt in H
         end.
  lia.
Qed.

Lemma append_split_r (a b x y : string) :
  String.length x = String.length y -> a +:+ x = b +:+ y -> a = b /\ x = y.
Proof.
  intros Hlen H. apply append_split; [| exact H].
  apply (f_equal String.length) in H. rewrite !length_append in H. lia.
Qed.

(** The run timestamp determines the clock reading to the second. *)
Lemma strftime_run_inj d1 d2 :
  valid_datetime d1 = true -> valid_datetime d2 = true ->
  strftime_run d1 = strftime_run d2 -> to_the_second d1 = to_the_second d2.
Proof.
  intros H1 H2 Heq.
  destruct (valid_datetime_bounds _ H1) as (Hy1 & Hm1 & Hd1 & Hh1 & Hi1 & Hs1).
  destruct (valid_datetime_bounds _ H2) as (Hy2 & Hm2 & Hd2 & Hh2 & Hi2 & Hs2).
  destruct (pad2_below _ Hm1) as (Nm1 & Lm1 & _), (pad2_below _ Hm2) as (Nm2 & Lm2 & _).
  destruct (pad2_below _ Hd1) as (Nd1 & Ld1 & _), (pad2_below _ Hd2) as (Nd2 & Ld2 & _).
  destruct (pad2_below _ Hh1) as (Nh1 & Lh1 & _), (pad2_below _ Hh2) as (Nh2 & Lh2 & _).
  destruct (pad2_below _ Hi1) as (Ni1 & Li1 & _), (pad2_below _ Hi2) as (Ni2 & Li2 & _).
  destruct (pad2_below _ Hs1) as (Ns1 & Ls1 & _), (pad2_below _ Hs2) as (Ns2 & Ls2 & _).
  unfold strftime_run in Heq.
  apply append_split_r in Heq as [Ey Heq].
  2:{ rewrite !length_append, Lm1, Lm2, Ld1, Ld2, Lh1, Lh2, Li1, Li2, Ls1, Ls2.
      reflexivity. }
  apply (inj pretty) in Ey.
  apply append_split in Heq as [Em Heq]; [| congruence].
  apply append_split in Heq as [Ed Heq]; [| congruence].
  apply append_split in Heq as [_ Heq]; [| reflexivity].
  apply append_split in Heq as [Eh Heq]; [| congruence].
  apply append_split in Heq as [Ei Es]; [| congruence].
  unfold to_the_second.
  rewrite <- Nm1, <- Nm2, <- Nd1, <- Nd2, <- Nh1, <- Nh2, <- Ni1, <- Ni2, <- Ns1, <- Ns2.
  rewrite Ey, Em, Ed, Eh, Ei, Es. reflexivity.
Qed.

(** Two runs with the same parameters get the same file name exactly when
    their clock readings are the same up to the second: the name tells
    runs apart by the second and by nothing else. *)
Theorem names_agree_iff_same_second
  (instrument data_type start_date end_date : string) (w1 w2 : World) :
  valid_datetime (clock w1) = true ->
  valid_datetime (clock w2) = true ->
  fst (_generate_unique_filename instrument data_type start_date end_date w1)
  = fst (_generate_unique_filename instrument data_type start_date end_date w2)
  <-> to_the_second (clock w1) = to_the_second (clock w2).
Proof.
  intros H1 H2. rewrite filenames_agree_iff. split.
  - apply strftime_run_inj; assumption.
  - unfold to_the_second, strftime_run. intros H. injection H as -> -> -> -> -> ->.
    reflexivity.
Qed.


(** *** The generated name is a bare file name *)

Lemma strftime_run_no_slash d :
  valid_datetime d = true -> has_slash (strftime_run d) = false.
Proof.
  intros Hd.
  destruct (valid_datetime_bounds _ Hd) as (Hy & Hm & Hdd & Hh & Hi & Hs).
  unfold strftime_run. rewrite !has_slash_append.
  rewrite (proj1 (proj2 (pretty_spec (year d)))), (proj2 (proj2 (pad2_below _ Hm))),
    (proj2 (proj2 (pad2_below _ Hdd))), (proj2 (proj2 (pad2_below _ Hh))),
    (proj2 (proj2 (pad2_below _ Hi))), (proj2 (proj2 (pad2_below _ Hs))).
  reflexivity.
Qed.

Lemma drop_while_app {A} (p : A -> bool) (l1 l2 : list A) :
  forallb p l1 = true -> drop_while p (l1 ++ l2) = drop_while p l2.
Proof.
  induction l1 as [| x l1 IH]; simpl; [reflexivity |].
  intros H. apply andb_prop in H as [-> H]. apply IH, H.
Qed.

Lemma no_slash_rev (name : string) :
  has_slash name = false ->
  forallb (fun c => negb (is_slash c)) (rev (list_ascii_of_string name)) = true.
Proof.
  unfold has_slash. intros H. apply forallb_forall. intros c Hc.
  apply in_rev in Hc. apply negb_true_iff.
  destruct (is_slash c) eqn:Hs; [| reflexivity].
  assert (existsb is_slash (list_ascii_of_string name) = true)
    by (apply existsb_exists; eauto).
  congruence.
Qed.

Lemma dirname_of_joined (name : string) :
  has_slash name = false ->
  os_path_join OUTPUT_DIRECTORY name = OUTPUT_DIRECTORY +:+ "/" +:+ name
  /\ os_path_dirname (os_path_join OUTPUT_DIRECTORY name) = OUTPUT_DIRECTORY.
Proof.
  intros Hname.
  assert (Hjoin : os_path_join OUTPUT_DIRECTORY name = OUTPUT_DIRECTORY +:+ "/" +:+ name).
  { unfold os_path_join.
    replace (starts_with_slash name) with false; [reflexivity |].
    destruct name as [| c name]; [reflexivity |].
    unfold has_slash in Hname. cbn [list_ascii_of_string existsb] in Hname.
    apply orb_false_elim in Hname as [Hc _].
    unfold starts_with_slash. rewrite Hc. reflexivity. }
  split; [exact Hjoin |]. rewrite Hjoin. unfold os_path_dirname.
  rewrite !list_ascii_of_append, !rev_app_distr, <- app_assoc.
  rewrite drop_while_app by (apply no_slash_rev, Hname).
  reflexivity.
Qed.

(** With an instrument, a data type and dates that contain no slash, and
    a clock reading within the ranges of [datetime], the generated name
    contains no slash: joined to the output directory it is a file
    directly in that directory. *)
Theorem generated_name_is_in_output_directory
  (instrument data_type start_date end_date : string) (w : World) :
  has_slash instrument = false ->
  has_slash data_type = false ->
  has_slash start_date = false ->
  has_slash end_date = false ->
  valid_datetime (clock w) = true ->
  exists name,
    _generate_unique_filename instrument data_type start_date end_date w = (Return name, w)
    /\ has_slash name = false
    /\ os_path_join OUTPUT_DIRECTORY name = OUTPUT_DIRECTORY +:+ "/" +:+ name
    /\ os_path_dirname (os_path_join OUTPUT_DIRECTORY name) = OUTPUT_DIRECTORY.
Proof.
  intros Hi Hd Hs He Hclock. eexists. split; [apply filename_pattern |].
  assert (Hname : has_slash ("DERIBIT_" +:+ instrument +:+ "_" +:+ data_type +:+ "_from_"
                             +:+ start_date +:+ "_to_" +:+ end_date +:+ "_at_"
                             +:+ strftime_run (clock w) +:+ ".csv") = false).
  { rewrite !has_slash_append, Hi, Hd, Hs, He, (strftime_run_no_slash _ Hclock).
    reflexivity. }
  split; [exact Hname |]. apply dirname_of_joined, Hname.
Qed.


(** ** The calendar *)

Lemma md_ok_all :
  forallb (fun i => md_ok false (Z.of_nat i)) (seq 0 365) = true
  /\ forallb (fun i => md_ok true (Z.of_nat i)) (seq 0 366) = true.
Proof. split; vm_compute; reflexivity. Qed.

Lemma month_and_day_spec (leap : bool) (n : Z) :
  0 <= n < 365 + (if leap then 1 else 0) ->
  md_ok leap n = true.
Proof.
  intros Hn. destruct md_ok_all as [H0 H1].
  rewrite forallb_forall in H0, H1.
  replace n with (Z.of_nat (Z.to_nat n)) by lia.
  destruct leap; [apply H1 | apply H0]; apply in_seq; lia.
Qed.

(** The years of a cycle of 400: [b] centuries, [c] groups of 4 years and
    [e] years after the [a]-th cycle. *)
Lemma year_spec (a b c e : Z) :
  0 <= b <= 3 -> 0 <= c <= 24 -> 0 <= e <= 3 ->
  let year := a * 400 + 1 + (b * 100 + c * 4 + e) in
  days_before_year year = 146097 * a + 36524 * b + 1461 * c + 365 * e
  /\ is_leap year = (e =? 3) && (negb (c =? 24) || (b =? 3)).
Proof.
  intros Hb Hc He year. split.
  - unfold days_before_year. subst year. cbv zeta.
    replace (a * 400 + 1 + (b * 100 + c * 4 + e) - 1) with (400 * a + 100 * b + 4 * c + e)
      by lia.
    set (y := 400 * a + 100 * b + 4 * c + e).
    assert (H4 : y / 4 = 100 * a + 25 * b + c)
      by (symmetry; apply (Z.div_unique y 4 _ e); lia).
    assert (H100 : y / 100 = 4 * a + b)
      by (symmetry; apply (Z.div_unique y 100 _ (4 * c + e)); lia).
    assert (H400 : y / 400 = a)
      by (symmetry; apply (Z.div_unique y 400 _ (100 * b + 4 * c + e)); lia).
    rewrite H4, H100, H400. lia.
  - unfold is_leap. subst year.
    assert (M4 : (a * 400 + 1 + (b * 100 + c * 4 + e)) mod 4 = (e + 1) mod 4).
    { symmetry. apply (Z.mod_unique _ 4 (100 * a + 25 * b + c + (e + 1) / 4)).
      - left. apply Z.mod_pos_bound. lia.
      - pose proof (Z.div_mod (e + 1) 4 ltac:(lia)). lia. }
    assert (M100 : (a * 400 + 1 + (b * 100 + c * 4 + e)) mod 100 = (4 * c + e + 1) mod 100).
    { symmetry. apply (Z.mod_unique _ 100 (4 * a + b + (4 * c + e + 1) / 100)).
      - left. apply Z.mod_pos_bound. lia.
      - pose proof (Z.div_mod (4 * c + e + 1) 100 ltac:(lia)). lia. }
    assert (M400 : (a * 400 + 1 + (b * 100 + c * 4 + e)) mod 400
                   = (100 * b + 4 * c + e + 1) mod 400).
    { symmetry. apply (Z.mod_unique _ 400 (a + (100 * b + 4 * c + e + 1) / 400)).
      - left. apply Z.mod_pos_bound. lia.
      - pose proof (Z.div_mod (100 * b + 4 * c + e + 1) 400 ltac:(lia)). lia. }
    rewrite M4, M100, M400.
    destruct (Z.eqb_spec e 3) as [-> | Hne].
    + change ((3 + 1) mod 4 =? 0) with true. cbn [andb].
      destruct (Z.eqb_spec c 24) as [-> | Hc24].
      * change ((4 * 24 + 3 + 1) mod 100) with 0. cbn [Z.eqb negb orb].
        replace (100 * b + 4 * 24 + 3 + 1) with (100 * (b + 1)) by lia.
        destruct (Z.eqb_spec b 3) as [-> | Hb3]; [reflexivity |].
        assert (B : b = 0 \/ b = 1 \/ b = 2) by lia.
        destruct B as [-> | [-> | ->]]; reflexivity.
      * cbn [negb orb].
        assert (H : (4 * c + 3 + 1) mod 100 <> 0).
        { rewrite Z.mod_small by lia. lia. }
        apply Z.eqb_neq in H. rewrite H. reflexivity.
    + assert (H : (e + 1) mod 4 <> 0) by (rewrite Z.mod_small by lia; lia).
      apply Z.eqb_neq in H. rewrite H. reflexivity.
Qed.

Lemma days_before_year_mono (y y' : Z) : y <= y' -> days_before_year y <= days_before_year y'.
Proof. unfold days_before_year. cbv zeta. intros H. Z.div_mod_to_equations. lia. Qed.

Lemma md_ok_elim (leap : bool) (n m d : Z) :
  md_ok leap n = true -> month_and_day leap n = (m, d) ->
  1 <= m <= 12 /\ 1 <= d
  /\ d <= table _DAYS_IN_MONTH m + (if (m =? 2) && leap then 1 else 0)
  /\ table _DAYS_BEFORE_MONTH m + (if (2 <? m) && leap then 1 else 0) + d = n + 1.
Proof.
  unfold md_ok. intros H E. rewrite E in H.
  repeat (apply andb_prop in H as [H ?]).
  repeat match goal with
         | H : (_ <=? _) = true |- _ => apply Z.leb_le in H
         | H : (_ =? _) = true |- _ => apply Z.eqb_eq in H
         end.
  lia.
Qed.

Lemma days_in_month_table (year m : Z) :
  days_in_month year m
  = table _DAYS_IN_MONTH m + (if (m =? 2) && is_leap year then 1 else 0).
Proof.
  unfold days_in_month. destruct (Z.eqb_spec m 2) as [-> | H]; cbn [andb].
  - destruct (is_leap year); reflexivity.
  - lia.
Qed.

(** The date of a day number of the years 1 to 9999, and back. *)
Lemma ord2ymd_spec (ordinal : Z) :
  1 <= ordinal <= 3652059 ->
  exists y m d,
    ord2ymd ordinal = (y, m, d)
    /\ 1 <= y <= 9999 /\ 1 <= m <= 12 /\ 1 <= d <= days_in_month y m
    /\ ymd2ord y m d = ordinal.
Proof.
  intros Hord. unfold ord2ymd. cbv zeta.
  set (n0 := ordinal - 1).
  set (a := n0 / 146097). set (r := n0 mod 146097).
  set (b := r / 36524). set (r2 := r mod 36524).
  set (c := r2 / 1461). set (r3 := r2 mod 1461).
  set (e := r3 / 365). set (k := r3 mod 365).
  assert (Hn0 : n0 = 146097 * a + r /\ 0 <= r < 146097)
    by (subst a r; split; [apply Z.div_mod; lia | apply Z.mod_pos_bound; lia]).
  assert (Hr : r = 36524 * b + r2 /\ 0 <= r2 < 36524)
    by (subst b r2; split; [apply Z.div_mod; lia | apply Z.mod_pos_bound; lia]).
  assert (Hr2 : r2 = 1461 * c + r3 /\ 0 <= r3 < 1461)
    by (subst c r3; split; [apply Z.div_mod; lia | apply Z.mod_pos_bound; lia]).
  assert (Hr3 : r3 = 365 * e + k /\ 0 <= k < 365)
    by (subst e k; split; [apply Z.div_mod; lia | apply Z.mod_pos_bound; lia]).
  clearbody a r b r2 c r3 e k.
  assert (Ha : 0 <= a <= 24) by lia.
  assert (Hb : 0 <= b <= 4) by lia.
  assert (Hc : 0 <= c <= 24) by lia.
  assert (He : 0 <= e <= 4) by lia.
  assert (Hyear : forall y k', 0 <= k' -> days_before_year y + k' = n0 -> 1 <= y -> y <= 9999).
  { intros y k' Hk' Hy _.
    destruct (Z_le_gt_dec y 9999) as [Hle | Hgt]; [exact Hle | exfalso].
    pose proof (days_before_year_mono 10000 y ltac:(lia)) as Hm.
    change (days_before_year 10000) with 3652059 in Hm. lia. }
  destruct (Z.eqb_spec e 4) as [-> | He4]; cbn [orb].
  { (* the last day of a leap year *)
    assert (Hc23 : c <= 23) by lia.
    destruct (year_spec a b c 3 ltac:(lia) ltac:(lia) ltac:(lia)) as [Hd Hl].
    cbv zeta in Hd, Hl.
    exists (a * 400 + 1 + (b * 100 + c * 4 + 4) - 1), 12, 31.
    replace (a * 400 + 1 + (b * 100 + c * 4 + 4) - 1)
      with (a * 400 + 1 + (b * 100 + c * 4 + 3)) by lia.
    assert (Hleap : is_leap (a * 400 + 1 + (b * 100 + c * 4 + 3)) = true).
    { rewrite Hl. replace (c =? 24) with false by (symmetry; apply Z.eqb_neq; lia).
      reflexivity. }
    assert (Hord' : ymd2ord (a * 400 + 1 + (b * 100 + c * 4 + 3)) 12 31 = ordinal).
    { unfold ymd2ord, days_before_month. rewrite Hd, Hleap.
      change (table _DAYS_BEFORE_MONTH 12) with 334. cbn [Z.ltb Z.compare Pos.compare
        Pos.compare_cont andb]. lia. }
    split; [reflexivity |]. split; [| split; [lia | split; [| exact Hord']]].
    - split; [lia |]. apply (Hyear _ 365); [lia | | lia]. rewrite Hd. lia.
    - change (days_in_month _ 12) with 31. lia. }
  destruct (Z.eqb_spec b 4) as [-> | Hb4].
  { (* the last day of a cycle of 400 years *)
    assert (c = 0 /\ e = 0 /\ k = 0) as (-> & -> & ->) by lia.
    destruct (year_spec a 3 24 3 ltac:(lia) ltac:(lia) ltac:(lia)) as [Hd Hl].
    cbv zeta in Hd, Hl.
    exists (a * 400 + 1 + (4 * 100 + 0 * 4 + 0) - 1), 12, 31.
    replace (a * 400 + 1 + (4 * 100 + 0 * 4 + 0) - 1)
      with (a * 400 + 1 + (3 * 100 + 24 * 4 + 3)) by lia.
    assert (Hleap : is_leap (a * 400 + 1 + (3 * 100 + 24 * 4 + 3)) = true)
      by (rewrite Hl; reflexivity).
    assert (Hord' : ymd2ord (a * 400 + 1 + (3 * 100 + 24 * 4 + 3)) 12 31 = ordinal).
    { unfold ymd2ord, days_before_month. rewrite Hd, Hleap.
      change (table _DAYS_BEFORE_MONTH 12) with 334. cbn [Z.ltb Z.compare Pos.compare
        Pos.compare_cont andb]. lia. }
    split; [reflexivity |]. split; [| split; [lia | split; [| exact Hord']]].
    - split; [lia |]. apply (Hyear _ 365); [lia | | lia]. rewrite Hd. lia.
    - change (days_in_month _ 12) with 31. lia. }
  destruct (year_spec a b c e ltac:(lia) ltac:(lia) ltac:(lia)) as [Hd Hl].
  cbv zeta in Hd, Hl.
  set (year := a * 400 + 1 + (b * 100 + c * 4 + e)) in *.
  rewrite <- Hl.
  destruct (month_and_day (is_leap year) k) as [m d] eqn:Emd.
  pose proof (month_and_day_spec (is_leap year) k
                ltac:(destruct (is_leap year); lia)) as Hok.
  destruct (md_ok_elim _ _ _ _ Hok Emd) as (Hm & Hd1 & Hd2 & Hsum).
  exists year, m, d. split; [reflexivity |].
  split; [| split; [exact Hm | split]].
  - split; [subst year; lia |]. apply (Hyear _ k); [lia | | subst year; lia].
    rewrite Hd. lia.
  - rewrite days_in_month_table. lia.
  - unfold ymd2ord, days_before_month. rewrite Hd. lia.
Qed.

Lemma days_before_next_year (y : Z) :
  days_before_year (y + 1) = days_before_year y + 365 + (if is_leap y then 1 else 0).
Proof.
  unfold days_before_year, is_leap. cbv zeta.
  replace (y + 1 - 1) with y by lia.
  destruct (Z.eqb_spec (y mod 4) 0) as [H4 | H4];
    destruct (Z.eqb_spec (y mod 100) 0) as [H100 | H100];
    destruct (Z.eqb_spec (y mod 400) 0) as [H400 | H400];
    cbn [andb orb negb]; Z.div_mod_to_equations; lia.
Qed.

Lemma dm_ok_all :
  forallb (fun leap =>
    forallb (fun m => forallb (dm_ok leap (Z.of_nat m)) (days_of leap (Z.of_nat m)))
      (seq 1 12)) [false; true] = true.
Proof. vm_compute. reflexivity. Qed.

Lemma day_of_year_spec (leap : bool) (m d : Z) :
  1 <= m <= 12 ->
  1 <= d <= table _DAYS_IN_MONTH m + (if (m =? 2) && leap then 1 else 0) ->
  let n := table _DAYS_BEFORE_MONTH m + (if (2 <? m) && leap then 1 else 0) + d - 1 in
  0 <= n < 365 + (if leap then 1 else 0) /\ month_and_day leap n = (m, d).
Proof.
  intros Hm Hd n.
  pose proof dm_ok_all as H. rewrite forallb_forall in H.
  specialize (H leap ltac:(destruct leap; simpl; auto)).
  rewrite forallb_forall in H. specialize (H (Z.to_nat m) ltac:(apply in_seq; lia)).
  rewrite Z2Nat.id in H by lia.
  rewrite forallb_forall in H. specialize (H d).
  assert (Hin : In d (days_of leap m)).
  { unfold days_of. apply in_map_iff. exists (Z.to_nat d). split; [lia |].
    apply in_seq. lia. }
  specialize (H Hin). unfold dm_ok in H. fold n in H.
  apply andb_prop in H as [H Hmd]. apply andb_prop in H as [H0 H1].
  apply Z.leb_le in H0. apply Z.ltb_lt in H1. split; [lia |].
  destruct (month_and_day leap n) as [m' d'].
  apply andb_prop in Hmd as [E1 E2].
  apply Z.eqb_eq in E1, E2. congruence.
Qed.

(** The day number of a date of the years 1 to 9999, and back. *)
Lemma ymd2ord_spec (y m d : Z) :
  1 <= y <= 9999 -> 1 <= m <= 12 -> 1 <= d <= days_in_month y m ->
  days_before_year y + 1 <= ymd2ord y m d <= 3652059
  /\ ord2ymd (ymd2ord y m d) = (y, m, d).
Proof.
  intros Hy Hm Hd. rewrite days_in_month_table in Hd.
  destruct (day_of_year_spec (is_leap y) m d Hm Hd) as [Hn Hmd]. cbv zeta in Hn, Hmd.
  pose proof (days_before_year_mono 1 y ltac:(lia)) as H1.
  change (days_before_year 1) with 0 in H1.
  assert (Hrange : days_before_year y + 1 <= ymd2ord y m d <= 3652059).
  { unfold ymd2ord, days_before_month.
    pose proof (days_before_year_mono (y + 1) 10000 ltac:(lia)) as H2.
    rewrite days_before_next_year in H2.
    change (days_before_year 10000) with 3652059 in H2. lia. }
  split; [exact Hrange |].
  destruct (ord2ymd_spec (ymd2ord y m d) ltac:(lia))
    as (y' & m' & d' & E & Hy' & Hm' & Hd' & Hord).
  rewrite E. rewrite days_in_month_table in Hd'.
  destruct (day_of_year_spec (is_leap y') m' d' Hm' Hd') as [Hn' Hmd'].
  cbv zeta in Hn', Hmd'.
  unfold ymd2ord, days_before_month in Hord.
  assert (Eyear : y' = y).
  { destruct (Z.lt_trichotomy y' y) as [Hlt | [Heq | Hgt]]; [exfalso | exact Heq | exfalso].
    - pose proof (days_before_year_mono (y' + 1) y ltac:(lia)) as Hmono.
      rewrite days_before_next_year in Hmono. lia.
    - pose proof (days_before_year_mono (y + 1) y' ltac:(lia)) as Hmono.
      rewrite days_before_next_year in Hmono. lia. }
  subst y'.
  assert (En : table _DAYS_BEFORE_MONTH m' + (if (2 <? m') && is_leap y then 1 else 0) + d' - 1
               = table _DAYS_BEFORE_MONTH m + (if (2 <? m) && is_leap y then 1 else 0) + d - 1)
    by lia.
  rewrite En in Hmd'. rewrite Hmd in Hmd'. congruence.
Qed.

(** ** The clock of the host *)

Lemma in_time_t_near (t : Z) :
  -1000000000000000 <= t <= 1000000000000000 -> in_time_t t = true.
Proof.
  intros H. unfold in_time_t. change (2 ^ 63) with 9223372036854775808.
  apply andb_true_intro. split; [apply Z.leb_le | apply Z.ltb_lt]; lia.
Qed.

(** The fields of an instant whose local time is in the calendar. *)
Lemma localtime_fields (z : Z -> Z) (t : Z) :
  in_calendar (t + z t) ->
  exists y m d,
    ord2ymd ((t + z t) / 86400 + 719163) = (y, m, d)
    /\ 1 <= y <= 9999 /\ 1 <= m <= 12 /\ 1 <= d <= days_in_month y m
    /\ ymd2ord y m d = (t + z t) / 86400 + 719163
    /\ localtime z t
       = inl (mk_tm (y - 1900) (m - 1) d ((t + z t) mod 86400 / 3600)
                ((t + z t) mod 86400 mod 3600 / 60) ((t + z t) mod 86400 mod 60)).
Proof.
  intros Hs. unfold in_calendar in Hs.
  assert (Hord : 1 <= (t + z t) / 86400 + 719163 <= 3652059)
    by (Z.div_mod_to_equations; lia).
  destruct (ord2ymd_spec _ Hord) as (y & m & d & E & Hy & Hm & Hd & Hback).
  exists y, m, d. repeat (split; [assumption |]).
  unfold localtime. cbv zeta. rewrite E.
  replace (in_int (y - 1900)) with true; [reflexivity |].
  symmetry. unfold in_int. apply andb_true_intro. split.
  - apply Z.leb_le. change (- 2 ^ 31) with (-2147483648). lia.
  - apply Z.ltb_lt. change (2 ^ 31) with 2147483648. lia.
Qed.

Lemma year_in_range (y : Z) : 1 <= y <= 9999 -> (y <? 1) || (9999 <? y) = false.
Proof. intros H. apply orb_false_intro; apply Z.ltb_ge; lia. Qed.

(** The wall clock at an instant whose local time is in the calendar. *)
Lemma local_in_calendar (z : Z -> Z) (u : Z) :
  in_calendar (u - epoch + z (u - epoch)) ->
  in_time_t (u - epoch) = true ->
  local z u = inl (u + z (u - epoch)).
Proof.
  intros Hs Ht. unfold local. cbv zeta. rewrite Ht.
  destruct (localtime_fields z (u - epoch) Hs) as (y & m & d & _ & Hy & _ & _ & Hback & ->).
  cbn [and_then tm_year tm_mon tm_mday tm_hour tm_min tm_sec].
  unfold utc_to_seconds.
  replace (y - 1900 + 1900) with y by lia. replace (m - 1 + 1) with m by lia.
  rewrite (year_in_range y Hy).
  rewrite Hback. f_equal. unfold epoch. Z.div_mod_to_equations. lia.
Qed.

Section Midnight.

Variable z : Z -> Z.
Variables year month day : Z.
Hypothesis Hyear : 1000 <= year <= 9999.
Hypothesis Hmonth : 1 <= month <= 12.
Hypothesis Hday : 1 <= day <= days_in_month year month.

Let t := utc_midnight year month day.
Let a := z t.

Hypothesis Hoffset : -86400 < a < 86400.
Hypothesis Hthere : z (t - a) = a.
Hypothesis Hbefore : z (t - a - 86400) = a.

Lemma midnight_range : -30610224000 <= t <= 253402214400.
Proof.
  subst t. unfold utc_midnight.
  destruct (ymd2ord_spec year month day ltac:(lia) Hmonth Hday) as [Hrange _].
  pose proof (days_before_year_mono 1000 year ltac:(lia)) as Hmono.
  change (days_before_year 1000) with 364877 in Hmono. lia.
Qed.

Lemma midnight_seconds :
  utc_to_seconds year month day 0 0 0 = inl (t + epoch).
Proof.
  unfold utc_to_seconds. rewrite year_in_range by lia.
  f_equal. subst t. unfold utc_midnight, epoch. lia.
Qed.

(** The wall clock at the three instants the conversions look at. *)
Lemma wall_clock_at_midnight :
  local z (t + epoch) = inl (t + epoch + a)
  /\ local z (t + epoch - a) = inl (t + epoch)
  /\ local z (t + epoch - a - max_fold_seconds) = inl (t + epoch - max_fold_seconds).
Proof.
  pose proof midnight_range as Ht. unfold max_fold_seconds.
  split; [| split].
  - rewrite local_in_calendar.
    + replace (t + epoch - epoch) with t by lia. reflexivity.
    + replace (t + epoch - epoch) with t by lia. fold a. unfold in_calendar. lia.
    + apply in_time_t_near. lia.
  - rewrite local_in_calendar.
    + replace (t + epoch - a - epoch) with (t - a) by lia. rewrite Hthere. f_equal. lia.
    + replace (t + epoch - a - epoch) with (t - a) by lia. rewrite Hthere.
      unfold in_calendar. lia.
    + apply in_time_t_near. lia.
  - rewrite local_in_calendar.
    + replace (t + epoch - a - 24 * 3600 - epoch) with (t - a - 86400) by lia.
      rewrite Hbefore. f_equal. lia.
    + replace (t + epoch - a - 24 * 3600 - epoch) with (t - a - 86400) by lia.
      rewrite Hbefore. unfold in_calendar. lia.
    + apply in_time_t_near. lia.
Qed.

(** The instant of local midnight. *)
Lemma midnight_instant :
  local_to_seconds z year month day 0 0 0 = inl (t + epoch - a).
Proof.
  destruct wall_clock_at_midnight as (H0 & H1 & H2).
  unfold local_to_seconds. rewrite midnight_seconds. cbn [and_then].
  rewrite H0. cbn [and_then]. cbv zeta.
  replace (t + epoch + a - (t + epoch)) with a by lia.
  rewrite H1. cbn [and_then]. rewrite Z.eqb_refl.
  rewrite H2. cbn [and_then].
  replace (t + epoch - max_fold_seconds - (t + epoch - a - max_fold_seconds)) with a by lia.
  rewrite Z.eqb_refl. reflexivity.
Qed.

(** The fields of local midnight, read back from the instant. *)
Lemma midnight_fields :
  fromtimestamp z ((t - a) * 1000) = inl (mk_tm (year - 1900) (month - 1) day 0 0 0).
Proof.
  destruct wall_clock_at_midnight as (_ & _ & H2).
  pose proof midnight_range as Ht.
  unfold fromtimestamp. cbv zeta. rewrite Z.div_mul by discriminate.
  rewrite in_time_t_near by lia.
  assert (Hlocal : localtime z (t - a) = inl (mk_tm (year - 1900) (month - 1) day 0 0 0)).
  { unfold localtime. cbv zeta. rewrite Hthere.
    replace (t - a + a) with t by lia.
    assert (Hdiv : t / 86400 = ymd2ord year month day - 719163)
      by (subst t; unfold utc_midnight; apply Z.div_mul; discriminate).
    assert (Hmod : t mod 86400 = 0)
      by (subst t; unfold utc_midnight; apply Z.mod_mul; discriminate).
    rewrite Hdiv, Hmod.
    replace (ymd2ord year month day - 719163 + 719163) with (ymd2ord year month day) by lia.
    rewrite (proj2 (ymd2ord_spec year month day ltac:(lia) Hmonth Hday)).
    replace (in_int (year - 1900)) with true; [reflexivity |].
    symmetry. unfold in_int. apply andb_true_intro. split.
    - apply Z.leb_le. change (- 2 ^ 31) with (-2147483648). lia.
    - apply Z.ltb_lt. change (2 ^ 31) with 2147483648. lia. }
  rewrite Hlocal. cbn [and_then tm_year tm_mon tm_mday tm_hour tm_min tm_sec].
  replace (year - 1900 + 1900) with year by lia.
  replace (month - 1 + 1) with month by lia.
  change (Z.min 59 0) with 0. rewrite midnight_seconds. cbn [and_then].
  replace (epoch + (t - a) - max_fold_seconds) with (t + epoch - a - max_fold_seconds)
    by lia.
  rewrite H2. cbn [and_then]. cbv zeta.
  replace (t + epoch - (t + epoch - max_fold_seconds) - max_fold_seconds) with 0 by lia.
  reflexivity.
Qed.

End Midnight.

(** ** Dates as text *)

Lemma pad0_long (width : nat) (s : string) :
  (width <= String.length s)%nat -> pad0 width s = s.
Proof.
  intros H. unfold pad0. replace (width - String.length s)%nat with O by lia. reflexivity.
Qed.

Lemma padded_digits (width : nat) (n : N) :
  forallb is_digit (list_ascii_of_string (pad0 width (pretty n))) = true.
Proof.
  unfold pad0. rewrite list_ascii_of_append, forallb_app.
  rewrite (proj1 (proj2 (proj2 (pretty_spec n)))), andb_true_r.
  rewrite list_ascii_of_string_of_list_ascii.
  induction (width - String.length (pretty n))%nat as [| k IH]; [reflexivity | exact IH].
Qed.

Lemma two_digits_all :
  forallb (fun i => String.eqb (pad0 2 (pretty (N.of_nat i))) (two_digits (N.of_nat i)))
    (seq 0 32) = true.
Proof. vm_compute. reflexivity. Qed.

Lemma pad0_two_digits (n : Z) :
  0 <= n <= 31 -> pad0 2 (pretty (Z.to_N n)) = two_digits (Z.to_N n).
Proof.
  intros Hn. pose proof two_digits_all as H. rewrite forallb_forall in H.
  specialize (H (Z.to_nat n) ltac:(apply in_seq; lia)).
  rewrite Z_nat_N in H. apply String.eqb_eq in H. exact H.
Qed.

Lemma month_day_read_back_all :
  forallb (fun m => forallb (month_day_read_back m) (seq 1 31)) (seq 1 12) = true.
Proof. vm_compute. reflexivity. Qed.

Lemma month_day_parsed (m d : Z) :
  1 <= m <= 12 -> 1 <= d <= 31 ->
  match_month_day
    (list_ascii_of_string
       (pad0 2 (pretty (Z.to_N m)) +:+ "-" +:+ pad0 2 (pretty (Z.to_N d))))
  = Some (m, d, []).
Proof.
  intros Hm Hd. rewrite !pad0_two_digits by lia.
  pose proof month_day_read_back_all as H. rewrite forallb_forall in H.
  specialize (H (Z.to_nat m) ltac:(apply in_seq; lia)).
  rewrite forallb_forall in H. specialize (H (Z.to_nat d) ltac:(apply in_seq; lia)).
  unfold month_day_read_back in H. rewrite !Z_nat_N in H.
  destruct (match_month_day _) as [[[m' d'] [| c r]] |]; try discriminate.
  apply andb_prop in H as [E1 E2]. apply Z.eqb_eq in E1, E2.
  rewrite !Z2Nat.id in * by lia. congruence.
Qed.

Lemma days_in_month_le_31 (y m : Z) : 1 <= m <= 12 -> days_in_month y m <= 31.
Proof.
  intros Hm. rewrite days_in_month_table.
  assert (E : m = 1 \/ m = 2 \/ m = 3 \/ m = 4 \/ m = 5 \/ m = 6 \/ m = 7 \/ m = 8
              \/ m = 9 \/ m = 10 \/ m = 11 \/ m = 12) by lia.
  repeat (destruct E as [-> | E]); try subst m;
    destruct (is_leap y); vm_compute; discriminate.
Qed.

(** [strptime] reads a date written as YYYY-MM-DD. *)
Lemma strptime_date_string (year month day : Z) :
  1 <= year <= 9999 -> 1 <= month <= 12 -> 1 <= day <= days_in_month year month ->
  strptime_date (date_string year month day) = inl (year, month, day).
Proof.
  intros Hy Hm Hd.
  pose proof (days_in_month_le_31 year month Hm) as H31.
  assert (Hlt : (Z.to_N year < 10 ^ N.of_nat 4)%N) by (change (10 ^ N.of_nat 4)%N with 10000%N; lia).
  destruct (padded_spec 4 (Z.to_N year) ltac:(lia) Hlt) as (Hnum & Hlen & _).
  pose proof (padded_digits 4 (Z.to_N year)) as Hdig.
  unfold strptime_date, date_string.
  destruct (pad0 4 (pretty (Z.to_N year))) as [| c1 [| c2 [| c3 [| c4 [| c5 rest]]]]];
    try discriminate Hlen.
  change (list_ascii_of_string
            (String c1 (String c2 (String c3 (String c4 EmptyString)))
             +:+ "-" +:+ pad0 2 (pretty (Z.to_N month)) +:+ "-"
             +:+ pad0 2 (pretty (Z.to_N day))))
    with (c1 :: c2 :: c3 :: c4 :: "-"%char
          :: list_ascii_of_string
               (pad0 2 (pretty (Z.to_N month)) +:+ "-" +:+ pad0 2 (pretty (Z.to_N day)))).
  unfold match_date.
  change (list_ascii_of_string (String c1 (String c2 (String c3 (String c4 EmptyString)))))
    with [c1; c2; c3; c4] in Hdig.
  rewrite Hdig. change (Ascii.eqb "-" "-") with true. cbn [andb].
  rewrite (month_day_parsed month day Hm ltac:(lia)).
  change (string_of_list_ascii [c1; c2; c3; c4])
    with (String c1 (String c2 (String c3 (String c4 EmptyString)))).
  rewrite Hnum, Z2N.id by lia.
  replace (1 <=? year) with true by (symmetry; apply Z.leb_le; lia).
  replace (day <=? days_in_month year month) with true by (symmetry; apply Z.leb_le; lia).
  reflexivity.
Qed.

(** From the year 1000 on the year has its four digits without padding. *)
Lemma strftime_date_string (year month day : Z) :
  1000 <= year ->
  strftime_date (mk_tm (year - 1900) (month - 1) day 0 0 0) = date_string year month day.
Proof.
  intros Hy. unfold strftime_date, date_string.
  cbn [tm_year tm_mon tm_mday].
  replace (year - 1900 + 1900) with year by lia.
  replace (month - 1 + 1) with month by lia.
  rewrite (pad0_long 4 (pretty (Z.to_N year))); [reflexivity |].
  pose proof (proj2 (proj2 (proj2 (proj2 (pretty_spec (Z.to_N year))))) 3%nat) as H.
  change (10 ^ N.of_nat 3)%N with 1000%N in H. specialize (H ltac:(lia)). lia.
Qed.

(** ** The round trip of a date *)


(** ** The orchestrator on a non-empty dataset *)

(** A run whose dataset is a non-empty list of printable records with
    keys among those of the first, on a file system that lets the output
    file be created: the total is printed, the file named after the clock
    reading holds the header and one row per record, no other file has
    changed and no directory has gone, and the run returns after its
    closing line. *)
Theorem nonempty_dataset_is_saved
  (remote : nat -> Request -> http_outcome) (failure_text : http_outcome -> string)
  (py_str : pyval -> string) (local_date : Z -> string + exn)
  (local_midnight_ms : string -> Z + exn)
  (fuel : nat) (w w1 : World) (start_ts end_ts : Z)
  (first : list (string * pyval)) (rest : list (list (string * pyval))) :
  local_midnight_ms START_DATE = inl start_ts ->
  local_midnight_ms END_DATE = inl end_ts ->
  _fetch_data_in_chunks remote failure_text py_str local_date fuel INSTRUMENT_NAME
    start_ts end_ts CHUNK_SIZE_DAYS SLEEP_INTERVAL_SECONDS (after banner w)
  = (Return (map PDict (first :: rest)), w1) ->
  (forall r, In r rest -> forall k, In k (dict_keys r) -> In k (dict_keys first)) ->
  (forall r, In r (first :: rest) -> printable r = true) ->
  valid_datetime (clock w1) = true ->
  (1000 <= year (clock w1))%N ->
  let full_path :=
    OUTPUT_DIRECTORY +:+ "/"
    +:+ filename_of INSTRUMENT_NAME DATA_TYPE START_DATE END_DATE (strftime_run (clock w1)) in
  let rows := map PStr (dict_keys first) :: map (row_of (dict_keys first)) (first :: rest) in
  can_create (fs w) full_path = true ->
  exists w2,
    download_historical_data remote failure_text py_str local_date local_midnight_ms fuel w
    = (Return tt, w2)
    /\ read_file (fs w2) full_path = Some rows
    /\ (exists handle, files (fs w2) = <[ handle := rows ]> (files (fs w)))
    /\ (forall k, k ∈ dirs (fs w) -> k ∈ dirs (fs w2))
    /\ stdout w2
       = stdout w1 ++ [dashes35;
                       "Total records downloaded: " +:+ pretty (length (first :: rest));
                       "Successfully saved data to: " +:+ full_path;
                       "--- Download Process Finished ---"].
Proof.
  intros Hs He Hrun Hsub Hpr Hclock Hyear full_path rows Hcan.
  set (name := filename_of INSTRUMENT_NAME DATA_TYPE START_DATE END_DATE
                 (strftime_run (clock w1))) in *.
  assert (Hname : has_slash name = false).
  { subst name. unfold filename_of.
    rewrite !has_slash_append, (strftime_run_no_slash _ Hclock). reflexivity. }
  destruct (dirname_of_joined name Hname) as [Hjoin _].
  fold full_path in Hjoin.
  pose proof (fetch_loop_fs remote failure_text py_str local_date
                INSTRUMENT_NAME end_ts (chunk_size_ms_of CHUNK_SIZE_DAYS)
                SLEEP_INTERVAL_SECONDS fuel start_ts [] (after banner w)) as Hfs.
  cbv beta zeta in Hfs.
  assert (Hfs1 : fs w1 = fs w).
  { unfold _fetch_data_in_chunks in Hrun. cbv zeta in Hrun. rewrite Hrun in Hfs.
    exact Hfs. }
  set (line1 := "Total records downloaded: " +:+ pretty (length (first :: rest))).
  set (w3 := after (print line1) (after (print dashes35) w1)).
  assert (Hfs3 : fs w3 = fs w) by exact Hfs1.
  rewrite <- Hfs3 in Hcan.
  destruct (can_create_opens _ _ Hcan) as (handle & w4 & Hopen).
  destruct (open_for_writing_returns _ _ _ _ Hopen)
    as (Hfiles & Hdirs & _ & Hkey & _ & Hout & _).
  assert (Hsome : files (fs w4) !! handle <> None)
    by (rewrite Hfiles, lookup_insert_eq; discriminate).
  pose proof (save_total first rest full_path w3 w4 handle Hsub Hpr Hopen) as Hsave.
  fold rows in Hsave.
  destruct (saved_world w4 handle rows ("Successfully saved data to: " +:+ full_path))
    as (_ & Hf & Hd & Ho & _).
  exists (after (print "--- Download Process Finished ---")
            (after (print ("Successfully saved data to: " +:+ full_path))
               (holding w4 handle rows))).
  split; [| split; [| split; [| split]]].
  - unfold download_historical_data.
    repeat (rewrite bind_print; cbv beta).
    unfold _date_to_timestamp_ms. rewrite Hs, He.
    unfold bind at 1, lift at 1. cbn [of_sum]. unfold bind at 1, lift at 1.
    match goal with
    | |- context [bind (_fetch_data_in_chunks _ _ _ _ _ _ _ _ _ _) _ ?w0] =>
        change w0 with (after banner w)
    end.
    rewrite (bind_returns _ _ _ _ _ Hrun).
    rewrite bind_print. cbv beta. cbn [map]. rewrite bind_assoc.
    rewrite bind_print. cbv beta. rewrite bind_assoc.
    rewrite (bind_returns _ _ _ _ _ (filename_pattern _ _ _ _ _)). cbv zeta.
    change (clock (after (print _) (after (print dashes35) w1))) with (clock w1).
    change ("DERIBIT_" +:+ INSTRUMENT_NAME +:+ "_" +:+ DATA_TYPE +:+ "_from_" +:+ START_DATE
            +:+ "_to_" +:+ END_DATE +:+ "_at_" +:+ strftime_run (clock w1) +:+ ".csv")
      with name.
    rewrite Hjoin.
    change (PDict first :: map PDict rest) with (map PDict (first :: rest)).
    change (length (map PDict (first :: rest))) with (length (PDict first :: map PDict rest)).
    cbn [length]. rewrite length_map.
    change (Datatypes.S (length rest)) with (length (first :: rest)).
    fold line1. fold w3.
    rewrite (bind_returns _ _ _ _ _ Hsave). reflexivity.
  - unfold after at 1, print at 1. cbn [snd fs].
    unfold after, print. cbn [snd fs].
    apply (read_back w4 full_path handle rows Hkey Hsome).
  - exists handle. unfold after at 1, print at 1. cbn [snd fs].
    rewrite Hf, Hfiles, insert_insert_eq, Hfs3. reflexivity.
  - intros k Hk. unfold after at 1, print at 1. cbn [snd fs].
    rewrite Hd. apply Hdirs. rewrite Hfs3. exact Hk.
  - unfold after at 1, print at 1. cbn [snd stdout]. rewrite Ho, Hout.
    unfold w3, after, print. cbn [snd stdout]. rewrite <- !app_assoc. reflexivity.
Qed.


(** ** Concrete runs *)

Example dashes35_length : String.length dashes35 = 35%nat.
Proof. reflexivity. Qed.

Example dirname_of_output :
  os_path_dirname (os_path_join OUTPUT_DIRECTORY "x.csv") = "./data/raw"
  /\ os_path_dirname "x.csv" = "" /\ os_path_dirname "/x.csv" = "/"
  /\ os_path_dirname "a//b" = "a".
Proof. repeat split. Qed.

Lemma two_day_windows_render i :
  (i < 2)%nat -> window_renders day_label jul10 jul12 86400000 i = true.
Proof. destruct i as [| [| i]]; [reflexivity | reflexivity | lia]. Qed.

(** The example of the specification: 2025-07-10 to 2025-07-12 in chunks of
    one day gives two calls, for [07-10, 07-11] and [07-11, 07-12]. *)
Lemma two_day_range_two_calls :
  exists data w',
    _fetch_data_in_chunks funding_server text_of str_of day_label 2
      "BTC-PERPETUAL" jul10 jul12 1 SLEEP_INTERVAL_SECONDS quiet_world
    = (Return data, w')
    /\ sent w' = [mkRequest API_URL "BTC-PERPETUAL" jul10 jul11;
                  mkRequest API_URL "BTC-PERPETUAL" jul11 jul12].
Proof.
  destruct (fetch_calls_one_per_window funding_server text_of str_of day_label
              "BTC-PERPETUAL" jul10 jul12 1 SLEEP_INTERVAL_SECONDS quiet_world
              ltac:(reflexivity) ltac:(discriminate)) as (Hcalls & Hreturns & _).
  destruct (Hreturns 2%nat
              (fun i => PList (funding_records (fst (window jul10 jul12 86400000 i))))
              (le_n 2) eq_refl two_day_windows_render (fun i w' _ _ => eq_refl)
              (fun i _ => eq_refl))
    as (data & w' & Hrun).
  exists data, w'. split; [exact Hrun | exact (Hcalls _ _ _ Hrun)].
Defined.

(** Runs over the range of the example in which the calls are not the
    ceiling of [(E - S) / C].  A chunk size of zero days: the loop never
    ends, and the number of requests it issues exceeds every bound.  A
    chunk size of minus one day: the function does not return either,
    having issued its first request with one unit of fuel, while the
    ceiling is [-2].  A chunk size of one day, where the ceiling is [2]:
    an exchange that answers [null] makes the first fetch raise
    [TypeError], and an interval that [time.sleep] refuses ends the run
    in its first pass, each after one request.  A range beyond the year
    9999, where the ceiling is [1]: the date of the first progress line
    cannot be rendered and no request is issued at all. *)
Lemma calls_are_not_the_ceiling :
  (never_returns
     (fun fuel => _fetch_data_in_chunks funding_server text_of str_of day_label fuel
                    "BTC-PERPETUAL" jul10 jul12 0 SLEEP_INTERVAL_SECONDS) quiet_world
   /\ ~ (exists n, forall fuel,
           (length (sent (after (_fetch_data_in_chunks funding_server text_of str_of
                                   day_label fuel "BTC-PERPETUAL" jul10 jul12 0
                                   SLEEP_INTERVAL_SECONDS) quiet_world)) <= n)%nat))
  /\ (~ (exists fuel data w',
           _fetch_data_in_chunks funding_server text_of str_of day_label fuel
             "BTC-PERPETUAL" jul10 jul12 (-1) SLEEP_INTERVAL_SECONDS quiet_world
           = (Return data, w'))
     /\ length (sent (after (_fetch_data_in_chunks funding_server text_of str_of day_label 1
                               "BTC-PERPETUAL" jul10 jul12 (-1) SLEEP_INTERVAL_SECONDS)
                        quiet_world)) = 1%nat
     /\ ceil_div (jul12 - jul10) (chunk_size_ms_of (-1)) = -2)
  /\ (ceil_div (jul12 - jul10) (chunk_size_ms_of 1) = 2
      /\ fst (_fetch_data_in_chunks null_server text_of str_of day_label 2
                "BTC-PERPETUAL" jul10 jul12 1 SLEEP_INTERVAL_SECONDS quiet_world)
         = Raise TypeError
      /\ length (sent (after (_fetch_data_in_chunks null_server text_of str_of day_label 2
                                "BTC-PERPETUAL" jul10 jul12 1 SLEEP_INTERVAL_SECONDS)
                         quiet_world)) = 1%nat
      /\ fst (_fetch_data_in_chunks funding_server text_of str_of day_label 2
                "BTC-PERPETUAL" jul10 jul12 1 negative_interval quiet_world)
         = Raise ValueError
      /\ length (sent (after (_fetch_data_in_chunks funding_server text_of str_of day_label 2
                                "BTC-PERPETUAL" jul10 jul12 1 negative_interval)
                         quiet_world)) = 1%nat)
  /\ (1000000000000000000 < 1000000000000000001
      /\ ceil_div (1000000000000000001 - 1000000000000000000) (chunk_size_ms_of 1) = 1
      /\ fst (_fetch_data_in_chunks funding_server text_of str_of day_label 2
                "BTC-PERPETUAL" 1000000000000000000 1000000000000000001 1
                SLEEP_INTERVAL_SECONDS quiet_world)
         = Raise ValueError
      /\ sent (after (_fetch_data_in_chunks funding_server text_of str_of day_label 2
                        "BTC-PERPETUAL" 1000000000000000000 1000000000000000001 1
                        SLEEP_INTERVAL_SECONDS) quiet_world) = []).
Proof.
  assert (Hfetch : forall w, exists v w1,
             _get_funding_rate_history_chunk funding_server text_of str_of
               "BTC-PERPETUAL" jul10 jul10 w = (Return v, w1) /\ list_or_none v = true).
  { intros w. eexists. eexists. split; reflexivity. }
  pose proof (fetch_loop_stalls funding_server text_of str_of day_label
                "BTC-PERPETUAL" jul12 (chunk_size_ms_of 0) SLEEP_INTERVAL_SECONDS
                eq_refl eq_refl jul10 eq_refl eq_refl Hfetch) as Hstall.
  split; [split | split; [split; [| split] | split]].
  - intros fuel. apply (Hstall fuel [] quiet_world).
  - intros [n Hn]. specialize (Hn (Datatypes.S n)).
    destruct (Hstall (Datatypes.S n) [] quiet_world) as [_ Hlen].
    unfold after, _fetch_data_in_chunks in Hn. cbv zeta in Hn.
    rewrite Hlen in Hn. simpl in Hn. lia.
  - intros (fuel & data & w' & Hrun).
    apply (fetch_loop_never_returns funding_server text_of str_of day_label
             "BTC-PERPETUAL" jul12 (chunk_size_ms_of (-1)) SLEEP_INTERVAL_SECONDS
             ltac:(discriminate) fuel jul10 [] quiet_world data w' eq_refl Hrun).
  - vm_compute. reflexivity.
  - reflexivity.
  - repeat split; vm_compute; reflexivity.
  - repeat split; vm_compute; reflexivity.
Qed.

(** The second request of a three-day run is dropped by the network.  The
    pass for 07-11 starts with the three records of 07-10 and returns them
    as they are, and the loop goes on at 07-12 with them. *)
Lemma dropped_second_request_is_skipped :
  let w := after (loop_body late_flaky_server text_of str_of day_label "BTC-PERPETUAL"
                    jul13 86400000 SLEEP_INTERVAL_SECONDS jul10 []) quiet_world in
  length (funding_records jul10) = 3%nat
  /\ exists w2,
       loop_body late_flaky_server text_of str_of day_label "BTC-PERPETUAL" jul13 86400000
         SLEEP_INTERVAL_SECONDS jul11 (funding_records jul10) w
       = (Return (funding_records jul10), w2)
       /\ fetch_loop late_flaky_server text_of str_of day_label 2 "BTC-PERPETUAL" jul13
            86400000 SLEEP_INTERVAL_SECONDS jul11 (funding_records jul10) w
          = fetch_loop late_flaky_server text_of str_of day_label 1 "BTC-PERPETUAL" jul13
              86400000 SLEEP_INTERVAL_SECONDS jul12 (funding_records jul10) w2
       /\ sent w2 = sent w ++ [mkRequest API_URL "BTC-PERPETUAL" jul11 jul12]
       /\ stdout w2
          = stdout (after (_get_funding_rate_history_chunk late_flaky_server text_of str_of
                             "BTC-PERPETUAL" jul11 jul12)
                      (at_fetch day_label jul13 86400000 jul11 w))
            ++ ["  - Failed to retrieve data for this chunk."]
       /\ fs w2 = fs w.
Proof.
  cbv zeta. split; [reflexivity |].
  exact (proj2
           (failed_chunk_is_skipped late_flaky_server text_of str_of day_label
              "BTC-PERPETUAL" jul13 86400000 SLEEP_INTERVAL_SECONDS 1 jul11
              (funding_records jul10)
              (after (loop_body late_flaky_server text_of str_of day_label "BTC-PERPETUAL"
                        jul13 86400000 SLEEP_INTERVAL_SECONDS jul10 []) quiet_world)
              (after (_get_funding_rate_history_chunk late_flaky_server text_of str_of
                        "BTC-PERPETUAL" jul11 jul12)
                 (at_fetch day_label jul13 86400000 jul11
                    (after (loop_body late_flaky_server text_of str_of day_label
                              "BTC-PERPETUAL" jul13 86400000 SLEEP_INTERVAL_SECONDS jul10 [])
                       quiet_world)))
              ltac:(reflexivity) ltac:(reflexivity) ltac:(reflexivity))
           eq_refl).
Defined.

(** The three-day run to its end: the records of 07-10 and of 07-12. *)
Example dropped_second_request_run :
  fst (_fetch_data_in_chunks late_flaky_server text_of str_of day_label 3
         "BTC-PERPETUAL" jul10 jul13 1 SLEEP_INTERVAL_SECONDS quiet_world)
  = Return (funding_records jul10 ++ funding_records jul12).
Proof. vm_compute. reflexivity. Qed.

(** A chunk fetch fails and an exception leaves [_fetch_data_in_chunks]
    all the same.  The first request of the two-day run is dropped and
    the fetcher returns [None]; with an interval of minus half a second
    [time.sleep] raises [ValueError] in that same pass, after the failure
    line, and the window of 07-11 is never requested. *)
Lemma refused_interval_ends_failed_pass :
  fst (_get_funding_rate_history_chunk flaky_server text_of str_of "BTC-PERPETUAL"
         jul10 jul11 (at_fetch day_label jul12 86400000 jul10 quiet_world))
  = Return PNone
  /\ fst (_fetch_data_in_chunks flaky_server text_of str_of day_label 2
            "BTC-PERPETUAL" jul10 jul12 1 negative_interval quiet_world)
     = Raise ValueError
  /\ sent (after (_fetch_data_in_chunks flaky_server text_of str_of day_label 2
                    "BTC-PERPETUAL" jul10 jul12 1 negative_interval) quiet_world)
     = [mkRequest API_URL "BTC-PERPETUAL" jul10 jul11]
  /\ last (stdout (after (_fetch_data_in_chunks flaky_server text_of str_of day_label 2
                            "BTC-PERPETUAL" jul10 jul12 1 negative_interval) quiet_world))
     = Some "  - Failed to retrieve data for this chunk.".
Proof. repeat split; vm_compute; reflexivity. Qed.

(** With its first request dropped, the two-day run returns the records
    of the second chunk alone. *)
Example dropped_first_request_run :
  fst (_fetch_data_in_chunks flaky_server text_of str_of day_label 2
         "BTC-PERPETUAL" jul10 jul12 1 SLEEP_INTERVAL_SECONDS quiet_world)
  = Return (funding_records jul11).
Proof. vm_compute. reflexivity. Qed.

(** Three records per chunk over the two-day range: six records, those of
    07-10 before those of 07-11. *)
Lemma two_chunks_of_three_records :
  exists data w',
    _fetch_data_in_chunks funding_server text_of str_of day_label 2
      "BTC-PERPETUAL" jul10 jul12 1 SLEEP_INTERVAL_SECONDS quiet_world
    = (Return data, w')
    /\ data = funding_records jul10 ++ funding_records jul11
    /\ length data = (2 * 3)%nat
    /\ length (sent w') = 2%nat.
Proof.
  destruct (all_chunks_concatenated funding_server text_of str_of day_label
              "BTC-PERPETUAL" jul10 jul12 1 SLEEP_INTERVAL_SECONDS
              (fun i => funding_records (fst (window jul10 jul12 86400000 i)))
              3 quiet_world
              (fun i w' _ => eq_refl) (fun i => eq_refl)) as (Hshape & Hreturns).
  destruct (Hreturns ltac:(discriminate) eq_refl two_day_windows_render 2%nat (le_n 2))
    as (data & w' & Hrun & Hsent).
  change (length (sent w') = 2%nat) in Hsent.
  destruct (Hshape _ _ _ Hrun) as (k & Hk & Hdata & Hlen & _).
  assert (Hk2 : k = 2%nat) by (rewrite Hsent in Hk; simpl in Hk; congruence).
  subst k. exists data, w'.
  split; [exact Hrun | split; [exact Hdata | split; [exact Hlen | exact Hsent]]].
Defined.

Example six_records_run :
  fst (_fetch_data_in_chunks funding_server text_of str_of day_label 2
         "BTC-PERPETUAL" jul10 jul12 1 SLEEP_INTERVAL_SECONDS quiet_world)
  = Return (funding_records jul10 ++ funding_records jul11).
Proof. vm_compute. reflexivity. Qed.

(** The loop of the two-day run ends within two passes. *)
Lemma two_day_range_ends :
  0 < 86400000
  /\ (forall current_start_ts, current_start_ts < current_start_ts + 86400000)
  /\ jul12 <= jul10 + 2 * 86400000
  /\ (forall fuel, (2 <= fuel)%nat ->
        fst (_fetch_data_in_chunks flaky_server text_of str_of day_label fuel
               "BTC-PERPETUAL" jul10 jul12 1 SLEEP_INTERVAL_SECONDS quiet_world)
        <> OutOfFuel).
Proof.
  exact (fetch_loop_ends flaky_server text_of str_of day_label
           "BTC-PERPETUAL" jul10 jul12 1 SLEEP_INTERVAL_SECONDS quiet_world
           ltac:(discriminate)).
Defined.

(** An envelope with neither key, status 200: the fetcher returns [None]. *)
Lemma bare_envelope_gives_none :
  fst (_get_funding_rate_history_chunk bare_envelope_server text_of str_of
         "BTC-PERPETUAL" jul10 jul11 quiet_world)
  = Return PNone.
Proof.
  exact (unrecognized_object_gives_none bare_envelope_server text_of str_of
           "BTC-PERPETUAL" jul10 jul11 quiet_world 200
           [("jsonrpc", PStr "2.0"); ("id", PInt 7)] eq_refl eq_refl eq_refl).
Defined.

(** The body [null] parses as JSON and has neither key, yet the fetcher
    does not return [None]: the test ['result' in response_json] raises
    [TypeError], which propagates. *)
Lemma null_body_raises :
  remote_body null_server = Some PNone
  /\ has_key "result" PNone = false
  /\ has_key "error" PNone = false
  /\ fst (_get_funding_rate_history_chunk null_server text_of str_of
            "BTC-PERPETUAL" jul10 jul11 quiet_world)
     = Raise TypeError
  /\ fst (_get_funding_rate_history_chunk null_server text_of str_of
            "BTC-PERPETUAL" jul10 jul11 quiet_world)
     <> Return PNone.
Proof. repeat split. discriminate. Qed.

(** The configured week with an exchange that has no observations: seven
    fetches, an empty dataset, the notice, and a disk as empty as before. *)
Lemma silent_week_writes_nothing :
  exists w2,
    download_historical_data silent_server text_of str_of day_label utc_midnight_ms
      7 quiet_world
    = (Return tt, w2)
    /\ fs w2 = fs quiet_world
    /\ stdout w2
       = stdout (after (_fetch_data_in_chunks silent_server text_of str_of day_label 7
                          INSTRUMENT_NAME 1752105600000 1752710400000 CHUNK_SIZE_DAYS
                          SLEEP_INTERVAL_SECONDS) (after banner quiet_world))
         ++ [dashes35;
             "No data was downloaded. Check parameters and API status.";
             "--- Download Process Finished ---"]
    /\ (forall file_path w', fs (after (_save_data_to_csv [] file_path) w') = fs w').
Proof.
  exact (empty_dataset_writes_nothing silent_server text_of str_of day_label
           utc_midnight_ms 7 quiet_world
           (after (_fetch_data_in_chunks silent_server text_of str_of day_label 7
                     INSTRUMENT_NAME 1752105600000 1752710400000 CHUNK_SIZE_DAYS
                     SLEEP_INTERVAL_SECONDS) (after banner quiet_world))
           1752105600000 1752710400000 eq_refl eq_refl
           ltac:(vm_compute; reflexivity)).
Defined.

Example silent_week_requests :
  length (sent (after (download_historical_data silent_server text_of str_of day_label
                         utc_midnight_ms 7) quiet_world)) = 7%nat.
Proof. vm_compute. reflexivity. Qed.

(** The two sample records, whose fields come in different orders, saved
    under a directory that does not exist yet: three rows, the second
    record rearranged to the header. *)
Lemma two_records_three_rows :
  exists w',
    _save_data_to_csv (map PDict [first_record; second_record]) "./data/raw/out.csv"
      quiet_world
    = (Return tt, w')
    /\ read_file (fs w') "./data/raw/out.csv"
       = Some [[PStr "timestamp"; PStr "index_price"; PStr "interest_8h"];
               [PInt jul10; PFloat (PyFloat 7626561 (-6)); PFloat (PyFloat 5 (-20))];
               [PInt jul11; PFloat (PyFloat 7630001 (-6)); PFloat (PyFloat 3 (-19))]].
Proof.
  assert (Hsame : forall r, In r [second_record] -> same_fields first_record r).
  { intros r [<- | []] k. simpl. tauto. }
  assert (Hpr : forall r, In r [first_record; second_record] -> printable r = true).
  { intros r [<- | [<- | []]]; reflexivity. }
  destruct (csv_header_then_rows first_record [second_record] "./data/raw/out.csv"
              quiet_world Hsame) as (Hcontent & Hreturns & _).
  destruct (Hreturns ltac:(vm_compute; reflexivity) Hpr) as (w' & Hrun).
  exists w'. split; [exact Hrun | exact (Hcontent w' Hrun)].
Defined.

(** The directories of that save: [data] and [data/raw] have been made
    under the working directory, and the file is reached by every path
    that leads to its place. *)
Example two_records_on_disk :
  let w' := after (_save_data_to_csv (map PDict [first_record; second_record])
                     "./data/raw/out.csv") quiet_world in
  is_dir (fs w') "./data" = true
  /\ is_dir (fs w') "/home/user/futures-trading/data/raw" = true
  /\ file_key (fs w') "./data/raw/out.csv"
     = Some "/home/user/futures-trading/data/raw/out.csv"
  /\ file_key (fs w') "data//raw/../raw/out.csv"
     = Some "/home/user/futures-trading/data/raw/out.csv"
  /\ option_map (@length csv_row) (read_file (fs w') "data/raw/out.csv") = Some 3%nat.
Proof. vm_compute. repeat split. Qed.

(** Calls for records with the field set of the first that write no file
    of (number of records + 1) rows.  A file name without a directory
    part: [os.makedirs('')] raises [FileNotFoundError] and the disk is as
    it was.  A working directory in which [data] is a regular file:
    [os.makedirs] raises [NotADirectoryError].  A path that ends in a
    slash: the directory is made and [open] raises [IsADirectoryError].
    A record that holds an [int] of 4301 digits: the header is written,
    [ValueError] leaves the function, and the file has one row for one
    record. *)
Lemma save_writes_no_such_file :
  _save_data_to_csv (map PDict [first_record; second_record]) "out.csv" quiet_world
  = (Raise FileNotFoundError, quiet_world)
  /\ _save_data_to_csv (map PDict [first_record; second_record]) "./data/raw/out.csv"
       blocked_world
     = (Raise NotADirectoryError, blocked_world)
  /\ (fst (_save_data_to_csv (map PDict [first_record; second_record]) "./data/raw/"
             quiet_world)
      = Raise IsADirectoryError
      /\ files (fs (after (_save_data_to_csv (map PDict [first_record; second_record])
                             "./data/raw/") quiet_world)) = ∅)
  /\ exists w',
       _save_data_to_csv (map PDict [huge_record]) "./data/raw/out.csv" quiet_world
       = (Raise ValueError, w')
       /\ read_file (fs w') "./data/raw/out.csv" = Some [[PStr "volume"]].
Proof.
  split; [| split; [| split]].
  - apply bare_file_name_raises. reflexivity.
  - vm_compute. reflexivity.
  - split; vm_compute; reflexivity.
  - assert (Hcell : row_refused (row_of (dict_keys huge_record) huge_record)
                    = Some ValueError).
    { change (row_of (dict_keys huge_record) huge_record) with [PInt huge_int].
      unfold row_refused. cbn [fold_right].
      change (str_refused repr_depth (PInt huge_int))
        with (if int_str_refused huge_int then Some ValueError else None).
      rewrite huge_int_refused. reflexivity. }
    destruct (refused_first_record_leaves_header huge_record [] "./data/raw/out.csv"
                quiet_world ValueError Hcell ltac:(vm_compute; reflexivity))
      as (w' & Hrun & Hread & _).
    exists w'. split; [exact Hrun | exact Hread].
Qed.

(** C4 at two runs within one second.  The clock readings differ (by their
    microseconds), the parameters are the same, and the two file names are
    the same name. *)
Theorem same_second_same_filename :
  let w1 := quiet_world in
  let w2 := mkWorld [] [] [] (mkDatetime 2025 7 18 9 30 15 870000) (mkFS ∅ ∅ project_dir) in
  clock w1 <> clock w2
  /\ fst (_generate_unique_filename INSTRUMENT_NAME DATA_TYPE START_DATE END_DATE w1)
     = fst (_generate_unique_filename INSTRUMENT_NAME DATA_TYPE START_DATE END_DATE w2)
  /\ fst (_generate_unique_filename INSTRUMENT_NAME DATA_TYPE START_DATE END_DATE w1)
     = Return "DERIBIT_BTC-PERPETUAL_funding_rate_history_from_2025-07-10_to_2025-07-17_at_20250718-093015.csv".
Proof.
  cbv zeta. split; [discriminate |]. split; vm_compute; reflexivity.
Qed.

(** What stops a run short of its calls.  An exchange that answers [null]:
    the first fetch raises [TypeError] and the second window is never
    requested.  A range beyond the year 9999: the date of the first
    progress line cannot be rendered and no request is issued at all. *)
Example null_answer_aborts_run :
  fst (_fetch_data_in_chunks null_server text_of str_of day_label 2
         "BTC-PERPETUAL" jul10 jul12 1 SLEEP_INTERVAL_SECONDS quiet_world)
  = Raise TypeError
  /\ length (sent (after (_fetch_data_in_chunks null_server text_of str_of day_label 2
                            "BTC-PERPETUAL" jul10 jul12 1 SLEEP_INTERVAL_SECONDS)
                     quiet_world)) = 1%nat.
Proof. split; vm_compute; reflexivity. Qed.

Example far_future_range_aborts_run :
  fst (_fetch_data_in_chunks funding_server text_of str_of day_label 2
         "BTC-PERPETUAL" 1000000000000000000 1000000000000000001 1
         SLEEP_INTERVAL_SECONDS quiet_world)
  = Raise ValueError
  /\ sent (after (_fetch_data_in_chunks funding_server text_of str_of day_label 2
                    "BTC-PERPETUAL" 1000000000000000000 1000000000000000001 1
                    SLEEP_INTERVAL_SECONDS) quiet_world) = [].
Proof. split; vm_compute; reflexivity. Qed.

(** The configured week against the sample exchange, end to end: seven
    requests, twenty-one records, and a file of twenty-two rows under the
    output directory, named after the clock reading of [quiet_world]. *)
Example full_week_download :
  let w := after (download_historical_data funding_server text_of str_of day_label
                    utc_midnight_ms 7) quiet_world in
  length (sent w) = 7%nat
  /\ option_map (@length csv_row)
       (read_file (fs w) "./data/raw/DERIBIT_BTC-PERPETUAL_funding_rate_history_from_2025-07-10_to_2025-07-17_at_20250718-093015.csv")
     = Some 22%nat
  /\ is_dir (fs w) "./data/raw" = true.
Proof. vm_compute. repeat split. Qed.



(** The condition on the zone is sufficient, not necessary: Berlin went
    to summer time on 2025-03-30, and the dates on both sides of that
    night come back.  What [strptime] accepts is more than YYYY-MM-DD: a
    month or a day of one digit is read, and comes back with two. *)
Example dates_around_a_transition :
  zone_midnight_ms berlin_zone "2025-03-30" = inl 1743289200000
  /\ zone_local_date berlin_zone 1743289200000 = inl "2025-03-30"
  /\ zone_midnight_ms berlin_zone "2025-03-31" = inl 1743372000000
  /\ zone_local_date berlin_zone 1743372000000 = inl "2025-03-31"
  /\ zone_midnight_ms utc_zone "2025-7-1" = inl 1751328000000
  /\ zone_local_date utc_zone 1751328000000 = inl "2025-07-01"
  /\ zone_midnight_ms utc_zone "2025-02-29" = inr ValueError
  /\ zone_midnight_ms utc_zone "2025-07-35" = inr ValueError.
Proof. repeat split; vm_compute; reflexivity. Qed.

(** The dates of the configuration on UTC are the timestamps of the
    sample runs. *)
Example configured_dates_on_utc :
  zone_midnight_ms utc_zone START_DATE = inl 1752105600000
  /\ zone_midnight_ms utc_zone END_DATE = inl 1752710400000
  /\ zone_local_date utc_zone jul10 = inl "2025-07-10"
  /\ zone_local_date utc_zone jul12 = inl "2025-07-12".
Proof. repeat split; vm_compute; reflexivity. Qed.

(** ** Concrete runs of the single-chunk fetcher *)

(** A dropped request: [None], with the failure line. *)
Lemma dropped_request_gives_none :
  _get_funding_rate_history_chunk flaky_server text_of str_of
    "BTC-PERPETUAL" jul10 jul11 quiet_world
  = (Return PNone,
     mkWorld [mkRequest API_URL "BTC-PERPETUAL" jul10 jul11]
       ["  - Request failed: connection reset"] [] (clock quiet_world) (fs quiet_world)).
Proof.
  exact (failed_exchange_gives_none flaky_server text_of str_of
           "BTC-PERPETUAL" jul10 jul11 quiet_world eq_refl).
Defined.

(** The sample exchange: the three records of the window, nothing printed. *)
Lemma sample_result_is_returned :
  _get_funding_rate_history_chunk funding_server text_of str_of
    "BTC-PERPETUAL" jul10 jul11 quiet_world
  = (Return (PList (funding_records jul10)),
     mkWorld [mkRequest API_URL "BTC-PERPETUAL" jul10 jul11] [] []
       (clock quiet_world) (fs quiet_world)).
Proof.
  exact (result_is_returned_as_is funding_server text_of str_of
           "BTC-PERPETUAL" jul10 jul11 quiet_world 200 _ _ eq_refl eq_refl eq_refl).
Defined.

(** A rejected request: [None], with the message of the exchange. *)
Lemma rejected_request_is_reported :
  _get_funding_rate_history_chunk rejecting_server text_of str_of
    "BTC-PERPETUAL" jul10 jul11 quiet_world
  = (Return PNone,
     mkWorld [mkRequest API_URL "BTC-PERPETUAL" jul10 jul11]
       ["  - API Error: Invalid params"] [] (clock quiet_world) (fs quiet_world)).
Proof.
  exact (api_error_is_reported rejecting_server text_of str_of
           "BTC-PERPETUAL" jul10 jul11 quiet_world 200 _ _ _
           eq_refl eq_refl eq_refl eq_refl eq_refl).
Defined.

(** An error that is a bare string: [TypeError], nothing printed. *)
Lemma terse_error_raises :
  _get_funding_rate_history_chunk terse_server text_of str_of
    "BTC-PERPETUAL" jul10 jul11 quiet_world
  = (Raise TypeError,
     mkWorld [mkRequest API_URL "BTC-PERPETUAL" jul10 jul11] [] []
       (clock quiet_world) (fs quiet_world)).
Proof.
  exact (unreadable_error_raises terse_server text_of str_of
           "BTC-PERPETUAL" jul10 jul11 quiet_world 200 _ (PStr "bad request")
           eq_refl eq_refl eq_refl eq_refl I).
Defined.

(** ** Concrete runs of the aggregator *)

(** A window without observations is reported as a failed chunk. *)
Lemma empty_window_reported_failed :
  exists w2,
    loop_body silent_server text_of str_of day_label "BTC-PERPETUAL" jul12 86400000
      SLEEP_INTERVAL_SECONDS jul10 [] quiet_world
    = (Return [], w2)
    /\ last (stdout w2) = Some "  - Failed to retrieve data for this chunk."
    /\ slept w2 = [SLEEP_INTERVAL_SECONDS].
Proof.
  eexists. split; [| split].
  - exact (proj2 (pass_with_list silent_server text_of str_of day_label
                    "BTC-PERPETUAL" jul12 86400000 SLEEP_INTERVAL_SECONDS jul10 []
                    quiet_world [] _ eq_refl eq_refl) eq_refl).
  - reflexivity.
  - reflexivity.
Defined.

(** A count instead of a list: the pass raises and does not sleep. *)
Lemma count_result_raises :
  exists w1,
    loop_body counting_server text_of str_of day_label "BTC-PERPETUAL" jul12 86400000
      SLEEP_INTERVAL_SECONDS jul10 [] quiet_world
    = (Raise TypeError, w1)
    /\ slept w1 = [].
Proof.
  eexists. split.
  - exact (pass_with_scalar_raises counting_server text_of str_of day_label
             "BTC-PERPETUAL" jul12 86400000 SLEEP_INTERVAL_SECONDS jul10 [] quiet_world
             (PInt 3) _ eq_refl eq_refl eq_refl eq_refl).
  - reflexivity.
Defined.

(** The dates of the example the wrong way round: nothing happens. *)
Lemma reversed_range_is_noop :
  _fetch_data_in_chunks funding_server text_of str_of day_label 5
    "BTC-PERPETUAL" jul12 jul10 1 SLEEP_INTERVAL_SECONDS quiet_world
  = (Return [], quiet_world).
Proof.
  apply (empty_range_is_noop funding_server text_of str_of day_label 5
           "BTC-PERPETUAL" jul12 jul10 1 SLEEP_INTERVAL_SECONDS quiet_world).
  unfold jul10, jul12. lia.
Defined.

(** The two-day run with a dropped first request sleeps twice. *)
Lemma two_day_run_sleeps_twice :
  exists k,
    length (sent (after (_fetch_data_in_chunks flaky_server text_of str_of day_label 2
                           "BTC-PERPETUAL" jul10 jul12 1 SLEEP_INTERVAL_SECONDS)
                    quiet_world))
    = (length (sent quiet_world) + k)%nat
    /\ slept (after (_fetch_data_in_chunks flaky_server text_of str_of day_label 2
                       "BTC-PERPETUAL" jul10 jul12 1 SLEEP_INTERVAL_SECONDS)
                quiet_world)
       = slept quiet_world ++ repeat SLEEP_INTERVAL_SECONDS k.
Proof.
  exact (sleeps_once_per_chunk flaky_server text_of str_of day_label 2
           "BTC-PERPETUAL" jul10 jul12 1 SLEEP_INTERVAL_SECONDS quiet_world _
           (funding_records jul11) ltac:(vm_compute; reflexivity)).
Defined.

(** The windows of a range of a day and a half: a full day and a half
    day, the second starting where the first ends. *)
Lemma day_and_a_half_is_tiled :
  exists reqs,
    sent (after (_fetch_data_in_chunks funding_server text_of str_of day_label 2
                   "BTC-PERPETUAL" jul10 (jul11 + 43200000) 1 SLEEP_INTERVAL_SECONDS)
            quiet_world)
    = sent quiet_world ++ reqs
    /\ (exists r, reqs !! O = Some r /\ req_start_timestamp r = jul10)
    /\ (exists r, reqs !! (length reqs - 1)%nat = Some r
                  /\ req_end_timestamp r = jul11 + 43200000)
    /\ (forall i r,
          reqs !! i = Some r ->
          req_start_timestamp r < req_end_timestamp r
                                  <= req_start_timestamp r + chunk_size_ms_of 1
          /\ (forall r', reqs !! Datatypes.S i = Some r' ->
                         req_start_timestamp r' = req_end_timestamp r)).
Proof.
  exact (windows_tile_the_range funding_server text_of str_of day_label 2
           "BTC-PERPETUAL" jul10 (jul11 + 43200000) 1 SLEEP_INTERVAL_SECONDS quiet_world _
           (funding_records jul10 ++ funding_records jul11)
           ltac:(reflexivity) ltac:(discriminate) ltac:(vm_compute; reflexivity)).
Defined.

(** ** Concrete runs of the orchestrator *)


(** An exchange that answers [null]: the run ends with [TypeError] and an
    empty disk. *)
Lemma null_answer_aborts_download :
  download_historical_data null_server text_of str_of day_label utc_midnight_ms
    7 quiet_world
  = (Raise TypeError,
     after (_fetch_data_in_chunks null_server text_of str_of day_label 7
              INSTRUMENT_NAME 1752105600000 1752710400000 CHUNK_SIZE_DAYS
              SLEEP_INTERVAL_SECONDS) (after banner quiet_world))
  /\ fs (after (_fetch_data_in_chunks null_server text_of str_of day_label 7
                  INSTRUMENT_NAME 1752105600000 1752710400000 CHUNK_SIZE_DAYS
                  SLEEP_INTERVAL_SECONDS) (after banner quiet_world))
     = fs quiet_world.
Proof.
  exact (failed_fetch_aborts_run null_server text_of str_of day_label utc_midnight_ms
           7 quiet_world _ 1752105600000 1752710400000 TypeError eq_refl eq_refl
           ltac:(vm_compute; reflexivity)).
Defined.

Lemma keys_among_check (header : list string) (rows : list (list (string * pyval))) :
  forallb (fun r => forallb (fun k => existsb (String.eqb k) header) (dict_keys r)) rows
  = true ->
  forall r, In r rows -> forall k, In k (dict_keys r) -> In k header.
Proof.
  intros Hall r Hr k Hk. rewrite forallb_forall in Hall.
  specialize (Hall r Hr). rewrite forallb_forall in Hall. specialize (Hall k Hk).
  apply existsb_exists in Hall as (k' & Hin & Heq).
  apply String.eqb_eq in Heq. now subst k'.
Defined.

Lemma printable_check (rows : list (list (string * pyval))) :
  forallb printable rows = true -> forall r, In r rows -> printable r = true.
Proof. intros Hall r Hr. rewrite forallb_forall in Hall. exact (Hall r Hr). Defined.

(** The configured week against the sample exchange: the file of
    twenty-two rows is written under the output directory. *)
Lemma sample_week_is_saved :
  exists w2,
    download_historical_data funding_server text_of str_of day_label utc_midnight_ms
      7 quiet_world
    = (Return tt, w2)
    /\ option_map (@length csv_row)
         (read_file (fs w2) "./data/raw/DERIBIT_BTC-PERPETUAL_funding_rate_history_from_2025-07-10_to_2025-07-17_at_20250718-093015.csv")
       = Some 22%nat
    /\ last (stdout w2) = Some "--- Download Process Finished ---".
Proof.
  destruct (nonempty_dataset_is_saved funding_server text_of str_of day_label
              utc_midnight_ms 7 quiet_world
              (after (_fetch_data_in_chunks funding_server text_of str_of day_label 7
                        INSTRUMENT_NAME 1752105600000 1752710400000 CHUNK_SIZE_DAYS
                        SLEEP_INTERVAL_SECONDS) (after banner quiet_world))
              1752105600000 1752710400000
              (funding_fields jul10) (tl week_fields)
              eq_refl eq_refl ltac:(vm_compute; reflexivity)
              (keys_among_check (dict_keys (funding_fields jul10)) (tl week_fields)
                 ltac:(vm_compute; reflexivity))
              (printable_check (funding_fields jul10 :: tl week_fields)
                 ltac:(vm_compute; reflexivity))
              ltac:(vm_compute; reflexivity) ltac:(vm_compute; discriminate)
              ltac:(vm_compute; reflexivity))
    as (w2 & Hrun & Hread & _ & _ & Hout).
  exists w2. split; [exact Hrun |]. split.
  - etransitivity; [| etransitivity;
                       [exact (f_equal (option_map (@length csv_row)) Hread) |]].
    + f_equal.
    + vm_compute. reflexivity.
  - rewrite Hout. rewrite last_app. reflexivity.
Defined.

(** ** Concrete runs of the CSV writer *)

(** Saving over a stale file: its rows are replaced, the neighbour is
    kept, under whatever spelling of their paths. *)
Lemma stale_file_is_replaced :
  read_file (fs stale_world) "./data/raw/out.csv" = Some [[PStr "stale"]; [PStr "rows"]]
  /\ exists w',
       _save_data_to_csv (map PDict [first_record; second_record]) "./data/raw/out.csv"
         stale_world
       = (Return tt, w')
       /\ read_file (fs w') "./data/raw/out.csv"
          = Some (map PStr (dict_keys first_record)
                  :: map (row_of (dict_keys first_record)) [first_record; second_record])
       /\ read_file (fs w') "data/raw/out.csv" = read_file (fs w') "./data/raw/out.csv"
       /\ read_file (fs w') "data/raw/other.csv" = Some [[PStr "kept"]].
Proof.
  split; [vm_compute; reflexivity |].
  destruct (save_replaces_only_its_file first_record [second_record] "./data/raw/out.csv"
              stale_world
              (after (_save_data_to_csv (map PDict [first_record; second_record])
                        "./data/raw/out.csv") stale_world)
              ltac:(vm_compute; reflexivity)) as (handle & _ & _ & Hread & _).
  exists (after (_save_data_to_csv (map PDict [first_record; second_record])
                   "./data/raw/out.csv") stale_world).
  split; [vm_compute; reflexivity |]. split; [exact Hread |].
  split; vm_compute; reflexivity.
Defined.

(** A record without prices gets empty cells under the price headers. *)
Lemma sparse_record_is_padded :
  exists w' rows,
    _save_data_to_csv (map PDict [first_record; sparse_record]) "./data/raw/out.csv"
      quiet_world
    = (Return tt, w')
    /\ read_file (fs w') "./data/raw/out.csv" = Some rows
    /\ (forall j r i k,
          [first_record; sparse_record] !! j = Some r ->
          dict_keys first_record !! i = Some k ->
          exists row,
            rows !! Datatypes.S j = Some row
            /\ row !! i = Some (match dict_get k r with
                                | Some v => v
                                | None => PStr ""
                                end)).
Proof.
  exact (missing_fields_become_empty_cells first_record [sparse_record]
           "./data/raw/out.csv" quiet_world
           (keys_among_check (dict_keys first_record) [sparse_record]
              ltac:(vm_compute; reflexivity))
           (printable_check [first_record; sparse_record] ltac:(vm_compute; reflexivity))
           ltac:(vm_compute; reflexivity)).
Defined.

Example sparse_record_row :
  option_map (fun rows => rows !! 2%nat)
    (read_file (fs (after (_save_data_to_csv (map PDict [first_record; sparse_record])
                             "./data/raw/out.csv") quiet_world)) "./data/raw/out.csv")
  = Some (Some [PInt jul11; PStr ""; PStr ""]).
Proof. vm_compute. reflexivity. Qed.

(** A third record with a field of its own: [ValueError], and a file of
    the header and the first two rows. *)
Lemma odd_record_leaves_partial_file :
  exists w',
    _save_data_to_csv (map PDict [first_record; second_record] ++ [PDict odd_record])
      "./data/raw/out.csv" quiet_world
    = (Raise ValueError, w')
    /\ read_file (fs w') "./data/raw/out.csv"
       = Some (map PStr (dict_keys first_record)
               :: map (row_of (dict_keys first_record)) [first_record; second_record])
    /\ stdout w' = stdout quiet_world.
Proof.
  apply (extra_key_leaves_partial_file first_record [second_record] odd_record []
           "./data/raw/out.csv" quiet_world
           (keys_among_check (dict_keys first_record) [second_record]
              ltac:(vm_compute; reflexivity))
           (printable_check [first_record; second_record] ltac:(vm_compute; reflexivity))).
  - exists "mark_price". split; [right; left; reflexivity |].
    intros [H | [H | [H | []]]]; discriminate H.
  - vm_compute. reflexivity.
Defined.

(** A list of numbers instead of records: [AttributeError], and the
    stale file is now empty. *)
Lemma numbers_truncate_the_file :
  read_file (fs stale_world) "./data/raw/out.csv" = Some [[PStr "stale"]; [PStr "rows"]]
  /\ exists w',
       _save_data_to_csv [PInt 1; PInt 2] "./data/raw/out.csv" stale_world
       = (Raise AttributeError, w')
       /\ read_file (fs w') "./data/raw/out.csv" = Some []
       /\ stdout w' = stdout stale_world.
Proof.
  split; [vm_compute; reflexivity |].
  exact (non_dict_first_leaves_empty_file (PInt 1) [PInt 2] "./data/raw/out.csv"
           stale_world eq_refl ltac:(vm_compute; reflexivity)).
Defined.

(** A file name without a directory part is refused. *)
Lemma bare_name_is_refused :
  _save_data_to_csv (map PDict [first_record]) "out.csv" quiet_world
  = (Raise FileNotFoundError, quiet_world).
Proof.
  exact (bare_file_name_raises (PDict first_record) [] "out.csv" quiet_world eq_refl).
Defined.

(** ** Concrete runs of the file name *)

(** Two different readings within one second, and the same name. *)
Lemma same_second_iff_same_name :
  clock quiet_world <> clock later_world
  /\ to_the_second (clock quiet_world) = to_the_second (clock later_world)
  /\ (fst (_generate_unique_filename INSTRUMENT_NAME DATA_TYPE START_DATE END_DATE
             quiet_world)
      = fst (_generate_unique_filename INSTRUMENT_NAME DATA_TYPE START_DATE END_DATE
               later_world)
      <-> to_the_second (clock quiet_world) = to_the_second (clock later_world)).
Proof.
  split; [discriminate |]. split; [reflexivity |].
  exact (names_agree_iff_same_second INSTRUMENT_NAME DATA_TYPE START_DATE END_DATE
           quiet_world later_world eq_refl eq_refl).
Defined.

(** The name of the configured run lies directly in the output directory. *)
Lemma configured_name_is_in_output_directory :
  exists name,
    _generate_unique_filename INSTRUMENT_NAME DATA_TYPE START_DATE END_DATE quiet_world
    = (Return name, quiet_world)
    /\ has_slash name = false
    /\ os_path_join OUTPUT_DIRECTORY name = OUTPUT_DIRECTORY +:+ "/" +:+ name
    /\ os_path_dirname (os_path_join OUTPUT_DIRECTORY name) = OUTPUT_DIRECTORY.
Proof.
  exact (generated_name_is_in_output_directory INSTRUMENT_NAME DATA_TYPE START_DATE
           END_DATE quiet_world eq_refl eq_refl eq_refl eq_refl eq_refl).
Defined.

(** The two-day run with a dropped first request: the list returned is
    that of the second chunk alone. *)
Lemma dropped_first_request_aggregate :
  fst (_fetch_data_in_chunks flaky_server text_of str_of day_label 2
         "BTC-PERPETUAL" jul10 jul12 1 SLEEP_INTERVAL_SECONDS quiet_world)
  = Return (funding_records jul11).
Proof.
  apply (aggregate_of_replies flaky_server text_of str_of day_label
           "BTC-PERPETUAL" jul10 jul12 1 SLEEP_INTERVAL_SECONDS
           (fun i => match i with
                     | O => PNone
                     | _ => PList (funding_records (fst (window jul10 jul12 86400000 i)))
                     end)
           2 quiet_world ltac:(discriminate) eq_refl (le_n 2) two_day_windows_render).
  - intros i w' Hi Hlen.
    change (num_chunks _ _ _) with 2%nat in Hi.
    unfold _get_funding_rate_history_chunk, bind, requests_get. cbv beta iota zeta.
    rewrite Hlen. destruct i as [| [| i]]; [reflexivity | reflexivity | lia].
  - intros i Hi. change (num_chunks _ _ _) with 2%nat in Hi.
    destruct i as [| [| i]]; [reflexivity | reflexivity | lia].
Defined.
